(** * ai-resume-analyzer: the document ingestion pipeline and the Gemini client

    A shallow embedding of [src/utils/fileHandler.js] (validation, text
    extraction, OCR fallback, batch processing, the memoised pdf.js loader)
    and of [callGeminiAPI] from the application component, followed by the
    properties of these functions.

    JavaScript strings are modelled by [string], read as sequences of code
    units below 256.  [async] functions are modelled sequentially: awaiting
    a promise yields the way it settled, which matches the code, where every
    promise is awaited as soon as it is created. *)

From Stdlib Require Import List String Ascii Bool Arith NArith Lia.
From Stdlib Require Import DecimalString.
From Stdlib Require QArith.
Import ListNotations.
Open Scope string_scope.

(* ================================================================== *)
(** ** JavaScript strings *)

Module JsString.

(** White space in the sense of [String.prototype.trim], restricted to
    code units below 256: TAB, LF, VT, FF, CR, SPACE and NBSP. *)
Definition is_white_space (c : ascii) : bool :=
  existsb (Nat.eqb (nat_of_ascii c)) [9; 10; 11; 12; 13; 32; 160].

Fixpoint drop_white_space (l : list ascii) : list ascii :=
  match l with
  | [] => []
  | c :: r => if is_white_space c then drop_white_space r else l
  end.

Definition trim_chars (l : list ascii) : list ascii :=
  rev (drop_white_space (rev (drop_white_space l))).

(** [s.trim()] *)
Definition trim (s : string) : string :=
  string_of_list_ascii (trim_chars (list_ascii_of_string s)).

(** [a.join(sep)] *)
Definition join (sep : string) (a : list string) : string :=
  String.concat sep a.

(** [String(n)] for a non-negative integer. *)
Definition of_N (n : N) : string := NilEmpty.string_of_uint (N.to_uint n).
Definition of_nat (n : nat) : string := of_N (N.of_nat n).

(** [!s]: the empty string is the only falsy string. *)
Definition falsy (s : string) : bool := Nat.eqb (String.length s) 0.

(** [(size / 1024 / 1024).toFixed(2)].  Both divisions are by a power of
    two and therefore exact for every integer size below 2^53, so the
    digits are those of the nearest multiple of 1/100, ties going up. *)
Definition toFixed2_MiB (size : N) : string :=
  let n := ((200 * size + 1048576) / 2097152)%N in
  let frac := (n mod 100)%N in
  of_N (n / 100) ++ "." ++ (if (frac <? 10)%N then "0" else "") ++ of_N frac.

(** What [drop_white_space] leaves starts with a visible character. *)
Definition starts_visible (l : list ascii) : Prop :=
  match l with
  | [] => True
  | c :: _ => is_white_space c = false
  end.

End JsString.

(* ================================================================== *)
(** ** Exceptions, state and the trace of observable calls *)

(** How a call ends: it returns, or it throws an [Error] of which the code
    only ever reads [message]. *)
Inductive Outcome (A : Type) : Type :=
| Returned (a : A)
| Thrown (message : string).
Arguments Returned {A} a.
Arguments Thrown {A} message.

(** A computation over a store [W] that records events of type [E]. *)
Definition Js (W E A : Type) : Type := W -> Outcome A * W * list E.

Section JsMonad.
Context {W E : Type}.

Definition ret {A} (a : A) : Js W E A := fun w => (Returned a, w, []).

Definition throw {A} (message : string) : Js W E A :=
  fun w => (Thrown message, w, []).

Definition bind {A B} (m : Js W E A) (k : A -> Js W E B) : Js W E B :=
  fun w =>
    match m w with
    | (Returned a, w1, l1) => let '(r, w2, l2) := k a w1 in (r, w2, (l1 ++ l2)%list)
    | (Thrown e, w1, l1) => (Thrown e, w1, l1)
    end.

(** [try { m } catch (error) { h error.message }] *)
Definition try_catch {A} (m : Js W E A) (h : string -> Js W E A) : Js W E A :=
  fun w =>
    match m w with
    | (Returned a, w1, l1) => (Returned a, w1, l1)
    | (Thrown e, w1, l1) => let '(r, w2, l2) := h e w1 in (r, w2, (l1 ++ l2)%list)
    end.

(** Awaiting a promise that settled as [o]. *)
Definition await {A} (o : Outcome A) : Js W E A := fun w => (o, w, []).

Definition emit (e : E) : Js W E unit := fun w => (Returned tt, w, [e]).

Definition emit_all (l : list E) : Js W E unit := fun w => (Returned tt, w, l).

(** [for (let i = start; i < start + n; i++) acc = body i acc] *)
Fixpoint for_loop {A} (n start : nat) (body : nat -> A -> Js W E A) (acc : A)
  : Js W E A :=
  match n with
  | 0 => ret acc
  | S n' => bind (body start acc) (for_loop n' (S start) body)
  end.

Definition result {A} (x : Outcome A * W * list E) : Outcome A := fst (fst x).
Definition store {A} (x : Outcome A * W * list E) : W := snd (fst x).
Definition events {A} (x : Outcome A * W * list E) : list E := snd x.

End JsMonad.

(** *** Invariants and postconditions of computations *)

Section JsPredicates.
Context {W E : Type}.

(** [respects I P m]: from a store satisfying [I], the computation [m]
    ends in a store satisfying [I] and records only events satisfying
    [P]. *)
Definition respects {A} (I : W -> Prop) (P : E -> Prop) (m : Js W E A) : Prop :=
  forall w, I w -> I (store (m w)) /\ Forall P (events (m w)).

(** [returns Q m]: whenever [m] returns, the value satisfies [Q]. *)
Definition returns {A} (Q : A -> Prop) (m : Js W E A) : Prop :=
  forall w a, result (m w) = Returned a -> Q a.

End JsPredicates.

Declare Scope js_scope.
Delimit Scope js_scope with js.
Notation "x <- m ;; k" := (bind m (fun x => k))
  (at level 61, m at next level, right associativity) : js_scope.
Notation "m ;;; k" := (bind m (fun _ => k))
  (at level 61, right associativity) : js_scope.

(* ================================================================== *)
(** ** src/utils/fileHandler.js *)

Module FileHandler.
Import JsString.
Local Open Scope js_scope.

(** The bytes that an [ArrayBuffer] holds. *)
Definition ArrayBuffer : Type := string.

(** An [ArrayBuffer] object as a function of pdf.js finds it: holding
    its bytes, or detached.  The [getDocument] of pdf.js 3.11.174, the
    build that [loadPdfJs] loads, transfers the [data] it is given to its
    worker, which leaves the caller's object detached: it holds no bytes
    and no view can be constructed on it any more. *)
Inductive BufferObject : Type :=
| Attached (bytes : ArrayBuffer)
| Detached.

Coercion Attached : ArrayBuffer >-> BufferObject.

(** What is left of the caller's buffer once [getDocument] was given it. *)
Definition transferred (data : BufferObject) : BufferObject := Detached.

(** A [File]: its metadata, how [file.arrayBuffer()] settles, and what
    [FileReader.readAsText] delivers ([None] when [onerror] fires). *)
Record File : Type := {
  name : string;
  size : N;
  type : string;
  arrayBuffer : Outcome ArrayBuffer;
  readAsText : option string
}.

(** *** File type validation *)

Record FileTypeInfo : Type := { extension : string; type_name : string }.

Definition SUPPORTED_FILE_TYPES : list (string * FileTypeInfo) :=
  [ ("application/pdf", {| extension := ".pdf"; type_name := "PDF" |});
    ("text/plain", {| extension := ".txt"; type_name := "Text" |});
    ("application/vnd.openxmlformats-officedocument.wordprocessingml.document",
      {| extension := ".docx"; type_name := "Word Document" |});
    ("application/msword", {| extension := ".doc"; type_name := "Word Document" |});
    ("image/png", {| extension := ".png"; type_name := "PNG Image" |});
    ("image/jpeg", {| extension := ".jpg"; type_name := "JPEG Image" |});
    ("image/jpg", {| extension := ".jpg"; type_name := "JPEG Image" |}) ].

Definition MAX_FILE_SIZE : N := 10 * 1024 * 1024.
Definition MAX_FILES : nat := 5.

(** [SUPPORTED_FILE_TYPES] is an object literal, so [obj[key]] also finds
    what the object inherits from [Object.prototype]. *)
Definition Object_prototype_properties : list string :=
  [ "constructor"; "__defineGetter__"; "__defineSetter__"; "hasOwnProperty";
    "__lookupGetter__"; "__lookupSetter__"; "isPrototypeOf";
    "propertyIsEnumerable"; "toString"; "valueOf"; "__proto__";
    "toLocaleString" ].

Inductive Property (A : Type) : Type :=
| Own (a : A)
| Inherited.
Arguments Own {A} a.
Arguments Inherited {A}.

Fixpoint own_property {A} (o : list (string * A)) (key : string) : option A :=
  match o with
  | [] => None
  | (k, a) :: o' => if String.eqb k key then Some a else own_property o' key
  end.

(** [o[key]]; [None] is [undefined]. *)
Definition get_property {A} (o : list (string * A)) (key : string)
  : option (Property A) :=
  match own_property o key with
  | Some a => Some (Own a)
  | None =>
      if existsb (String.eqb key) Object_prototype_properties
      then Some Inherited else None
  end.

Record Validation : Type := { success : bool; message : string }.

Definition validateFile (file : File) : Validation :=
  if (MAX_FILE_SIZE <? size file)%N then
    {| success := false;
       message := "File size exceeds 10MB limit. Current size: "
                  ++ toFixed2_MiB (size file) ++ "MB" |}
  else
    match get_property SUPPORTED_FILE_TYPES (type file) with
    | None =>
        {| success := false;
           message := "Unsupported file type: " ++ type file
                      ++ ". Supported types: PDF, TXT, DOCX, DOC, PNG, JPG" |}
    | Some _ => {| success := true; message := "File is valid" |}
    end.

Record BatchValidation : Type := {
  batch_success : bool;
  validFiles : list File;
  errors : list string
}.

Definition validateMultipleFiles (files : list File) : BatchValidation :=
  if (MAX_FILES <? List.length files)%nat then
    {| batch_success := false;
       validFiles := [];
       errors := [ "Maximum " ++ of_nat MAX_FILES ++ " files allowed. You selected "
                   ++ of_nat (List.length files) ++ " files." ] |}
  else
    let '(validFiles, errors) :=
      fold_left
        (fun '(validFiles, errors) file =>
           let validation := validateFile file in
           if success validation
           then ((validFiles ++ [file])%list, errors)
           else (validFiles,
                 (errors ++ [(name file ++ ": " ++ message validation)%string])%list))
        files ([], []) in
    {| batch_success := Nat.eqb (List.length errors) 0;
       validFiles := validFiles;
       errors := errors |}.

(** *** The browser, pdf.js, Tesseract and mammoth *)

(** A page of a parsed PDF: the [str] of the items of its text layer, and
    the PNG bytes obtained by rendering it on a canvas at scale 2 and
    fetching the data URL (any step of which may fail). *)
Record PdfPage : Type := {
  getTextContent : Outcome (list string);
  render_png : Outcome ArrayBuffer
}.

(** A parsed document: how [pdf.getPage(i)] settles, for i = 1..numPages. *)
Definition PdfDocument : Type := list (Outcome PdfPage).
Definition numPages (pdf : PdfDocument) : nat := List.length pdf.

(** A message passed to the Tesseract logger; [percent] stands for
    [Math.round(m.progress * 100)]. *)
Record LoggerMessage : Type := { status : string; percent : N }.

Inductive PdfJsLib : Type := WindowPdfjsLib.

Record Browser : Type := {
  (** whether the k-th script tag appended for pdf.js fires [onload] *)
  script_onload : nat -> bool;
  (** [pdfjsLib.getDocument({ data }).promise], for a buffer that holds
      these bytes *)
  getDocument : ArrayBuffer -> Outcome PdfDocument;
  (** the message of the [TypeError] that the engine throws when a view
      is constructed on a detached buffer (its wording depends on the
      engine) *)
  detachedBufferError : string;
  (** [Tesseract.recognize(image, 'eng', { logger })]: the messages logged
      and [result.data.text] *)
  recognize : ArrayBuffer -> list LoggerMessage * Outcome string;
  (** [mammoth.extractRawText({ buffer })]: [result.value] *)
  extractRawText : ArrayBuffer -> Outcome string;
  (** [Math.round(((i - 1) / totalPages) * 100)], a floating-point
      computation, as a function of [i - 1] and [totalPages] *)
  round_percent : nat -> nat -> N
}.

(** The module-level variable [pdfjsLibPromise] ([None] is [null]), and
    the number of script tags appended so far. *)
Record World : Type := {
  pdfjsLibPromise : option (Outcome PdfJsLib);
  scriptsAppended : nat
}.

Record BatchProgress : Type := {
  currentFile : nat;
  totalFiles : nat;
  progressFileName : string;
  progress : N
}.

(** What a progress observer records when it is called. *)
Inductive Notification : Type :=
| Percent (p : N)
| FileProgress (p : BatchProgress).

Inductive Event : Type :=
| Called (fn : string)          (** entry into a function of the module *)
| ScriptAppended                (** [document.head.appendChild(script)] *)
| GetPage (i : nat)             (** [pdf.getPage(i)] *)
| Recognize (label : string)    (** [Tesseract.recognize] *)
| Warn (text : string)          (** [console.warn] *)
| Notified (n : Notification).  (** a progress observer ran *)

(** A progress observer is modelled by what it records, and does not
    throw; [None] is an absent callback. *)
Definition Callback (A : Type) : Type := option (A -> list Notification).

Definition M : Type -> Type := Js World Event.

(** [if (onProgress) onProgress(a)] *)
Definition notify {A} (onProgress : Callback A) (a : A) : M unit :=
  match onProgress with
  | Some f => emit_all (map Notified (f a))
  | None => ret tt
  end.

Definition LF : string := String (ascii_of_nat 10) EmptyString.

Section WithBrowser.
Variable browser : Browser.

(** Returns the cached promise, creating it on the first call. *)
Definition loadPdfJs : M (Outcome PdfJsLib) :=
  fun w =>
    match pdfjsLibPromise w with
    | Some promise => (Returned promise, w, [])
    | None =>
        let promise :=
          if script_onload browser (scriptsAppended w)
          then Returned WindowPdfjsLib
          else Thrown "Failed to load PDF.js library from CDN." in
        (Returned promise,
         {| pdfjsLibPromise := Some promise;
            scriptsAppended := S (scriptsAppended w) |},
         [ScriptAppended])
    end.

(** [pdfjsLib.getDocument({ data }).promise]: pdf.js first wraps [data]
    in a [Uint8Array], which throws on a detached buffer. *)
Definition lib_getDocument (pdfjsLib : PdfJsLib) (data : BufferObject)
  : M PdfDocument :=
  match data with
  | Attached bytes => await (getDocument browser bytes)
  | Detached => throw (detachedBufferError browser)
  end.

Definition getPage (pdf : PdfDocument) (i : nat) : M PdfPage :=
  emit (GetPage i) ;;;
  await (nth (i - 1) pdf (Thrown "Invalid page request")).

Definition isScannedPDF (pdfBuffer : BufferObject) : M bool :=
  emit (Called "isScannedPDF") ;;;
  try_catch
    (promise <- loadPdfJs ;;
     pdfjsLib <- await promise ;;
     pdf <- lib_getDocument pdfjsLib pdfBuffer ;;
     let maxPagesToCheck := Nat.min (numPages pdf) 3 in
     totalTextLength <-
       for_loop maxPagesToCheck 1
         (fun i totalTextLength =>
            page <- getPage pdf i ;;
            textContent <- await (getTextContent page) ;;
            let pageText := join " " textContent in
            ret (totalTextLength + String.length pageText))
         0 ;;
     ret (totalTextLength <? 50)%nat)
    (fun error =>
       emit (Warn ("Error checking if PDF is scanned: " ++ error)) ;;;
       ret false).

Definition extractTextFromPDF (pdfBuffer : BufferObject) : M string :=
  emit (Called "extractTextFromPDF") ;;;
  try_catch
    (promise <- loadPdfJs ;;
     pdfjsLib <- await promise ;;
     pdf <- lib_getDocument pdfjsLib pdfBuffer ;;
     fullText <-
       for_loop (numPages pdf) 1
         (fun i fullText =>
            page <- getPage pdf i ;;
            textContent <- await (getTextContent page) ;;
            ret (fullText ++ join " " textContent ++ LF))
         "" ;;
     ret (trim fullText))
    (fun error => throw ("Failed to extract text from PDF: " ++ error)).

Definition extractTextFromDocx (docBuffer : ArrayBuffer) : M string :=
  emit (Called "extractTextFromDocx") ;;;
  try_catch
    (value <- await (extractRawText browser docBuffer) ;;
     ret (trim value))
    (fun error =>
       throw ("Failed to extract text from Word document: " ++ error)).

Definition extractTextFromImage (imageBuffer : ArrayBuffer)
    (fileName : string) (onProgress : Callback N) : M string :=
  emit (Called "extractTextFromImage") ;;;
  try_catch
    (emit (Recognize fileName) ;;;
     let '(logged, settled) := recognize browser imageBuffer in
     emit_all
       (flat_map
          (fun m =>
             match onProgress with
             | Some f =>
                 if String.eqb (status m) "recognizing text"
                 then map Notified (f (percent m)) else []
             | None => []
             end)
          logged) ;;;
     text <- await settled ;;
     ret (trim text))
    (fun error => throw ("Failed to extract text from image: " ++ error)).

Definition processScannedPDF (pdfBuffer : BufferObject) (fileName : string)
    (onProgress : Callback N) : M string :=
  emit (Called "processScannedPDF") ;;;
  try_catch
    (promise <- loadPdfJs ;;
     pdfjsLib <- await promise ;;
     pdf <- lib_getDocument pdfjsLib pdfBuffer ;;
     let totalPages := numPages pdf in
     fullText <-
       for_loop totalPages 1
         (fun i fullText =>
            notify onProgress (round_percent browser (i - 1) totalPages) ;;;
            page <- getPage pdf i ;;
            imageBuffer <- await (render_png page) ;;
            pageText <-
              extractTextFromImage imageBuffer
                (fileName ++ " - Page " ++ of_nat i) None ;;
            ret (fullText ++ pageText ++ LF ++ LF))
         "" ;;
     notify onProgress 100%N ;;;
     ret (trim fullText))
    (fun error => throw ("Failed to process scanned PDF: " ++ error)).

Inductive ExtractionResult : Type :=
| Success (text method fileName : string) (fileSize : N) (fileType : string)
| Failure (error fileName : string) (fileSize : N) (fileType : string).

Definition fileName (r : ExtractionResult) : string :=
  match r with Success _ _ n _ _ | Failure _ n _ _ => n end.
Definition fileSize (r : ExtractionResult) : N :=
  match r with Success _ _ _ s _ | Failure _ _ s _ => s end.
Definition fileType (r : ExtractionResult) : string :=
  match r with Success _ _ _ _ t | Failure _ _ _ t => t end.
Definition is_success (r : ExtractionResult) : bool :=
  match r with Success _ _ _ _ _ => true | Failure _ _ _ _ => false end.

Definition one_of (s : string) (cases : list string) : bool :=
  existsb (String.eqb s) cases.

Definition extractTextFromFile (file : File) (onProgress : Callback N)
  : M ExtractionResult :=
  emit (Called "extractTextFromFile") ;;;
  let validation := validateFile file in
  if negb (success validation) then throw (message validation)
  else
    fileBuffer <- await (arrayBuffer file) ;;
    try_catch
      (extracted <-
         (if String.eqb (type file) "text/plain" then
            extractedText <-
              await (match readAsText file with
                     | Some content => Returned content
                     | None => Thrown "Failed to read text file"
                     end) ;;
            ret (extractedText, "Direct text reading")
          else if String.eqb (type file) "application/pdf" then
            extractedText <- extractTextFromPDF fileBuffer ;;
            if (String.length extractedText <? 50)%nat then
              notify onProgress 0%N ;;;
              (* [extractTextFromPDF] returned, so [getDocument] was given
                 [fileBuffer]; the same object is passed again *)
              extractedText <-
                processScannedPDF (transferred fileBuffer) (name file)
                  onProgress ;;
              ret (extractedText, "OCR (scanned PDF)")
            else ret (extractedText, "PDF text extraction")
          else if one_of (type file)
                    [ "application/vnd.openxmlformats-officedocument.wordprocessingml.document";
                      "application/msword" ] then
            extractedText <- extractTextFromDocx fileBuffer ;;
            ret (extractedText, "Word document extraction")
          else if one_of (type file) [ "image/png"; "image/jpeg"; "image/jpg" ] then
            notify onProgress 0%N ;;;
            extractedText <-
              extractTextFromImage fileBuffer (name file) onProgress ;;
            ret (extractedText, "OCR (image)")
          else throw ("Unsupported file type: " ++ type file)) ;;
       let '(extractedText, processingMethod) := extracted in
       if falsy extractedText
          || Nat.eqb (String.length (trim extractedText)) 0
       then throw "No text content found in the file"
       else ret (Success extractedText processingMethod
                   (name file) (size file) (type file)))
      (fun error =>
         ret (Failure error (name file) (size file) (type file))).

Definition processMultipleFiles (files : list File)
    (onProgress : Callback BatchProgress) : M (list ExtractionResult) :=
  emit (Called "processMultipleFiles") ;;;
  let validation := validateMultipleFiles files in
  if negb (batch_success validation) then
    throw ("File validation failed: " ++ join ", " (errors validation))
  else
    let totalFiles := List.length (validFiles validation) in
    for_loop totalFiles 0
      (fun i results =>
         file <- await (match nth_error (validFiles validation) i with
                        | Some file => Returned file
                        | None => Thrown "Cannot read properties of undefined"
                        end) ;;
         notify onProgress
           {| currentFile := i + 1; totalFiles := totalFiles;
              progressFileName := name file; progress := 0 |} ;;;
         result <-
           extractTextFromFile file
             (Some (fun progress =>
                      match onProgress with
                      | Some f =>
                          f {| currentFile := i + 1; totalFiles := totalFiles;
                               progressFileName := name file;
                               progress := progress |}
                      | None => []
                      end)) ;;
         ret (results ++ [result])%list)
      [].

End WithBrowser.

End FileHandler.

(* ================================================================== *)
(** ** The application component: [callGeminiAPI] *)

Module App.
Import JsString.
Local Open Scope js_scope.

(** A [fetch] response: [json] is how [response.json()] settles, reduced
    to the value of [result.candidates?.[0]?.content?.parts?.[0]?.text]
    ([None] is [undefined]; a body on which the chain itself throws
    settles as [Thrown]). *)
Record Response : Type := {
  ok : bool;
  status : N;
  statusText : string;
  json : Outcome (option string)
}.

Inductive Event : Type :=
| Fetch (url : string)      (** [fetch(apiUrl, ...)] *)
| Warn (text : string)      (** [console.warn] *)
| Timeout (ms : N).         (** [setTimeout(resolve, ms)], awaited *)

Section WithEnvironment.
(** The parsed JSON values and [JSON.parse]. *)
Variable Json : Type.
Variable JSON_parse : string -> Outcome Json.
(** [import.meta.env.VITE_GEMINI_API_KEY] *)
Variable apiKey : option string.
(** How the k-th call of [fetch] settles (k = 0, 1, ...). *)
Variable network : nat -> Outcome Response.
Variable Payload : Type.

(** The store is the number of [fetch] calls made so far. *)
Definition M : Type -> Type := Js nat Event.

Definition fetch (url : string) (payload : Payload) : M Response :=
  fun k => (network k, S k, [Fetch url]).

Definition setTimeout (ms : N) : M unit := emit (Timeout ms).

(** The body of the [try] block. *)
Definition request (apiUrl : string) (payload : Payload) : M Json :=
  response <- fetch apiUrl payload ;;
  if negb (ok response) then
    throw ("API Error: " ++ of_N (status response) ++ " " ++ statusText response)
  else
    text <- await (json response) ;;
    match text with
    | None => throw "Invalid response structure from API."
    | Some text =>
        if falsy text then throw "Invalid response structure from API."
        else await (JSON_parse text)
    end.

(** The [while (attempt < maxRetries)] loop; [fuel] bounds the number
    of iterations, and leaving the loop makes the function return
    [undefined] ([None]). *)
Fixpoint retry_loop (fuel : nat) (apiUrl : string) (payload : Payload)
    (maxRetries attempt : nat) (delay : N) : M (option Json) :=
  match fuel with
  | 0 => ret None
  | S fuel' =>
      if (attempt <? maxRetries)%nat then
        try_catch
          (parsed <- request apiUrl payload ;; ret (Some parsed))
          (fun err =>
             let attempt := S attempt in
             if (maxRetries <=? attempt)%nat then throw err
             else
               emit (Warn ("API call failed, retrying in " ++ of_N delay
                           ++ "ms... (Attempt " ++ of_nat attempt ++ ")")) ;;;
               setTimeout delay ;;;
               retry_loop fuel' apiUrl payload maxRetries attempt (delay * 2)%N)
      else ret None
  end.

(** [maxRetries = 3] is a default parameter: [None] is an omitted
    argument.  Every iteration that continues increments [attempt], so
    [maxRetries] iterations exhaust the loop. *)
Definition callGeminiAPI (payload : Payload) (maxRetries : option nat)
  : M (option Json) :=
  let maxRetries := match maxRetries with Some n => n | None => 3 end in
  match apiKey with
  | None =>
      throw "Gemini API key not configured. Please add VITE_GEMINI_API_KEY to your .env file."
  | Some key =>
      if falsy key then
        throw "Gemini API key not configured. Please add VITE_GEMINI_API_KEY to your .env file."
      else
        let apiUrl :=
          "https://generativelanguage.googleapis.com/v1beta/models/gemini-2.5-flash-preview-05-20:generateContent?key="
          ++ key in
        retry_loop maxRetries apiUrl payload maxRetries 0 1000%N
  end.

End WithEnvironment.

End App.

(* ================================================================== *)
(** ** Notions used to state the properties of fileHandler.js *)

Module FileHandlerSpec.
Import JsString FileHandler.
Local Open Scope js_scope.

(** The six MIME types listed by the specification. *)
Definition spec_allow_list : list string :=
  [ "application/pdf"; "text/plain";
    "application/vnd.openxmlformats-officedocument.wordprocessingml.document";
    "application/msword"; "image/png"; "image/jpeg" ].

Definition valid (file : File) : Prop := success (validateFile file) = true.

Definition rejection (file : File) : string :=
  name file ++ ": " ++ message (validateFile file).

(** The body of the loop of [validateMultipleFiles]. *)
Definition validate_step : list File * list string -> File -> list File * list string :=
  fun '(validFiles, errors) file =>
    let validation := validateFile file in
    if success validation
    then ((validFiles ++ [file])%list, errors)
    else (validFiles,
          (errors ++ [(name file ++ ": " ++ message validation)%string])%list).

Definition jpg_file : File :=
  {| name := "photo.jpg"; size := 2048; type := "image/jpg";
     arrayBuffer := Returned "jfif"; readAsText := None |}.

(** The result describes the file it was computed from. *)
Definition describes (file : File) (r : ExtractionResult) : Prop :=
  fileName r = name file /\ fileSize r = size file /\ fileType r = type file.

(** A browser in which pdf.js loads, every PDF has one page whose text
    layer is empty, OCR reads a short line and mammoth a short text. *)
Definition sample_browser : Browser :=
  {| script_onload := fun _ => true;
     getDocument := fun _ =>
       Returned [Returned {| getTextContent := Returned [];
                             render_png := Returned "png" |}];
     detachedBufferError := "Cannot perform Construct on a detached ArrayBuffer";
     recognize := fun _ =>
       ([{| status := "recognizing text"; percent := 40 |}],
        Returned (" Jane Doe" ++ LF));
     extractRawText := fun _ => Returned "Curriculum vitae";
     round_percent := fun done total => N.of_nat (done * 100 / total) |}.

Definition fresh : World := {| pdfjsLibPromise := None; scriptsAppended := 0 |}.

Definition text_file (content : string) : File :=
  {| name := "resume.txt"; size := N.of_nat (String.length content);
     type := "text/plain";
     arrayBuffer := Returned content; readAsText := Some content |}.

Definition pdf_file : File :=
  {| name := "resume.pdf"; size := 4096; type := "application/pdf";
     arrayBuffer := Returned "%PDF"; readAsText := None |}.

Definition png_file : File :=
  {| name := "scan.png"; size := 4096; type := "image/png";
     arrayBuffer := Returned "PNG"; readAsText := None |}.

(** 11 MiB *)
Definition oversize_file : File :=
  {| name := "big.pdf"; size := 11534336; type := "application/pdf";
     arrayBuffer := Returned "%PDF"; readAsText := None |}.

Definition gif_file : File :=
  {| name := "anim.gif"; size := 4096; type := "image/gif";
     arrayBuffer := Returned "GIF89a"; readAsText := None |}.

(** A valid text file whose bytes can no longer be read when
    [file.arrayBuffer()] is awaited. *)
Definition vanished_file : File :=
  {| name := "gone.txt"; size := 12; type := "text/plain";
     arrayBuffer := Thrown "The requested file could not be read";
     readAsText := None |}.

(** A browser in which the OCR worker fails. *)
Definition ocr_down_browser : Browser :=
  {| script_onload := fun _ => true;
     getDocument := fun _ => Thrown "Invalid PDF structure";
     detachedBufferError := detachedBufferError sample_browser;
     recognize := fun _ => ([], Thrown "worker terminated");
     extractRawText := fun _ => Thrown "not a zip file";
     round_percent := fun done total => N.of_nat (done * 100 / total) |}.

Definition readable (file : File) : Prop :=
  exists buf, arrayBuffer file = Returned buf.

(** The [switch] of [extractTextFromFile]: the text and the method. *)
Definition extraction (browser : Browser) (file : File)
    (fileBuffer : ArrayBuffer) (onProgress : Callback N) : M (string * string) :=
  if String.eqb (type file) "text/plain" then
    extractedText <-
      await (match readAsText file with
             | Some content => Returned content
             | None => Thrown "Failed to read text file"
             end) ;;
    ret (extractedText, "Direct text reading")
  else if String.eqb (type file) "application/pdf" then
    extractedText <- extractTextFromPDF browser fileBuffer ;;
    if (String.length extractedText <? 50)%nat then
      notify onProgress 0%N ;;;
      extractedText <-
        processScannedPDF browser (transferred fileBuffer) (name file)
          onProgress ;;
      ret (extractedText, "OCR (scanned PDF)")
    else ret (extractedText, "PDF text extraction")
  else if one_of (type file)
            [ "application/vnd.openxmlformats-officedocument.wordprocessingml.document";
              "application/msword" ] then
    extractedText <- extractTextFromDocx browser fileBuffer ;;
    ret (extractedText, "Word document extraction")
  else if one_of (type file) [ "image/png"; "image/jpeg"; "image/jpg" ] then
    notify onProgress 0%N ;;;
    extractedText <-
      extractTextFromImage browser fileBuffer (name file) onProgress ;;
    ret (extractedText, "OCR (image)")
  else throw ("Unsupported file type: " ++ type file).

(** The failure-shaped result of a file. *)
Definition failure_of (file : File) (error : string) : ExtractionResult :=
  Failure error (name file) (size file) (type file).

(** What [extractTextFromFile] makes of the outcome of the [switch]. *)
Definition settled_extraction (file : File) (o : Outcome (string * string))
  : ExtractionResult :=
  match o with
  | Thrown e => failure_of file e
  | Returned (text, method) =>
      if falsy text || Nat.eqb (String.length (trim text)) 0
      then failure_of file "No text content found in the file"
      else Success text method (name file) (size file) (type file)
  end.

(** The errors that arise during the extraction from [file], whose buffer
    holds [buf], in the store [w]: one case per place where the [try]
    block calls something that can throw, or throws itself. *)
Inductive raised (browser : Browser) (file : File) (buf : ArrayBuffer)
    (onProgress : Callback N) (w : World) : string -> Prop :=
| reader_error :
    type file = "text/plain" -> readAsText file = None ->
    raised browser file buf onProgress w "Failed to read text file"
| pdf_error e :
    type file = "application/pdf" ->
    result (extractTextFromPDF browser buf w) = Thrown e ->
    raised browser file buf onProgress w e
| fallback_error text e :
    type file = "application/pdf" ->
    result (extractTextFromPDF browser buf w) = Returned text ->
    String.length text < 50 ->
    result (processScannedPDF browser (transferred buf) (name file) onProgress
              (store (extractTextFromPDF browser buf w))) = Thrown e ->
    raised browser file buf onProgress w e
| docx_error e :
    In (type file)
      [ "application/vnd.openxmlformats-officedocument.wordprocessingml.document";
        "application/msword" ] ->
    result (extractTextFromDocx browser buf w) = Thrown e ->
    raised browser file buf onProgress w e
| image_error e :
    In (type file) [ "image/png"; "image/jpeg"; "image/jpg" ] ->
    result (extractTextFromImage browser buf (name file) onProgress w) = Thrown e ->
    raised browser file buf onProgress w e
| unsupported_type :
    ~ In (type file) (map fst SUPPORTED_FILE_TYPES) ->
    raised browser file buf onProgress w ("Unsupported file type: " ++ type file)
| no_text text method :
    result (extraction browser file buf onProgress w) = Returned (text, method) ->
    String.length (trim text) = 0 ->
    raised browser file buf onProgress w "No text content found in the file".

Definition trimmed (s : string) : Prop := trim s = s.

(** The text of a success is never blank, and it is trimmed on every path
    except the one that reads a plain-text file. *)
Definition success_text_ok (file : File) (r : ExtractionResult) : Prop :=
  match r with
  | Success text _ _ _ _ =>
      text <> "" /\ trim text <> ""
      /\ (type file <> "text/plain" -> trimmed text)
  | Failure _ _ _ _ => True
  end.

Definition is_call (fn : string) (e : Event) : bool :=
  match e with
  | Called g => String.eqb g fn
  | _ => false
  end.

(** How many times the function [fn] was entered. *)
Definition calls (fn : string) (l : list Event) : nat :=
  List.length (filter (is_call fn) l).

Definition not_fallback (e : Event) : Prop := e <> Called "processScannedPDF".

(** The text obtained from the text layer of a PDF file, when
    [extractTextFromFile] gets as far as obtaining one. *)
Definition direct_text (browser : Browser) (file : File) (w : World)
  : option string :=
  if success (validateFile file) then
    match arrayBuffer file with
    | Returned buf =>
        match result (extractTextFromPDF browser buf w) with
        | Returned text => Some text
        | Thrown _ => None
        end
    | Thrown _ => None
    end
  else None.

(** How awaiting [loadPdfJs()] settles in the store [w]. *)
Definition pdfjs_promise (browser : Browser) (w : World) : Outcome PdfJsLib :=
  match pdfjsLibPromise w with
  | Some promise => promise
  | None =>
      if script_onload browser (scriptsAppended w)
      then Returned WindowPdfjsLib
      else Thrown "Failed to load PDF.js library from CDN."
  end.

(** The number of characters of the text layer of a page, when the page
    and its text content can be obtained. *)
Definition page_text_length (p : Outcome PdfPage) : option nat :=
  match p with
  | Returned page =>
      match getTextContent page with
      | Returned items => Some (String.length (join " " items))
      | Thrown _ => None
      end
  | Thrown _ => None
  end.

Fixpoint sum_text_lengths (pages : list (Outcome PdfPage)) : option nat :=
  match pages with
  | [] => Some 0
  | p :: rest =>
      match page_text_length p, sum_text_lengths rest with
      | Some n, Some m => Some (n + m)
      | _, _ => None
      end
  end.

(** The detector as the specification words it: sample at most the first
    three pages, sum the character counts, answer whether the sum is
    below 50, and answer false on any failure. *)
Definition looksScanned (browser : Browser) (buf : ArrayBuffer) (w : World)
  : bool :=
  match pdfjs_promise browser w, getDocument browser buf with
  | Returned _, Returned pdf =>
      match sum_text_lengths (firstn 3 pdf) with
      | Some total => (total <? 50)%nat
      | None => false
      end
  | _, _ => false
  end.

(** The body of the page loop of [isScannedPDF]. *)
Definition scan_body (pdf : PdfDocument) : nat -> nat -> M nat :=
  fun i totalTextLength =>
    page <- getPage pdf i ;;
    textContent <- await (getTextContent page) ;;
    let pageText := join " " textContent in
    ret (totalTextLength + String.length pageText).

(** An event that is not a page request beyond the third page. *)
Definition within_first_three (e : Event) : Prop :=
  forall i, e = GetPage i -> 1 <= i <= 3.





(** The promise is cached and no further script has been appended. *)
Definition cached (promise : Outcome PdfJsLib) (scripts : nat) (w : World) : Prop :=
  pdfjsLibPromise w = Some promise /\ scriptsAppended w = scripts.

Definition no_script (e : Event) : Prop := e <> ScriptAppended.



End FileHandlerSpec.

(* ================================================================== *)
(** ** Notions used to state the properties of [callGeminiAPI] *)

Module AppSpec.
Import JsString App.
Local Open Scope js_scope.

Definition structural_error : string := "Invalid response structure from API.".

(** A response that lacks the nested text field: the chain yields
    [undefined] or the empty string. *)
Definition lacks_text (settled : Outcome Response) : Prop :=
  exists response,
    settled = Returned response /\ ok response = true
    /\ (json response = Returned None \/ json response = Returned (Some "")).

Definition warning (delay : N) (attempt : nat) : Event :=
  Warn ("API call failed, retrying in " ++ of_N delay
        ++ "ms... (Attempt " ++ of_nat attempt ++ ")").

Definition is_fetch (e : Event) : bool :=
  match e with Fetch _ => true | _ => false end.

(** The number of attempts made. *)
Definition fetches (l : list Event) : nat := List.length (filter is_fetch l).

Section WithEnvironment.
Variable Json : Type.
Variable JSON_parse : string -> Outcome Json.
Variable network : nat -> Outcome Response.
Variable Payload : Type.
Variable key : string.
Variable payload : Payload.

Definition apiUrl : string :=
  "https://generativelanguage.googleapis.com/v1beta/models/gemini-2.5-flash-preview-05-20:generateContent?key="
  ++ key.

(** How the attempt made as the k-th call of [fetch] ends. *)
Definition attempt_outcome (k : nat) : Outcome Json :=
  result (request Json JSON_parse network Payload apiUrl payload k).

Definition call (maxRetries : option nat) : M (option Json) :=
  callGeminiAPI Json JSON_parse (Some key) network Payload payload maxRetries.

End WithEnvironment.

(** Parsed values are modelled by the length of the text parsed. *)
Definition sample_parse (text : string) : Outcome nat :=
  Returned (String.length text).


(** A 200 response whose body has no candidates. *)
Definition empty_response : Response :=
  {| ok := true; status := 200; statusText := "OK"; json := Returned None |}.


Definition malformed_network (k : nat) : Outcome Response :=
  Returned empty_response.

Definition sample_url : string := apiUrl "secret".

End AppSpec.

(* ================================================================== *)
(** ** Further notions about fileHandler.js *)

Module FileHandlerNotions.
Import JsString FileHandler FileHandlerSpec.
Local Open Scope js_scope.

(** [s] starts with [prefix]. *)
Definition starts_with (prefix s : string) : Prop :=
  exists rest, s = prefix ++ rest.

(** A string that [trim] empties. *)
Definition blank (s : string) : bool := Nat.eqb (String.length (trim s)) 0.

Definition no_text_found : string := "No text content found in the file".

(** The text of the text layer of a page, when the page and its text
    content can be obtained. *)
Definition page_text (p : Outcome PdfPage) : option string :=
  match p with
  | Returned page =>
      match getTextContent page with
      | Returned items => Some (join " " items)
      | Thrown _ => None
      end
  | Thrown _ => None
  end.

(** What OCR reads on a page, when the page can be obtained, rendered and
    recognised. *)
Definition page_ocr (browser : Browser) (p : Outcome PdfPage) : option string :=
  match p with
  | Returned page =>
      match render_png page with
      | Returned image =>
          match snd (recognize browser image) with
          | Returned text => Some (trim text)
          | Thrown _ => None
          end
      | Thrown _ => None
      end
  | Thrown _ => None
  end.

(** All the elements, when every one is defined. *)
Fixpoint all_defined {A} (l : list (option A)) : option (list A) :=
  match l with
  | [] => Some []
  | Some a :: rest =>
      match all_defined rest with
      | Some r => Some (a :: r)
      | None => None
      end
  | None :: _ => None
  end.

(** Every text followed by [suffix], concatenated in order. *)
Fixpoint concat_with_suffix (suffix : string) (texts : list string) : string :=
  match texts with
  | [] => ""
  | t :: rest => t ++ suffix ++ concat_with_suffix suffix rest
  end.

(** The seven keys of [SUPPORTED_FILE_TYPES]. *)
Definition supported_keys_list : list string := map fst SUPPORTED_FILE_TYPES.

Definition docx_types : list string :=
  [ "application/vnd.openxmlformats-officedocument.wordprocessingml.document";
    "application/msword" ].

Definition image_types : list string := [ "image/png"; "image/jpeg"; "image/jpg" ].

(** The observer of [extractTextFromImage]'s logger, as events. *)
Definition logger_events (onProgress : Callback N) (logged : list LoggerMessage)
  : list Event :=
  flat_map
    (fun m =>
       match onProgress with
       | Some f =>
           if String.eqb (status m) "recognizing text"
           then map Notified (f (percent m)) else []
       | None => []
       end)
    logged.

Definition notified {A} (onProgress : Callback A) (a : A) : list Event :=
  match onProgress with
  | Some f => map Notified (f a)
  | None => []
  end.

(** A file whose declared type is an [Object.prototype] property name. *)
Definition constructor_file : File :=
  {| name := "odd.bin"; size := 16; type := "constructor";
     arrayBuffer := Returned "0123456789abcdef"; readAsText := None |}.

Definition docx_file : File :=
  {| name := "letter.docx"; size := 2048;
     type := "application/vnd.openxmlformats-officedocument.wordprocessingml.document";
     arrayBuffer := Returned "PK"; readAsText := None |}.

(** A browser whose PDFs have two pages with a text layer. *)
Definition two_page_browser : Browser :=
  {| script_onload := fun _ => true;
     getDocument := fun _ =>
       Returned [ Returned {| getTextContent := Returned ["Jane"; "Doe"];
                              render_png := Returned "png1" |};
                  Returned {| getTextContent := Returned ["Engineer"];
                              render_png := Returned "png2" |} ];
     detachedBufferError := detachedBufferError sample_browser;
     recognize := fun image => ([], Returned (" scanned " ++ image ++ " "));
     extractRawText := fun _ => Returned "  Dear Sir  ";
     round_percent := fun done total => N.of_nat (done * 100 / total) |}.

(** The body of the page loop of [extractTextFromPDF]. *)
Definition text_body (pdf : PdfDocument) : nat -> string -> M string :=
  fun i fullText =>
    page <- getPage pdf i ;;
    textContent <- await (getTextContent page) ;;
    ret (fullText ++ join " " textContent ++ LF).

(** The body of the page loop of [processScannedPDF]. *)
Definition ocr_body (browser : Browser) (pdf : PdfDocument) (fileName : string)
    (onProgress : Callback N) : nat -> string -> M string :=
  fun i fullText =>
    notify onProgress (round_percent browser (i - 1) (numPages pdf)) ;;;
    page <- getPage pdf i ;;
    imageBuffer <- await (render_png page) ;;
    pageText <-
      extractTextFromImage browser imageBuffer
        (fileName ++ " - Page " ++ of_nat i) None ;;
    ret (fullText ++ pageText ++ LF ++ LF).

Definition application_pdf : string := "application/pdf".

(** The store is the one the call started from. *)
Definition unchanged (w : World) (w' : World) : Prop := w' = w.

(** An observer whose recordings all satisfy [ok]. *)
Definition callback_ok {A} (ok : Notification -> Prop) (onProgress : Callback A)
  : Prop :=
  match onProgress with
  | Some f => forall a, Forall ok (f a)
  | None => True
  end.

(** A batch observer that records what it is told. *)
Definition recording : Callback BatchProgress := Some (fun p => [FileProgress p]).

(** A progress record that says "file i of N" for the i-th of the [files],
    with that file's name. *)
Definition progress_of (files : list File) (p : BatchProgress) : Prop :=
  totalFiles p = List.length files
  /\ 1 <= currentFile p <= List.length files
  /\ exists file, nth_error files (currentFile p - 1) = Some file
                  /\ progressFileName p = name file.

(** An event that, if it is a notification, is a well-formed progress
    record of the [files]. *)
Definition reports_progress_of (files : list File) (e : Event) : Prop :=
  match e with
  | Notified (FileProgress p) => progress_of files p
  | Notified (Percent _) => False
  | _ => True
  end.

Definition file_progress_of (files : list File) (n : Notification) : Prop :=
  reports_progress_of files (Notified n).

End FileHandlerNotions.

(* ================================================================== *)
(** ** The application component: state and event handlers *)

Module AppHandlers.
Import JsString FileHandler.
Local Open Scope js_scope.

Local Unset Elimination Schemes.

(** A parsed JSON value; numbers are the rationals that doubles denote. *)
Inductive Json : Type :=
| JNull
| JBool (b : bool)
| JNumber (q : QArith_base.Q)
| JString (s : string)
| JArray (items : list Json)
| JObject (properties : list (string * Json)).

Local Set Elimination Schemes.

(** A JavaScript value of the handlers: [None] is [undefined]. *)
Definition Value : Type := option Json.

Definition truthy (v : Value) : bool :=
  match v with
  | None | Some JNull => false
  | Some (JBool b) => b
  | Some (JNumber q) => negb (QArith_base.Qeq_bool q (QArith_base.Qmake BinNums.Z0 BinNums.xH))
  | Some (JString s) => negb (falsy s)
  | Some (JArray _) | Some (JObject _) => true
  end.

(** [v || []] *)
Definition or_empty_array (v : Value) : Value :=
  if truthy v then v else Some (JArray []).

(** [v.key], for a key that no prototype defines (the handlers read
    [qualifiedInternships] and [brutalQuestions]): a property of an object,
    [undefined] on any other value, a TypeError on [null] and
    [undefined]. *)
Definition get (v : Value) (key : string) : Outcome Value :=
  match v with
  | None =>
      Thrown ("Cannot read properties of undefined (reading '" ++ key ++ "')")
  | Some JNull =>
      Thrown ("Cannot read properties of null (reading '" ++ key ++ "')")
  | Some (JObject properties) => Returned (own_property properties key)
  | Some _ => Returned None
  end.

(** The state hooks of [App]. *)
Record AppState : Type := {
  resume : string;
  uploadedFiles : list ExtractionResult;
  jobDescription : string;
  experienceLevel : string;
  analysisResult : Value;
  internships : Value;
  interviewQuestions : Value;
  loading : bool;
  loadingQuestions : bool;
  error : string;
  uploadError : string;
  questionsError : string
}.

Definition withResume (v : string) (s : AppState) : AppState :=
  {| resume := v;
     uploadedFiles := uploadedFiles s;
     jobDescription := jobDescription s;
     experienceLevel := experienceLevel s;
     analysisResult := analysisResult s;
     internships := internships s;
     interviewQuestions := interviewQuestions s;
     loading := loading s;
     loadingQuestions := loadingQuestions s;
     error := error s;
     uploadError := uploadError s;
     questionsError := questionsError s |}.

Definition withUploadedFiles (v : list ExtractionResult) (s : AppState) : AppState :=
  {| resume := resume s;
     uploadedFiles := v;
     jobDescription := jobDescription s;
     experienceLevel := experienceLevel s;
     analysisResult := analysisResult s;
     internships := internships s;
     interviewQuestions := interviewQuestions s;
     loading := loading s;
     loadingQuestions := loadingQuestions s;
     error := error s;
     uploadError := uploadError s;
     questionsError := questionsError s |}.

Definition withAnalysisResult (v : Value) (s : AppState) : AppState :=
  {| resume := resume s;
     uploadedFiles := uploadedFiles s;
     jobDescription := jobDescription s;
     experienceLevel := experienceLevel s;
     analysisResult := v;
     internships := internships s;
     interviewQuestions := interviewQuestions s;
     loading := loading s;
     loadingQuestions := loadingQuestions s;
     error := error s;
     uploadError := uploadError s;
     questionsError := questionsError s |}.

Definition withInternships (v : Value) (s : AppState) : AppState :=
  {| resume := resume s;
     uploadedFiles := uploadedFiles s;
     jobDescription := jobDescription s;
     experienceLevel := experienceLevel s;
     analysisResult := analysisResult s;
     internships := v;
     interviewQuestions := interviewQuestions s;
     loading := loading s;
     loadingQuestions := loadingQuestions s;
     error := error s;
     uploadError := uploadError s;
     questionsError := questionsError s |}.

Definition withInterviewQuestions (v : Value) (s : AppState) : AppState :=
  {| resume := resume s;
     uploadedFiles := uploadedFiles s;
     jobDescription := jobDescription s;
     experienceLevel := experienceLevel s;
     analysisResult := analysisResult s;
     internships := internships s;
     interviewQuestions := v;
     loading := loading s;
     loadingQuestions := loadingQuestions s;
     error := error s;
     uploadError := uploadError s;
     questionsError := questionsError s |}.

Definition withLoading (v : bool) (s : AppState) : AppState :=
  {| resume := resume s;
     uploadedFiles := uploadedFiles s;
     jobDescription := jobDescription s;
     experienceLevel := experienceLevel s;
     analysisResult := analysisResult s;
     internships := internships s;
     interviewQuestions := interviewQuestions s;
     loading := v;
     loadingQuestions := loadingQuestions s;
     error := error s;
     uploadError := uploadError s;
     questionsError := questionsError s |}.


Definition withError (v : string) (s : AppState) : AppState :=
  {| resume := resume s;
     uploadedFiles := uploadedFiles s;
     jobDescription := jobDescription s;
     experienceLevel := experienceLevel s;
     analysisResult := analysisResult s;
     internships := internships s;
     interviewQuestions := interviewQuestions s;
     loading := loading s;
     loadingQuestions := loadingQuestions s;
     error := v;
     uploadError := uploadError s;
     questionsError := questionsError s |}.

Definition withUploadError (v : string) (s : AppState) : AppState :=
  {| resume := resume s;
     uploadedFiles := uploadedFiles s;
     jobDescription := jobDescription s;
     experienceLevel := experienceLevel s;
     analysisResult := analysisResult s;
     internships := internships s;
     interviewQuestions := interviewQuestions s;
     loading := loading s;
     loadingQuestions := loadingQuestions s;
     error := error s;
     uploadError := v;
     questionsError := questionsError s |}.

Definition withQuestionsError (v : string) (s : AppState) : AppState :=
  {| resume := resume s;
     uploadedFiles := uploadedFiles s;
     jobDescription := jobDescription s;
     experienceLevel := experienceLevel s;
     analysisResult := analysisResult s;
     internships := internships s;
     interviewQuestions := interviewQuestions s;
     loading := loading s;
     loadingQuestions := loadingQuestions s;
     error := error s;
     uploadError := uploadError s;
     questionsError := v |}.

Definition initial : AppState :=
  {| resume := ""; uploadedFiles := []; jobDescription := "";
     experienceLevel := "fresher"; analysisResult := Some JNull;
     internships := Some (JArray []); interviewQuestions := Some (JArray []);
     loading := false; loadingQuestions := false;
     error := ""; uploadError := ""; questionsError := "" |}.

(** [file.text]: [undefined] on a failure-shaped result, which [join]
    renders as the empty string. *)
Definition text_of (r : ExtractionResult) : string :=
  match r with
  | Success text _ _ _ _ => text
  | Failure _ _ _ _ => ""
  end.

Definition separator : string := LF ++ LF ++ "---" ++ LF ++ LF.

Definition handleFilesProcessed (files : list ExtractionResult) (s : AppState)
  : AppState :=
  let s := withUploadedFiles files s in
  let s := withUploadError "" s in
  let combinedText := join separator (map text_of files) in
  withResume combinedText s.

Definition handleUploadError (errorMessage : string) (s : AppState) : AppState :=
  withUploadError errorMessage s.

Inductive Event : Type :=
| Api (e : App.Event)                       (** an event of [callGeminiAPI] *)
| ConsoleError (label message : string).    (** [console.error(label, err)] *)

(** The store of a handler: the number of [fetch] calls made so far and
    the state of the component. *)
Definition Store : Type := (nat * AppState)%type.
Definition H : Type -> Type := Js Store Event.

(** [setX(v)] *)
Definition setState (update : AppState -> AppState) : H unit :=
  fun w => (Returned tt, (fst w, update (snd w)), []).


Section WithEnvironment.
Variable JSON_parse : string -> Outcome Json.
Variable apiKey : option string.
Variable network : nat -> Outcome App.Response.
(** The request bodies: the prompt templates, filled with the handler's
    arguments, and the response schemas.  The client passes them to
    [fetch] unread. *)
Variable Payload : Type.
Variable atsPayload : string -> string -> string -> Payload.
Variable internshipPayload : string -> string -> Payload.
Variable interviewPayload : string -> string -> string -> Payload.

Definition callGeminiAPI (payload : Payload) : App.M (option Json) :=
  App.callGeminiAPI Json JSON_parse apiKey network Payload payload None.

Definition getATSScore (currentResume currentJobDesc level : string)
  : App.M (option Json) :=
  callGeminiAPI (atsPayload currentResume currentJobDesc level).

Definition getInternshipSuggestions (currentResume level : string)
  : App.M (option Json) :=
  callGeminiAPI (internshipPayload currentResume level).


(** [handleAnalyze], given how [Promise.all] of the two calls settles:
    they run concurrently, and the handler only depends on whether both
    fulfil and with what. *)
Definition handleAnalyze (settled : Outcome (Value * Value)) : H unit :=
  fun w =>
    let s := snd w in
    (if falsy (resume s) || falsy (jobDescription s) || falsy (experienceLevel s)
     then
       setState (withError "Please upload your documents, paste the job description, and select your experience level.")
     else
       setState (withLoading true) ;;;
       setState (withError "") ;;;
       setState (withAnalysisResult (Some JNull)) ;;;
       setState (withInternships (Some (JArray []))) ;;;
       setState (withInterviewQuestions (Some (JArray []))) ;;;
       setState (withQuestionsError "") ;;;
       try_catch
         (responses <- await settled ;;
          let '(atsResponse, internshipResponse) := responses in
          setState (withAnalysisResult atsResponse) ;;;
          qualified <- await (get internshipResponse "qualifiedInternships") ;;
          setState (withInternships (or_empty_array qualified)))
         (fun err =>
            emit (ConsoleError "Error during analysis:" err) ;;;
            setState (withError "Failed to analyze the resume. Please check your connection and try again.")) ;;;
       setState (withLoading false)) w.


End WithEnvironment.

End AppHandlers.

(* ================================================================== *)
(** ** The upload component: EnhancedFileUpload *)

Module Upload.
Import JsString FileHandler.
Local Open Scope js_scope.

(** The state hooks of the component. *)
Record UploadState : Type := {
  isDragOver : bool;
  isProcessing : bool;
  processingProgress : option BatchProgress;
  uploadedFiles : list ExtractionResult
}.

Definition withIsDragOver (v : bool) (s : UploadState) : UploadState :=
  {| isDragOver := v; isProcessing := isProcessing s;
     processingProgress := processingProgress s;
     uploadedFiles := uploadedFiles s |}.

Definition withIsProcessing (v : bool) (s : UploadState) : UploadState :=
  {| isDragOver := isDragOver s; isProcessing := v;
     processingProgress := processingProgress s;
     uploadedFiles := uploadedFiles s |}.

Definition withProcessingProgress (v : option BatchProgress) (s : UploadState)
  : UploadState :=
  {| isDragOver := isDragOver s; isProcessing := isProcessing s;
     processingProgress := v;
     uploadedFiles := uploadedFiles s |}.

Definition withUploadedFiles (v : list ExtractionResult) (s : UploadState)
  : UploadState :=
  {| isDragOver := isDragOver s; isProcessing := isProcessing s;
     processingProgress := processingProgress s;
     uploadedFiles := v |}.

Inductive Event : Type :=
| Pipeline (e : FileHandler.Event)                  (** an event of fileHandler.js *)
| OnError (message : string)                        (** the [onError] prop *)
| OnFilesProcessed (files : list ExtractionResult). (** the [onFilesProcessed] prop *)

(** The store: the store of fileHandler.js and the state of the component. *)
Definition Store : Type := (World * UploadState)%type.
Definition C : Type -> Type := Js Store Event.

Definition setState (update : UploadState -> UploadState) : C unit :=
  fun w => (Returned tt, (fst w, update (snd w)), []).

(** The last progress record among the events, if any. *)
Fixpoint last_progress (l : list FileHandler.Event) (current : option BatchProgress)
  : option BatchProgress :=
  match l with
  | [] => current
  | Notified (FileProgress p) :: rest => last_progress rest (Some p)
  | _ :: rest => last_progress rest current
  end.

(** A call into fileHandler.js whose observer is
    [(progress) => setProcessingProgress(progress)]: the hook ends up
    holding the last record the observer was handed. *)
Definition pipeline {A} (m : (BatchProgress -> list Notification) -> M A) : C A :=
  fun w =>
    let '(r, world, l) := m (fun progress => [FileProgress progress]) (fst w) in
    (r,
     (world,
      withProcessingProgress (last_progress l (processingProgress (snd w))) (snd w)),
     map Pipeline l).

(** [result.error]: [undefined] on a success. *)
Definition error_of (r : ExtractionResult) : string :=
  match r with
  | Failure error _ _ _ => error
  | Success _ _ _ _ _ => "undefined"
  end.

(** [array.filter((_, i) => i !== index)] *)
Definition without_index {A} (index : nat) (array : list A) : list A :=
  map snd
    (filter (fun '(i, _) => negb (Nat.eqb i index))
       (combine (seq 0 (List.length array)) array)).

Section WithBrowser.
Variable browser : Browser.
(** The [disabled] prop. *)
Variable disabled : bool.

Definition handleFiles (files : list File) : C unit :=
  if Nat.eqb (List.length files) 0 then ret tt
  else
    setState (withIsProcessing true) ;;;
    setState (withProcessingProgress None) ;;;
    setState (withUploadedFiles []) ;;;
    try_catch
      (results <-
         pipeline (fun observer =>
                     processMultipleFiles browser files (Some observer)) ;;
       let successfulResults := filter is_success results in
       let failedResults := filter (fun result => negb (is_success result)) results in
       (if (0 <? List.length failedResults)%nat then
          let errorMessages :=
            map (fun result => fileName result ++ ": " ++ error_of result)
              failedResults in
          emit (OnError ("Some files failed to process: "
                         ++ join ", " errorMessages))
        else ret tt) ;;;
       (if (0 <? List.length successfulResults)%nat then
          setState (withUploadedFiles successfulResults) ;;;
          emit (OnFilesProcessed successfulResults)
        else ret tt))
      (fun error => emit (OnError error)) ;;;
    setState (withIsProcessing false) ;;;
    setState (withProcessingProgress None).

Definition handleDrop (files : list File) : C unit :=
  setState (withIsDragOver false) ;;;
  if disabled then ret tt else handleFiles files.

Definition handleFileInput (files : list File) : C unit := handleFiles files.

Definition removeFile (index : nat) : C unit :=
  fun w =>
    let newFiles := without_index index (uploadedFiles (snd w)) in
    (setState (withUploadedFiles newFiles) ;;;
     emit (OnFilesProcessed newFiles)) w.

Definition clearAllFiles : C unit :=
  setState (withUploadedFiles []) ;;;
  emit (OnFilesProcessed []).

End WithBrowser.

(** What the props do in [App]: [onFilesProcessed] is
    [handleFilesProcessed] and [onError] is [handleUploadError]. *)
Fixpoint parent (l : list Event) (s : AppHandlers.AppState) : AppHandlers.AppState :=
  match l with
  | [] => s
  | OnFilesProcessed files :: rest =>
      parent rest (AppHandlers.handleFilesProcessed files s)
  | OnError message :: rest =>
      parent rest (AppHandlers.handleUploadError message s)
  | Pipeline _ :: rest => parent rest s
  end.

End Upload.

(* ================================================================== *)
(** ** Further notions about [callGeminiAPI] and the components *)

Module AppNotions.
Import JsString App AppSpec.
Local Open Scope js_scope.

(** The delays that were waited for, in order. *)
Definition timeouts (l : list App.Event) : list N :=
  flat_map (fun e => match e with Timeout ms => [ms] | _ => [] end) l.

(** [n] delays starting at [delay], each the double of the one before. *)
Fixpoint backoff (n : nat) (delay : N) : list N :=
  match n with
  | 0 => []
  | S n' => delay :: backoff n' (delay * 2)%N
  end.

(** What the client makes of the outcome of an attempt. *)
Definition settle {A} (o : Outcome A) : Outcome (option A) :=
  match o with
  | Returned a => Returned (Some a)
  | Thrown e => Thrown e
  end.



(** A server that answers 503 to everything. *)
Definition unavailable_network (k : nat) : Outcome Response :=
  Returned {| ok := false; status := 503; statusText := "Service Unavailable";
              json := Returned None |}.

End AppNotions.

(* ================================================================== *)
(** ** Notions about the handlers *)

Module HandlersNotions.
Import JsString FileHandler App AppHandlers.
Local Open Scope js_scope.

Definition analysis_failed : string :=
  "Failed to analyze the resume. Please check your connection and try again.".


Definition inputs_missing : string :=
  "Please upload your documents, paste the job description, and select your experience level.".

Definition empty_array : Value := Some (JArray []).


End HandlersNotions.

(* ================================================================== *)
(** ** Notions about the upload component *)

Module UploadNotions.
Import JsString FileHandler FileHandlerSpec Upload.
Local Open Scope js_scope.

(** The observer that [handleFiles] passes to the pipeline. *)
Definition observer : Callback BatchProgress :=
  Some (fun progress => [FileProgress progress]).

(** The state in which [handleFiles] leaves the component. *)
Definition settled_with (uploaded : list ExtractionResult) (s : UploadState)
  : UploadState :=
  {| isDragOver := isDragOver s; isProcessing := false;
     processingProgress := None; uploadedFiles := uploaded |}.

Definition successes (results : list ExtractionResult) : list ExtractionResult :=
  filter is_success results.

Definition failures (results : list ExtractionResult) : list ExtractionResult :=
  filter (fun result => negb (is_success result)) results.

(** The message given to [onError] when some files failed. *)
Definition failure_report (results : list ExtractionResult) : string :=
  "Some files failed to process: "
  ++ join ", " (map (fun result => fileName result ++ ": " ++ error_of result)
                  (failures results)).

(** The calls of the props, in order. *)
Definition props (l : list Upload.Event) : list Upload.Event :=
  filter (fun e => match e with Pipeline _ => false | _ => true end) l.

(** The calls of the props that [handleFiles] makes for these results. *)
Definition props_for (results : list ExtractionResult) : list Upload.Event :=
  ((if (0 <? List.length (failures results))%nat
    then [OnError (failure_report results)] else [])
   ++ (if (0 <? List.length (successes results))%nat
       then [OnFilesProcessed (successes results)] else []))%list.

(** A success carries a text that is not empty. *)
Definition has_text (r : ExtractionResult) : Prop :=
  match r with
  | Success text _ _ _ _ => text <> ""
  | Failure _ _ _ _ => True
  end.

Definition idle : UploadState :=
  {| isDragOver := false; isProcessing := false; processingProgress := None;
     uploadedFiles := [] |}.

End UploadNotions.

(* ================================================================== *)
(** ** Facts about strings *)

Module JsStringFacts.
Import JsString.

Lemma length_string_of_list_ascii (l : list ascii) :
  String.length (string_of_list_ascii l) = List.length l.
Proof. induction l as [|c l IH]; simpl; congruence. Qed.

Lemma drop_white_space_starts_visible l : starts_visible (drop_white_space l).
Proof.
  induction l as [|c l IH]; simpl; [exact I|].
  destruct (is_white_space c) eqn:Hc; simpl; auto.
Qed.

Lemma drop_white_space_fixed l : starts_visible l -> drop_white_space l = l.
Proof. destruct l as [|c l]; simpl; intros H; [reflexivity | now rewrite H]. Qed.

(** [drop_white_space] removes a prefix made of white space only. *)
Lemma drop_white_space_split l :
  exists ws, l = (ws ++ drop_white_space l)%list
             /\ Forall (fun c => is_white_space c = true) ws.
Proof.
  induction l as [|c l [ws [Heq Hws]]]; simpl.
  - exists []; split; [reflexivity | constructor].
  - destruct (is_white_space c) eqn:Hc.
    + exists (c :: ws); split; [simpl; congruence | now constructor].
    + exists []; split; [reflexivity | constructor].
Qed.

Lemma rev_drop_rev_starts_visible l :
  starts_visible l -> starts_visible (rev (drop_white_space (rev l))).
Proof.
  intros Hl.
  destruct (drop_white_space_split (rev l)) as [ws [Heq _]].
  assert (Hl' : l = (rev (drop_white_space (rev l)) ++ rev ws)%list).
  { rewrite <- rev_app_distr, <- Heq. now rewrite rev_involutive. }
  destruct (rev (drop_white_space (rev l))) as [|c r] eqn:Hr; simpl; [exact I|].
  rewrite Hl' in Hl. exact Hl.
Qed.

Lemma trim_chars_idempotent l : trim_chars (trim_chars l) = trim_chars l.
Proof.
  unfold trim_chars.
  set (a := drop_white_space l).
  assert (Ha : starts_visible a) by apply drop_white_space_starts_visible.
  set (d := drop_white_space (rev a)).
  assert (Hd : starts_visible d) by apply drop_white_space_starts_visible.
  rewrite (drop_white_space_fixed (rev d)).
  - rewrite rev_involutive. now rewrite (drop_white_space_fixed d).
  - now apply rev_drop_rev_starts_visible.
Qed.

Lemma trim_idempotent s : trim (trim s) = trim s.
Proof.
  unfold trim. rewrite list_ascii_of_string_of_list_ascii.
  now rewrite trim_chars_idempotent.
Qed.

Lemma falsy_false_iff s : falsy s = false <-> s <> "".
Proof.
  unfold falsy. destruct s; simpl; split; intros H; congruence.
Qed.

End JsStringFacts.

(* ================================================================== *)
(** ** Facts about computations *)

Section JsFacts.
Context {W E : Type}.
Local Open Scope js_scope.

Lemma bind_returned {A B} (m : Js W E A) (k : A -> Js W E B) w a w1 l1 :
  m w = (Returned a, w1, l1) ->
  bind m k w = (result (k a w1), store (k a w1), (l1 ++ events (k a w1))%list).
Proof.
  intros H. unfold bind, result, store, events. rewrite H.
  destruct (k a w1) as [[r w2] l2]. reflexivity.
Qed.

Lemma bind_thrown {A B} (m : Js W E A) (k : A -> Js W E B) w e w1 l1 :
  m w = (Thrown e, w1, l1) -> bind m k w = (Thrown e, w1, l1).
Proof. intros H. unfold bind. now rewrite H. Qed.

Lemma try_catch_returned {A} (m : Js W E A) h w a w1 l1 :
  m w = (Returned a, w1, l1) -> try_catch m h w = (Returned a, w1, l1).
Proof. intros H. unfold try_catch. now rewrite H. Qed.

Lemma try_catch_thrown {A} (m : Js W E A) h w e w1 l1 :
  m w = (Thrown e, w1, l1) ->
  try_catch m h w = (result (h e w1), store (h e w1), (l1 ++ events (h e w1))%list).
Proof.
  intros H. unfold try_catch, result, store, events. rewrite H.
  destruct (h e w1) as [[r w2] l2]. reflexivity.
Qed.

Lemma surjective_run {A} (x : Outcome A * W * list E) :
  x = (result x, store x, events x).
Proof. now destruct x as [[r w] l]. Qed.

(** *** Invariants of the store and of the trace *)

Variable I : W -> Prop.
Variable P : E -> Prop.

Lemma respects_ret {A} (a : A) : respects I P (ret a).
Proof. intros w Hw; split; [exact Hw | constructor]. Qed.

Lemma respects_throw {A} e : respects I P (@throw W E A e).
Proof. intros w Hw; split; [exact Hw | constructor]. Qed.

Lemma respects_await {A} (o : Outcome A) : respects I P (await o).
Proof. intros w Hw; split; [exact Hw | constructor]. Qed.

Lemma respects_emit e : P e -> respects I P (emit e).
Proof. intros He w Hw; split; [exact Hw | now repeat constructor]. Qed.

Lemma respects_emit_all l : Forall P l -> respects I P (emit_all l).
Proof. intros Hl w Hw; split; [exact Hw | exact Hl]. Qed.

Lemma respects_bind {A B} (m : Js W E A) (k : A -> Js W E B) :
  respects I P m -> (forall a, respects I P (k a)) -> respects I P (bind m k).
Proof.
  intros Hm Hk w Hw. destruct (Hm w Hw) as [H1 H2].
  unfold bind. destruct (m w) as [[[a|e] w1] l1]; simpl in *.
  - destruct (Hk a w1 H1) as [H3 H4].
    destruct (k a w1) as [[r w2] l2]; simpl in *.
    split; [exact H3 | now apply Forall_app].
  - now split.
Qed.

Lemma respects_try_catch {A} (m : Js W E A) h :
  respects I P m -> (forall e, respects I P (h e)) -> respects I P (try_catch m h).
Proof.
  intros Hm Hh w Hw. destruct (Hm w Hw) as [H1 H2].
  unfold try_catch. destruct (m w) as [[[a|e] w1] l1]; simpl in *.
  - now split.
  - destruct (Hh e w1 H1) as [H3 H4].
    destruct (h e w1) as [[r w2] l2]; simpl in *.
    split; [exact H3 | now apply Forall_app].
Qed.

Lemma respects_for_loop {A} n : forall start (body : nat -> A -> Js W E A) acc,
  (forall i a, start <= i < start + n -> respects I P (body i a)) ->
  respects I P (for_loop n start body acc).
Proof.
  induction n as [|n IH]; intros start body acc Hbody; simpl.
  - apply respects_ret.
  - apply respects_bind.
    + apply Hbody. lia.
    + intros a. apply IH. intros i a' Hi. apply Hbody. lia.
Qed.

(** *** What a computation returns *)

Lemma returns_ret {A} (Q : A -> Prop) a : Q a -> returns Q (@ret W E A a).
Proof. intros H w a' Ha. unfold ret, result in Ha. simpl in Ha. congruence. Qed.

Lemma returns_throw {A} (Q : A -> Prop) e : returns Q (@throw W E A e).
Proof. intros w a Ha. unfold throw, result in Ha. simpl in Ha. discriminate. Qed.

Lemma returns_bind {A B} (Q : B -> Prop) (m : Js W E A) (k : A -> Js W E B) :
  (forall a, returns Q (k a)) -> returns Q (bind m k).
Proof.
  intros Hk w b. unfold bind, result.
  destruct (m w) as [[[a|e] w1] l1]; simpl.
  - specialize (Hk a w1 b). unfold result in Hk.
    destruct (k a w1) as [[r w2] l2]; simpl in *. exact Hk.
  - discriminate.
Qed.

Lemma returns_try_catch {A} (Q : A -> Prop) (m : Js W E A) h :
  returns Q m -> (forall e, returns Q (h e)) -> returns Q (try_catch m h).
Proof.
  intros Hm Hh w a. unfold try_catch, result.
  specialize (Hm w a). unfold result in Hm.
  destruct (m w) as [[[a'|e] w1] l1]; simpl in *.
  - exact Hm.
  - specialize (Hh e w1 a). unfold result in Hh.
    destruct (h e w1) as [[r w2] l2]; simpl in *. exact Hh.
Qed.

End JsFacts.

(* ================================================================== *)
(** ** Facts about src/utils/fileHandler.js *)

Module FileHandlerFacts.
Import JsString JsStringFacts FileHandler FileHandlerSpec.
Local Open Scope js_scope.

(** *** Validation *)

Lemma existsb_eqb_In (key : string) (l : list string) :
  existsb (String.eqb key) l = true <-> In key l.
Proof.
  rewrite existsb_exists. split.
  - intros [x [Hx Heq]]. apply String.eqb_eq in Heq. now subst.
  - intros H. exists key. split; [exact H | apply String.eqb_refl].
Qed.

Lemma own_property_In {A} (o : list (string * A)) (key : string) :
  own_property o key <> None <-> In key (map fst o).
Proof.
  induction o as [|[k a] o IH]; simpl.
  - split; [congruence | tauto].
  - destruct (String.eqb_spec k key) as [->|Hne].
    + split; [auto | congruence].
    + rewrite IH. split; [auto | intros [H|H]; [contradiction | exact H]].
Qed.

Lemma get_property_defined {A} (o : list (string * A)) (key : string) :
  get_property o key <> None
  <-> In key (map fst o) \/ In key Object_prototype_properties.
Proof.
  unfold get_property. rewrite <- own_property_In, <- existsb_eqb_In.
  destruct (own_property o key) as [a|].
  - split; [left | ]; congruence.
  - destruct (existsb (String.eqb key) Object_prototype_properties).
    + split; [now right | congruence].
    + split; [congruence | intros [H|H]; congruence].
Qed.

Lemma supported_keys :
  map fst SUPPORTED_FILE_TYPES = (spec_allow_list ++ ["image/jpg"])%list.
Proof. reflexivity. Qed.

Lemma validateFile_within_limit file :
  (size file <= MAX_FILE_SIZE)%N ->
  validateFile file =
    match get_property SUPPORTED_FILE_TYPES (type file) with
    | None =>
        {| success := false;
           message := "Unsupported file type: " ++ type file
                      ++ ". Supported types: PDF, TXT, DOCX, DOC, PNG, JPG" |}
    | Some _ => {| success := true; message := "File is valid" |}
    end.
Proof.
  intros Hsize. unfold validateFile.
  destruct (N.ltb_spec MAX_FILE_SIZE (size file)) as [Hlt|_]; [lia | reflexivity].
Qed.

Lemma validate_fold files : forall vs es,
  fold_left validate_step files (vs, es) =
    ((vs ++ filter (fun f => success (validateFile f)) files)%list,
     (es ++ map rejection
              (filter (fun f => negb (success (validateFile f))) files))%list).
Proof.
  induction files as [|f files IH]; intros vs es; simpl.
  - now rewrite !app_nil_r.
  - destruct (success (validateFile f)) eqn:Hf; simpl; rewrite IH.
    + now rewrite <- app_assoc.
    + now rewrite <- app_assoc.
Qed.

Lemma validateMultipleFiles_within_limit files :
  List.length files <= MAX_FILES ->
  validateMultipleFiles files =
    let errors :=
      map rejection (filter (fun f => negb (success (validateFile f))) files) in
    {| batch_success := Nat.eqb (List.length errors) 0;
       validFiles := filter (fun f => success (validateFile f)) files;
       errors := errors |}.
Proof.
  intros Hlen. unfold validateMultipleFiles.
  destruct (Nat.ltb_spec MAX_FILES (List.length files)) as [Hlt|_]; [lia|].
  fold validate_step.
  rewrite validate_fold. reflexivity.
Qed.

Lemma filter_all {A} (p : A -> bool) (l : list A) :
  Forall (fun x => p x = true) l -> filter p l = l.
Proof.
  induction 1 as [|x l Hx _ IH]; simpl; [reflexivity|]. now rewrite Hx, IH.
Qed.

Lemma filter_none {A} (p : A -> bool) (l : list A) :
  filter (fun x => negb (p x)) l = [] <-> Forall (fun x => p x = true) l.
Proof.
  induction l as [|x l IH]; simpl.
  - split; constructor.
  - destruct (p x) eqn:Hx; simpl.
    + rewrite IH. split; [now constructor | now inversion 1].
    + split; [discriminate | inversion 1; congruence].
Qed.

(** The batch is accepted exactly when it is within the maximum count and
    every file is valid, and then every file is kept, in order. *)
Lemma batch_success_iff files :
  batch_success (validateMultipleFiles files) = true
  <-> List.length files <= MAX_FILES /\ Forall valid files.
Proof.
  destruct (le_lt_dec (List.length files) MAX_FILES) as [Hle|Hgt].
  - rewrite validateMultipleFiles_within_limit by exact Hle. simpl.
    rewrite Nat.eqb_eq, length_zero_iff_nil.
    split.
    + intros H. apply map_eq_nil in H. apply filter_none in H. now split.
    + intros [_ H]. apply filter_none in H. now rewrite H.
  - unfold validateMultipleFiles.
    destruct (Nat.ltb_spec MAX_FILES (List.length files)) as [_|Hle]; [|lia].
    simpl. split; [discriminate | lia].
Qed.

Lemma batch_success_validFiles files :
  batch_success (validateMultipleFiles files) = true ->
  validFiles (validateMultipleFiles files) = files
  /\ errors (validateMultipleFiles files) = [].
Proof.
  intros H. apply batch_success_iff in H as [Hle Hall].
  rewrite validateMultipleFiles_within_limit by exact Hle. simpl. split.
  - now apply filter_all.
  - apply filter_none in Hall. now rewrite Hall.
Qed.

Lemma batch_failure_errors files :
  batch_success (validateMultipleFiles files) = false ->
  errors (validateMultipleFiles files) <> [].
Proof.
  unfold validateMultipleFiles.
  destruct (MAX_FILES <? List.length files)%nat; simpl; [discriminate|].
  destruct (fold_left _ files ([], [])) as [vs es]; simpl.
  destruct es; simpl; [discriminate | discriminate].
Qed.

(** *** C8: the allow-list of [validateFile] *)

(** C8, counterexample: a file within the size limit whose declared type
    image/jpg is none of the six listed types is accepted all the same. *)
Lemma validateFile_accepts_image_jpg :
  (size jpg_file <= MAX_FILE_SIZE)%N
  /\ ~ In (type jpg_file) spec_allow_list
  /\ validateFile jpg_file = {| success := true; message := "File is valid" |}.
Proof.
  split; [vm_compute; discriminate|]. split; [|reflexivity].
  simpl. intros H. repeat destruct H as [H|H]; try discriminate H. exact H.
Qed.

(** C8, amended: for a file within the size limit whose declared type is
    not the name of a property inherited from Object.prototype,
    [validateFile] accepts the type if and only if it is one of the seven
    keys of SUPPORTED_FILE_TYPES, the six listed types and image/jpg; a
    type that is rejected is named in the message. *)
Theorem validateFile_type_accepted_iff (file : File) :
  (size file <= MAX_FILE_SIZE)%N ->
  ~ In (type file) Object_prototype_properties ->
  (success (validateFile file) = true
   <-> In (type file) (spec_allow_list ++ ["image/jpg"])%list)
  /\ (success (validateFile file) = false ->
      message (validateFile file) =
        "Unsupported file type: " ++ type file
        ++ ". Supported types: PDF, TXT, DOCX, DOC, PNG, JPG").
Proof.
  intros Hsize Hproto.
  rewrite validateFile_within_limit by exact Hsize.
  rewrite <- supported_keys.
  pose proof (get_property_defined SUPPORTED_FILE_TYPES (type file)) as Hdef.
  destruct (get_property SUPPORTED_FILE_TYPES (type file)) as [p|]; simpl.
  - split; [|discriminate].
    split; [intros _ | reflexivity].
    destruct Hdef as [Hdef _].
    destruct Hdef as [H|H]; [discriminate | exact H | contradiction].
  - split; [|reflexivity].
    split; [discriminate|].
    intros H. exfalso. apply Hdef; [now left | reflexivity].
Qed.

Lemma validateFile_type_accepted_iff_witness :
  (success (validateFile jpg_file) = true
   <-> In (type jpg_file) (spec_allow_list ++ ["image/jpg"])%list)
  /\ (success (validateFile jpg_file) = false ->
      message (validateFile jpg_file) =
        "Unsupported file type: " ++ type jpg_file
        ++ ". Supported types: PDF, TXT, DOCX, DOC, PNG, JPG").
Proof.
  apply (validateFile_type_accepted_iff jpg_file).
  - vm_compute; discriminate.
  - simpl. intros H. repeat destruct H as [H|H]; try discriminate H. exact H.
Defined.

(** *** Invariants kept by every function of the module *)

Ltac respects_step :=
  match goal with
  | |- respects _ _ (bind _ _) => apply respects_bind; [| intros ?]
  | |- respects _ _ (try_catch _ _) => apply respects_try_catch; [| intros ?]
  | |- respects _ _ (ret _) => apply respects_ret
  | |- respects _ _ (throw _) => apply respects_throw
  | |- respects _ _ (await _) => apply respects_await
  | |- respects _ _ (emit _) => apply respects_emit
  | |- respects _ _ (for_loop _ _ _ _) => apply respects_for_loop; intros ? ? ?
  | |- respects _ _ (if ?c then _ else _) => destruct c
  | |- respects _ _ (let '(_, _) := ?x in _) => destruct x
  end.

Section Respects.
Variable browser : Browser.
Variable I : World -> Prop.
Variable P : Event -> Prop.
Hypothesis load_respects : respects I P (loadPdfJs browser).
Hypothesis P_GetPage : forall i, P (GetPage i).
Hypothesis P_Recognize : forall label, P (Recognize label).
Hypothesis P_Warn : forall text, P (Warn text).
Hypothesis P_Notified : forall n, P (Notified n).

Lemma notify_respects {A} (onProgress : Callback A) a :
  respects I P (notify onProgress a).
Proof.
  destruct onProgress as [f|]; simpl.
  - apply respects_emit_all. apply Forall_forall. intros e He.
    apply in_map_iff in He as [n [<- _]]. apply P_Notified.
  - apply respects_ret.
Qed.

Lemma getPage_respects pdf i : respects I P (getPage pdf i).
Proof. unfold getPage. repeat respects_step. apply P_GetPage. Qed.

Lemma lib_getDocument_respects lib data :
  respects I P (lib_getDocument browser lib data).
Proof. destruct data; [apply respects_await | apply respects_throw]. Qed.


Lemma extractTextFromPDF_respects buf :
  P (Called "extractTextFromPDF") ->
  respects I P (extractTextFromPDF browser buf).
Proof.
  intros Hc. unfold extractTextFromPDF.
  repeat first [ exact load_respects | apply getPage_respects
               | apply lib_getDocument_respects | respects_step ];
    auto.
Qed.

Lemma extractTextFromDocx_respects buf :
  P (Called "extractTextFromDocx") ->
  respects I P (extractTextFromDocx browser buf).
Proof.
  intros Hc. unfold extractTextFromDocx. repeat respects_step; auto.
Qed.

Lemma extractTextFromImage_respects buf label onProgress :
  P (Called "extractTextFromImage") ->
  respects I P (extractTextFromImage browser buf label onProgress).
Proof.
  intros Hc. unfold extractTextFromImage.
  repeat respects_step; auto.
  apply respects_emit_all. apply Forall_forall. intros e He.
  apply in_flat_map in He as [m [_ He]].
  destruct onProgress as [f|]; [|contradiction].
  destruct (String.eqb (status m) "recognizing text"); [|contradiction].
  apply in_map_iff in He as [n [<- _]]. apply P_Notified.
Qed.


End Respects.

(** *** [extractTextFromFile]: what is thrown and what is returned *)

Lemma bind_emit {W E B} (e : E) (k : unit -> Js W E B) (w : W) :
  bind (emit e) k w = (result (k tt w), store (k tt w), e :: events (k tt w)).
Proof.
  unfold bind, emit, result, store, events.
  destruct (k tt w) as [[r w2] l2]. reflexivity.
Qed.

Lemma bind_await_returned {W E A B} (a : A) (k : A -> Js W E B) (w : W) :
  bind (await (Returned a)) k w = k a w.
Proof. unfold bind, await. destruct (k a w) as [[r w2] l2]. reflexivity. Qed.

Lemma bind_await_thrown {W E A B} e (k : A -> Js W E B) (w : W) :
  bind (await (Thrown e)) k w = (Thrown e, w, []).
Proof. reflexivity. Qed.

(** A [catch] block that returns makes the whole [try] statement return. *)
Lemma try_catch_ret_handler {W E A} (m : Js W E A) (g : string -> A) (w : W) :
  exists a,
    result (try_catch m (fun e => ret (g e)) w) = Returned a
    /\ (result (m w) = Returned a
        \/ exists e, result (m w) = Thrown e /\ a = g e).
Proof.
  unfold try_catch, result, ret.
  destruct (m w) as [[[a|e] w1] l1]; simpl.
  - exists a. split; [reflexivity | now left].
  - exists (g e). split; [reflexivity | right; now exists e].
Qed.

Section ExtractTextFromFile.
Variable browser : Browser.
Variable file : File.
Variable onProgress : Callback N.
Variable w : World.

Lemma extractTextFromFile_invalid :
  success (validateFile file) = false ->
  extractTextFromFile browser file onProgress w =
    (Thrown (message (validateFile file)), w, [Called "extractTextFromFile"]).
Proof.
  intros H. unfold extractTextFromFile. rewrite bind_emit.
  cbv zeta. rewrite H. reflexivity.
Qed.

Lemma extractTextFromFile_unreadable e :
  success (validateFile file) = true ->
  arrayBuffer file = Thrown e ->
  extractTextFromFile browser file onProgress w =
    (Thrown e, w, [Called "extractTextFromFile"]).
Proof.
  intros H Hbuf. unfold extractTextFromFile. rewrite bind_emit.
  cbv zeta. rewrite H, Hbuf. reflexivity.
Qed.

Lemma extractTextFromFile_returns buf :
  success (validateFile file) = true ->
  arrayBuffer file = Returned buf ->
  exists r,
    result (extractTextFromFile browser file onProgress w) = Returned r
    /\ describes file r.
Proof.
  intros H Hbuf. unfold extractTextFromFile. rewrite bind_emit.
  cbv zeta. rewrite H, Hbuf. cbn [negb].
  rewrite bind_await_returned. unfold result at 1. cbn [fst].
  match goal with
  | |- context [try_catch ?m (fun error => ret (@?g error))] =>
      destruct (try_catch_ret_handler m g w) as [r [Hr Hcases]]
  end.
  exists r. split; [exact Hr|].
  destruct Hcases as [Hret | [e [_ ->]]]; [| now repeat split].
  eapply (@returns_bind World Event _ _ (describes file)); [| exact Hret].
  intros [text method].
  destruct (falsy text || Nat.eqb (String.length (trim text)) 0).
  - apply returns_throw.
  - apply returns_ret. now repeat split.
Qed.

End ExtractTextFromFile.

(** *** Sample inputs *)

(** *** C2: what [extractTextFromFile] throws *)

(** C2, counterexample: for an oversize file [extractTextFromFile] throws
    the validation message instead of returning a failure-shaped result. *)
Lemma extractTextFromFile_throws_on_invalid_file :
  result (extractTextFromFile sample_browser oversize_file None fresh)
  = Thrown "File size exceeds 10MB limit. Current size: 11.00MB".
Proof. vm_compute. reflexivity. Qed.

Lemma one_of_In s cases : one_of s cases = true <-> In s cases.
Proof. apply existsb_eqb_In. Qed.

(** The test [!extractedText || extractedText.trim().length === 0]. *)
Lemma no_text_test text :
  falsy text || Nat.eqb (String.length (trim text)) 0 = true
  <-> String.length (trim text) = 0.
Proof.
  rewrite orb_true_iff, Nat.eqb_eq. split; [|now right].
  intros [Hf|Hl]; [|exact Hl].
  unfold falsy in Hf. destruct text; [reflexivity | discriminate Hf].
Qed.

(** A valid, readable file: the call never throws, and it returns what
    the [switch] gave, or the failure of what the [switch] threw. *)
Lemma extractTextFromFile_run browser file onProgress w buf :
  success (validateFile file) = true ->
  arrayBuffer file = Returned buf ->
  extractTextFromFile browser file onProgress w
  = (Returned (settled_extraction file
                 (result (extraction browser file buf onProgress w))),
     store (extraction browser file buf onProgress w),
     Called "extractTextFromFile"
     :: events (extraction browser file buf onProgress w)).
Proof.
  intros Hvalid Hbuf. unfold extractTextFromFile. rewrite bind_emit.
  cbv zeta. rewrite Hvalid, Hbuf. cbn [negb]. rewrite bind_await_returned.
  change (if String.eqb (type file) "text/plain" then _ else _)
    with (extraction browser file buf onProgress).
  unfold try_catch, bind, result, store, events, settled_extraction, failure_of.
  destruct (extraction browser file buf onProgress w)
    as [[[[text method]|e] w1] l1]; cbn [fst snd].
  - destruct (falsy text || Nat.eqb (String.length (trim text)) 0);
      cbn; now rewrite ?app_nil_r.
  - cbn. now rewrite ?app_nil_r.
Qed.

Lemma result_bind_notify {A B} (onProgress : Callback A) a
    (k : unit -> M B) (w : World) :
  result (bind (notify onProgress a) k w) = result (k tt w).
Proof.
  unfold bind, notify, result.
  destruct onProgress as [f|]; unfold emit_all, ret;
    destruct (k tt w) as [[r w2] l2]; reflexivity.
Qed.

Lemma run_of_result {W E A} (x : Outcome A * W * list E) r :
  result x = r -> x = (r, store x, events x).
Proof. intros <-. apply surjective_run. Qed.

Lemma not_one_of s cases : ~ In s cases -> one_of s cases = false.
Proof. intros H. apply not_true_iff_false. now rewrite one_of_In. Qed.

(** Every error raised during the extraction is what the [switch] throws,
    or the missing text of what it returns. *)
Lemma raised_settled browser file buf onProgress w e :
  raised browser file buf onProgress w e ->
  settled_extraction file (result (extraction browser file buf onProgress w))
  = failure_of file e.
Proof.
  assert (Hthrown : forall e',
            result (extraction browser file buf onProgress w) = Thrown e' ->
            settled_extraction file
              (result (extraction browser file buf onProgress w))
            = failure_of file e') by (intros e' ->; reflexivity).
  intros [Hty Hread | e' Hty Hpdf | text e' Hty Hpdf Hshort Hscan
         | e' Hty Hdoc | e' Hty Himg | Hty | text method Hret Hblank].
  - apply Hthrown. unfold extraction. rewrite Hty, Hread. reflexivity.
  - apply Hthrown. unfold extraction. rewrite Hty.
    change (String.eqb "application/pdf" "text/plain") with false.
    change (String.eqb "application/pdf" "application/pdf") with true.
    cbv iota.
    rewrite (bind_thrown _ _ _ _ _ _
               (run_of_result _ _ Hpdf)).
    reflexivity.
  - apply Hthrown. unfold extraction. rewrite Hty.
    change (String.eqb "application/pdf" "text/plain") with false.
    change (String.eqb "application/pdf" "application/pdf") with true.
    cbv iota.
    rewrite (bind_returned _ _ _ _ _ _
               (run_of_result _ _ Hpdf)).
    unfold result at 1. cbn [fst].
    apply Nat.ltb_lt in Hshort. rewrite Hshort.
    rewrite result_bind_notify.
    rewrite (bind_thrown _ _ _ _ _ _
               (run_of_result _ _ Hscan)).
    reflexivity.
  - apply Hthrown. unfold extraction.
    assert (Htxt : String.eqb (type file) "text/plain" = false).
    { apply String.eqb_neq. intros Heq. rewrite Heq in Hty.
      simpl in Hty. intuition discriminate. }
    assert (Hpdf : String.eqb (type file) "application/pdf" = false).
    { apply String.eqb_neq. intros Heq. rewrite Heq in Hty.
      simpl in Hty. intuition discriminate. }
    apply one_of_In in Hty. rewrite Htxt, Hpdf, Hty.
    rewrite (bind_thrown _ _ _ _ _ _
               (run_of_result _ _ Hdoc)).
    reflexivity.
  - apply Hthrown. unfold extraction.
    assert (Htxt : String.eqb (type file) "text/plain" = false).
    { apply String.eqb_neq. intros Heq. rewrite Heq in Hty.
      simpl in Hty. intuition discriminate. }
    assert (Hpdf : String.eqb (type file) "application/pdf" = false).
    { apply String.eqb_neq. intros Heq. rewrite Heq in Hty.
      simpl in Hty. intuition discriminate. }
    assert (Hdoc : one_of (type file)
              [ "application/vnd.openxmlformats-officedocument.wordprocessingml.document";
                "application/msword" ] = false).
    { apply not_one_of. intros Hin. simpl in Hin, Hty.
      destruct Hin as [Heq|[Heq|[]]]; rewrite <- Heq in Hty;
        intuition discriminate. }
    apply one_of_In in Hty. rewrite Htxt, Hpdf, Hdoc, Hty.
    rewrite result_bind_notify.
    rewrite (bind_thrown _ _ _ _ _ _
               (run_of_result _ _ Himg)).
    reflexivity.
  - apply Hthrown. unfold extraction.
    assert (Htxt : String.eqb (type file) "text/plain" = false).
    { apply String.eqb_neq. intros Heq. apply Hty. rewrite Heq.
      simpl. auto. }
    assert (Hpdf : String.eqb (type file) "application/pdf" = false).
    { apply String.eqb_neq. intros Heq. apply Hty. rewrite Heq.
      simpl. auto. }
    rewrite Htxt, Hpdf, !not_one_of; [reflexivity | |];
      intros Hin; apply Hty; simpl in *; intuition.
  - rewrite Hret. unfold settled_extraction.
    now rewrite (proj2 (no_text_test text) Hblank).
Qed.

(** Whatever the [switch] throws was raised at one of its throwing
    places. *)
Lemma thrown_raised browser file buf onProgress w e :
  result (extraction browser file buf onProgress w) = Thrown e ->
  raised browser file buf onProgress w e.
Proof.
  unfold extraction.
  destruct (String.eqb_spec (type file) "text/plain") as [Htxt|Htxt].
  { destruct (readAsText file) as [content|] eqn:Hread; cbn;
      intros H; [discriminate|].
    inversion H. now apply reader_error. }
  destruct (String.eqb_spec (type file) "application/pdf") as [Hpdf|Hpdf].
  { destruct (result (extractTextFromPDF browser buf w)) as [text|e'] eqn:Hd.
    - rewrite (bind_returned _ _ _ _ _ _ (run_of_result _ _ Hd)).
      unfold result at 1. cbn [fst].
      destruct (String.length text <? 50)%nat eqn:Hshort.
      + rewrite result_bind_notify.
        destruct (result (processScannedPDF browser (transferred buf)
                            (name file) onProgress
                            (store (extractTextFromPDF browser buf w))))
          as [scanned|e''] eqn:Hscan.
        * rewrite (bind_returned _ _ _ _ _ _ (run_of_result _ _ Hscan)).
          cbn. discriminate.
        * rewrite (bind_thrown _ _ _ _ _ _ (run_of_result _ _ Hscan)).
          cbn. intros H. inversion H; subst e''.
          apply fallback_error with (text := text); try assumption.
          now apply Nat.ltb_lt.
      + cbn. discriminate.
    - rewrite (bind_thrown _ _ _ _ _ _ (run_of_result _ _ Hd)).
      cbn. intros H. inversion H; subst e'. now apply pdf_error. }
  destruct (one_of (type file)
              [ "application/vnd.openxmlformats-officedocument.wordprocessingml.document";
                "application/msword" ]) eqn:Hdoc.
  { apply one_of_In in Hdoc.
    destruct (result (extractTextFromDocx browser buf w)) as [text|e'] eqn:Hd.
    - rewrite (bind_returned _ _ _ _ _ _ (run_of_result _ _ Hd)).
      cbn. discriminate.
    - rewrite (bind_thrown _ _ _ _ _ _ (run_of_result _ _ Hd)).
      cbn. intros H. inversion H; subst e'. now apply docx_error. }
  destruct (one_of (type file) [ "image/png"; "image/jpeg"; "image/jpg" ])
    eqn:Himg.
  { apply one_of_In in Himg. rewrite result_bind_notify.
    destruct (result (extractTextFromImage browser buf (name file) onProgress w))
      as [text|e'] eqn:Hd.
    - rewrite (bind_returned _ _ _ _ _ _ (run_of_result _ _ Hd)).
      cbn. discriminate.
    - rewrite (bind_thrown _ _ _ _ _ _ (run_of_result _ _ Hd)).
      cbn. intros H. inversion H; subst e'. now apply image_error. }
  cbn. intros H. inversion H. apply unsupported_type.
  apply not_true_iff_false in Hdoc, Himg. rewrite one_of_In in Hdoc, Himg.
  intros Hin. simpl in Hin, Hdoc, Himg. intuition congruence.
Qed.

(** C2, amended: for a file that passes [validateFile] and whose buffer
    is read, [extractTextFromFile] does not throw.  It returns a result
    carrying the file's name, size and type, which is a success only
    when the [switch] returned a text that is not blank; every error
    raised during the extraction (by the FileReader, by an extractor, by
    the OCR fallback, by the default case, or for a missing text) is
    returned as the failure-shaped result with that error's message, and
    every failure it returns is one of these.  For a file that fails
    [validateFile] it throws the validation message. *)
Theorem extractTextFromFile_catches_extraction_errors
    (browser : Browser) (file : File) (onProgress : Callback N) (w : World) :
  (success (validateFile file) = true ->
   forall buf, arrayBuffer file = Returned buf ->
     let run := extractTextFromFile browser file onProgress w in
     (exists r, result run = Returned r /\ describes file r)
     /\ (forall e,
           raised browser file buf onProgress w e ->
           result run = Returned (failure_of file e))
     /\ (forall e n s ty,
           result run = Returned (Failure e n s ty) ->
           raised browser file buf onProgress w e)
     /\ (forall text method n s ty,
           result run = Returned (Success text method n s ty) ->
           result (extraction browser file buf onProgress w)
           = Returned (text, method)
           /\ String.length (trim text) <> 0))
  /\ (success (validateFile file) = false ->
      result (extractTextFromFile browser file onProgress w)
      = Thrown (message (validateFile file))).
Proof.
  split.
  2:{ intros Hinvalid. now rewrite extractTextFromFile_invalid. }
  intros Hvalid buf Hbuf. cbv zeta.
  rewrite (extractTextFromFile_run _ _ _ _ _ Hvalid Hbuf).
  unfold result at 1 3 4 5. cbn [fst].
  split; [|split; [|split]].
  - eexists. split; [reflexivity|].
    unfold settled_extraction, failure_of.
    destruct (result (extraction browser file buf onProgress w))
      as [[text method]|e]; [|now repeat split].
    destruct (falsy text || Nat.eqb (String.length (trim text)) 0);
      now repeat split.
  - intros e He. f_equal. now apply raised_settled.
  - intros e n s ty Hr. inversion Hr as [Hs]; clear Hr.
    unfold settled_extraction, failure_of in Hs.
    destruct (result (extraction browser file buf onProgress w))
      as [[text method]|e'] eqn:Hsw.
    + destruct (falsy text || Nat.eqb (String.length (trim text)) 0) eqn:Hb;
        [|discriminate].
      inversion Hs; subst. apply no_text with (text := text) (method := method);
        [exact Hsw | now apply no_text_test].
    + inversion Hs; subst e' n s ty. clear Hs.
      now apply thrown_raised.
  - intros text method n s ty Hr. inversion Hr as [Hs]; clear Hr.
    unfold settled_extraction, failure_of in Hs.
    destruct (result (extraction browser file buf onProgress w))
      as [[text' method']|e']; [|discriminate].
    destruct (falsy text' || Nat.eqb (String.length (trim text')) 0) eqn:Hb;
      [discriminate|].
    inversion Hs; subst. split; [reflexivity|].
    intros Hl. apply no_text_test in Hl. congruence.
Qed.

Lemma extractTextFromFile_catches_extraction_errors_witness :
  result (extractTextFromFile ocr_down_browser png_file None fresh)
  = Returned (Failure "Failed to extract text from image: worker terminated"
                "scan.png" 4096 "image/png")
  /\ result (extractTextFromFile ocr_down_browser pdf_file None fresh)
     = Returned (Failure "Failed to extract text from PDF: Invalid PDF structure"
                   "resume.pdf" 4096 "application/pdf")
  /\ result (extractTextFromFile ocr_down_browser gif_file None fresh)
     = Thrown (message (validateFile gif_file)).
Proof.
  destruct (extractTextFromFile_catches_extraction_errors
              ocr_down_browser png_file None fresh) as [Hpng _].
  destruct (extractTextFromFile_catches_extraction_errors
              ocr_down_browser pdf_file None fresh) as [Hpdf _].
  destruct (extractTextFromFile_catches_extraction_errors
              ocr_down_browser gif_file None fresh) as [_ Hinvalid].
  destruct (Hpng eq_refl "PNG" eq_refl) as [_ [Hocr _]].
  destruct (Hpdf eq_refl "%PDF" eq_refl) as [_ [Hparse _]].
  split; [|split].
  - apply (Hocr "Failed to extract text from image: worker terminated").
    apply image_error; [simpl; auto | reflexivity].
  - apply (Hparse "Failed to extract text from PDF: Invalid PDF structure").
    apply pdf_error; reflexivity.
  - apply Hinvalid. reflexivity.
Defined.

(** *** Batches: [processMultipleFiles] *)

Lemma skipn_nth_error {A} (l : list A) : forall i x,
  nth_error l i = Some x -> skipn i l = x :: skipn (S i) l.
Proof.
  induction l as [|y l IH]; intros [|i] x H; simpl in *; try discriminate.
  - now inversion H.
  - now apply IH.
Qed.

(** A loop whose body appends one element per index collects one element
    per index, in order. *)
Lemma for_loop_collect {W E A R} (items : list A) (rel : A -> R -> Prop)
    (body : nat -> list R -> Js W E (list R)) :
  (forall i x acc w, nth_error items i = Some x ->
     exists r, result (body i acc w) = Returned (acc ++ [r])%list /\ rel x r) ->
  forall n start acc w, start + n = List.length items ->
    exists rs, result (for_loop n start body acc w) = Returned (acc ++ rs)%list
               /\ Forall2 rel (skipn start items) rs.
Proof.
  intros Hbody. induction n as [|n IH]; intros start acc w Hlen.
  - exists []. split; [simpl; now rewrite app_nil_r|].
    rewrite skipn_all2 by lia. constructor.
  - destruct (nth_error items start) as [x|] eqn:Hx.
    2:{ apply nth_error_None in Hx. lia. }
    destruct (Hbody start x acc w Hx) as [r [Hr Hrel]].
    destruct (IH (S start) (acc ++ [r])%list (store (body start acc w)))
      as [rs [Hrs Hall]]; [lia|].
    exists (r :: rs). split.
    + assert (Hrun : body start acc w =
                       (Returned (acc ++ [r])%list, store (body start acc w),
                        events (body start acc w)))
        by (rewrite <- Hr; apply surjective_run).
      simpl. rewrite (bind_returned _ _ _ _ _ _ Hrun).
      unfold result at 1. cbn [fst]. rewrite Hrs.
      now rewrite <- app_assoc.
    + rewrite (skipn_nth_error _ _ _ Hx). now constructor.
Qed.

(** When the batch passes validation and every buffer can be read, there
    is one result per file, in the order of the files. *)
Lemma processMultipleFiles_one_result_per_file browser files onProgress w :
  batch_success (validateMultipleFiles files) = true ->
  Forall readable files ->
  exists rs,
    result (processMultipleFiles browser files onProgress w) = Returned rs
    /\ Forall2 describes files rs.
Proof.
  intros Hok Hread.
  destruct (batch_success_validFiles files Hok) as [Hvf _].
  apply batch_success_iff in Hok as Hall. destruct Hall as [_ Hall].
  unfold processMultipleFiles. rewrite bind_emit. cbv zeta.
  rewrite Hok, Hvf. cbn [negb]. unfold result at 1. cbn [fst].
  match goal with
  | |- context [for_loop _ _ ?body _ _] =>
      destruct (for_loop_collect files describes body) with
        (n := List.length files) (start := 0) (acc := @nil ExtractionResult)
        (w := w) as [rs [Hrs Hdesc]]
  end.
  - intros i file acc w' Hi.
    rewrite Hi, bind_await_returned, result_bind_notify.
    rewrite Forall_forall in Hall, Hread.
    apply nth_error_In in Hi.
    destruct (Hread file Hi) as [buf Hbuf].
    match goal with
    | |- context [extractTextFromFile browser file ?cb] =>
        destruct (extractTextFromFile_returns browser file cb w' buf
                    (Hall file Hi) Hbuf) as [r [Hr Hd]];
        exists r; split; [|exact Hd];
        assert (Hrun : extractTextFromFile browser file cb w' =
                         (Returned r,
                          store (extractTextFromFile browser file cb w'),
                          events (extractTextFromFile browser file cb w')))
          by (rewrite <- Hr; apply surjective_run)
    end.
    rewrite (bind_returned _ _ _ _ _ _ Hrun). reflexivity.
  - reflexivity.
  - exists rs. split; [exact Hrs | exact Hdesc].
Qed.

Lemma processMultipleFiles_rejected browser files onProgress w :
  batch_success (validateMultipleFiles files) = false ->
  processMultipleFiles browser files onProgress w =
    (Thrown ("File validation failed: "
             ++ join ", " (errors (validateMultipleFiles files))),
     w, [Called "processMultipleFiles"]).
Proof.
  intros H. unfold processMultipleFiles. rewrite bind_emit. cbv zeta.
  rewrite H. reflexivity.
Qed.

(** *** C1: when the batch fails as a whole *)

(** C1, counterexample: a batch of two files, within the maximum of five,
    is rejected as a whole because one file has an unsupported type. *)
Lemma processMultipleFiles_throws_within_limit :
  List.length [text_file "Hello World"; gif_file] <= MAX_FILES
  /\ result (processMultipleFiles sample_browser
               [text_file "Hello World"; gif_file] None fresh)
     = Thrown "File validation failed: anim.gif: Unsupported file type: image/gif. Supported types: PDF, TXT, DOCX, DOC, PNG, JPG".
Proof. split; [vm_compute; lia | vm_compute; reflexivity]. Qed.

(** C1, amended: whenever [validateMultipleFiles] reports a rejection,
    that is when the batch exceeds the maximum file count or any file is
    invalid, [processMultipleFiles] throws the joined rejections and
    processes no file, whatever the files are; for a batch within the
    maximum whose files are all valid and whose buffers are all read it
    returns one result per file, in order; so among the batches whose
    buffers are all read it fails as a whole exactly when there is a
    rejection. *)
Theorem processMultipleFiles_fails_iff_rejection
    (browser : Browser) (files : list File)
    (onProgress : Callback BatchProgress) (w : World) :
  let validation := validateMultipleFiles files in
  let run := processMultipleFiles browser files onProgress w in
  (errors validation = []
   <-> List.length files <= MAX_FILES /\ Forall valid files)
  /\ (errors validation <> [] ->
      run = (Thrown ("File validation failed: "
                     ++ join ", " (errors validation)),
             w, [Called "processMultipleFiles"]))
  /\ (Forall readable files ->
      (errors validation = [] ->
       exists rs, result run = Returned rs /\ Forall2 describes files rs)
      /\ ((exists e, result run = Thrown e) <-> errors validation <> [])).
Proof.
  cbv zeta.
  destruct (batch_success (validateMultipleFiles files)) eqn:Hok.
  - destruct (batch_success_validFiles files Hok) as [_ Herr].
    split; [|split].
    + rewrite <- batch_success_iff. now split.
    + intros Hne. contradiction.
    + intros Hread.
      destruct (processMultipleFiles_one_result_per_file
                  browser files onProgress w Hok Hread) as [rs [Hrs Hdesc]].
      split; [intros _; now exists rs|].
      rewrite Hrs. split; [intros [e He]; discriminate | contradiction].
  - pose proof (batch_failure_errors files Hok) as Herr.
    rewrite (processMultipleFiles_rejected _ _ _ _ Hok).
    split; [|split].
    + rewrite <- batch_success_iff. split; [contradiction | congruence].
    + reflexivity.
    + intros _. split; [contradiction|].
      split; [intros _; exact Herr | intros _; eexists; reflexivity].
Qed.

Lemma readable_text_file content : readable (text_file content).
Proof. now exists content. Qed.

Lemma processMultipleFiles_fails_iff_rejection_witness :
  (let files := [vanished_file; gif_file] in
   processMultipleFiles sample_browser files None fresh
   = (Thrown ("File validation failed: "
              ++ join ", " (errors (validateMultipleFiles files))),
      fresh, [Called "processMultipleFiles"]))
  /\ (let files := [text_file "Hello World"; text_file "Second"] in
      exists rs,
        result (processMultipleFiles sample_browser files None fresh)
        = Returned rs
        /\ Forall2 describes files rs).
Proof.
  cbv zeta. split.
  - destruct (processMultipleFiles_fails_iff_rejection sample_browser
                [vanished_file; gif_file] None fresh) as [_ [Hthrow _]].
    apply Hthrow. vm_compute. discriminate.
  - destruct (processMultipleFiles_fails_iff_rejection sample_browser
                [text_file "Hello World"; text_file "Second"] None fresh)
      as [_ [_ Hread]].
    destruct Hread as [Hret _];
      [repeat constructor; apply readable_text_file|].
    apply Hret. vm_compute. reflexivity.
Defined.

(** *** C7: one result per accepted file *)

(** C7: a batch of two files that both pass validation, one of which can
    no longer be read: [file.arrayBuffer()] is awaited outside the [try]
    block of [extractTextFromFile], so the rejection escapes and
    [processMultipleFiles] throws instead of returning two results. *)
Theorem processMultipleFiles_unreadable_file_aborts_batch :
  let files := [text_file "Hello World"; vanished_file] in
  batch_success (validateMultipleFiles files) = true
  /\ validFiles (validateMultipleFiles files) = files
  /\ result (processMultipleFiles sample_browser files None fresh)
     = Thrown "The requested file could not be read".
Proof.
  cbv zeta. split; [|split]; vm_compute; reflexivity.
Qed.

(** *** What the extractors return *)

Lemma returns_bind_strong {W E A B} (Q1 : A -> Prop) (Q : B -> Prop)
    (m : Js W E A) (k : A -> Js W E B) :
  returns Q1 m -> (forall a, Q1 a -> returns Q (k a)) -> returns Q (bind m k).
Proof.
  intros Hm Hk w b. unfold bind, result.
  specialize (Hm w). unfold result in Hm.
  destruct (m w) as [[[a|e] w1] l1]; simpl in *; [|discriminate].
  specialize (Hk a (Hm a eq_refl) w1 b). unfold result in Hk.
  destruct (k a w1) as [[r w2] l2]; simpl in *. exact Hk.
Qed.

Ltac returns_step :=
  match goal with
  | |- returns _ (bind _ _) => apply returns_bind; intros ?
  | |- returns _ (try_catch _ _) => apply returns_try_catch; [| intros ?]
  | |- returns _ (throw _) => apply returns_throw
  | |- returns trimmed (ret (trim _)) => apply returns_ret, trim_idempotent
  | |- returns _ (let '(_, _) := ?x in _) => destruct x
  end.

Lemma extractTextFromPDF_trimmed browser buf :
  returns trimmed (extractTextFromPDF browser buf).
Proof. unfold extractTextFromPDF. repeat returns_step. Qed.

Lemma extractTextFromDocx_trimmed browser buf :
  returns trimmed (extractTextFromDocx browser buf).
Proof. unfold extractTextFromDocx. repeat returns_step. Qed.

Lemma extractTextFromImage_trimmed browser buf label onProgress :
  returns trimmed (extractTextFromImage browser buf label onProgress).
Proof. unfold extractTextFromImage. repeat returns_step. Qed.

Lemma processScannedPDF_trimmed browser buf label onProgress :
  returns trimmed (processScannedPDF browser buf label onProgress).
Proof. unfold processScannedPDF. repeat returns_step. Qed.

Lemma length_zero_iff_empty s : String.length s = 0 <-> s = "".
Proof. destruct s; simpl; split; congruence. Qed.

Lemma extractTextFromFile_success_text browser file onProgress :
  returns (success_text_ok file) (extractTextFromFile browser file onProgress).
Proof.
  unfold extractTextFromFile. apply returns_bind. intros _. cbv zeta.
  destruct (negb (success (validateFile file))); [apply returns_throw|].
  apply returns_bind. intros buf. apply returns_try_catch.
  2:{ intros e. now apply returns_ret. }
  apply returns_bind_strong
    with (Q1 := fun p => type file <> "text/plain" -> trimmed (fst p)).
  - destruct (String.eqb_spec (type file) "text/plain") as [Htxt|Htxt].
    { intros w p _ Hp. contradiction. }
    destruct (String.eqb (type file) "application/pdf").
    { apply returns_bind_strong with (Q1 := trimmed);
        [apply extractTextFromPDF_trimmed|].
      intros t Ht. destruct (String.length t <? 50)%nat.
      - apply returns_bind. intros _.
        apply returns_bind_strong with (Q1 := trimmed);
          [apply processScannedPDF_trimmed|].
        intros t' Ht'. now apply returns_ret.
      - now apply returns_ret. }
    destruct (one_of (type file) _).
    { apply returns_bind_strong with (Q1 := trimmed);
        [apply extractTextFromDocx_trimmed|].
      intros t Ht. now apply returns_ret. }
    destruct (one_of (type file) _); [|apply returns_throw].
    apply returns_bind. intros _.
    apply returns_bind_strong with (Q1 := trimmed);
      [apply extractTextFromImage_trimmed|].
    intros t Ht. now apply returns_ret.
  - intros [text method] Htrim. simpl in Htrim.
    destruct (falsy text || Nat.eqb (String.length (trim text)) 0) eqn:Hblank;
      [apply returns_throw|].
    apply orb_false_iff in Hblank as [Hfalsy Hlen].
    apply returns_ret. simpl. split; [|split].
    + now apply falsy_false_iff.
    + apply Nat.eqb_neq in Hlen. now rewrite <- length_zero_iff_empty.
    + exact Htrim.
Qed.

(** *** C3: the text of a success *)

(** C3: a plain-text file whose content S starts with blanks and ends
    with a line feed is returned as a success whose text is S itself, not
    S.trim(): the text/plain path is the only one that does not trim. *)
Theorem extractTextFromFile_plain_text_not_trimmed :
  let S := "  Hello World" ++ LF in
  result (extractTextFromFile sample_browser (text_file S) None fresh)
  = Returned (Success S "Direct text reading" "resume.txt" 14 "text/plain")
  /\ trim S = "Hello World"
  /\ S <> trim S.
Proof.
  cbv zeta. split; [|split].
  - vm_compute. reflexivity.
  - vm_compute. reflexivity.
  - vm_compute. discriminate.
Qed.

(** *** C4: when the OCR fallback runs *)

Lemma calls_app fn l1 l2 : calls fn (l1 ++ l2) = calls fn l1 + calls fn l2.
Proof. unfold calls. now rewrite filter_app, length_app. Qed.

Lemma calls_none fn l : Forall (fun e => e <> Called fn) l -> calls fn l = 0.
Proof.
  unfold calls. induction 1 as [|e l He _ IH]; simpl; [reflexivity|].
  destruct e as [g| | | | |]; simpl; try exact IH.
  destruct (String.eqb_spec g fn) as [->|_]; [contradiction | exact IH].
Qed.

Lemma loadPdfJs_respects_not_fallback browser :
  respects (fun _ => True) not_fallback (loadPdfJs browser).
Proof.
  intros w _. split; [exact I|]. unfold loadPdfJs, events.
  destruct (pdfjsLibPromise w); simpl; repeat constructor. discriminate.
Qed.

Lemma extractTextFromPDF_no_fallback browser buf w :
  calls "processScannedPDF" (events (extractTextFromPDF browser buf w)) = 0.
Proof.
  apply calls_none.
  apply (extractTextFromPDF_respects browser (fun _ => True) not_fallback);
    try (intros; discriminate); try exact I.
  apply loadPdfJs_respects_not_fallback.
Qed.

Lemma notify_no_fallback {A} (onProgress : Callback A) a w :
  calls "processScannedPDF" (events (notify onProgress a w)) = 0.
Proof.
  apply calls_none.
  apply (notify_respects (fun _ => True) not_fallback);
    [intros; discriminate | exact I].
Qed.

Lemma notify_run {A} (onProgress : Callback A) a w :
  notify onProgress a w = (Returned tt, w, events (notify onProgress a w)).
Proof. destruct onProgress; reflexivity. Qed.

(** [processScannedPDF] records its own entry and no other. *)
Lemma processScannedPDF_one_call browser buf label onProgress w :
  calls "processScannedPDF"
    (events (processScannedPDF browser buf label onProgress w)) = 1.
Proof.
  unfold processScannedPDF. rewrite bind_emit. unfold events at 1. cbn [snd].
  change (Called "processScannedPDF" :: ?l)
    with ([Called "processScannedPDF"] ++ l)%list.
  rewrite calls_app. cbn [calls filter is_call String.eqb Ascii.eqb Bool.eqb
                           List.length].
  match goal with
  | |- context [events (?body w)] =>
      assert (Hbody : respects (fun _ => True) not_fallback body)
  end.
  { pose proof (loadPdfJs_respects_not_fallback browser) as Hload.
    repeat first [ exact Hload
                 | apply getPage_respects
                 | apply notify_respects
                 | apply lib_getDocument_respects
                 | apply extractTextFromImage_respects
                 | respects_step ];
      try (intros; discriminate); try exact Hload. }
  rewrite calls_none; [reflexivity | now apply Hbody].
Qed.

Lemma loadPdfJs_run browser w :
  result (loadPdfJs browser w) = Returned (pdfjs_promise browser w).
Proof. unfold loadPdfJs, pdfjs_promise, result. now destruct (pdfjsLibPromise w). Qed.

(** How awaiting [loadPdfJs()] settles does not change once it was
    called, nor by anything else the module does. *)
Lemma loadPdfJs_settles_once browser promise :
  respects (fun w => pdfjs_promise browser w = promise) (fun _ => True)
    (loadPdfJs browser).
Proof.
  intros w Hw. split; [|apply Forall_forall; now intros].
  unfold loadPdfJs, store, pdfjs_promise in *.
  destruct (pdfjsLibPromise w) as [cached|] eqn:Hc; cbn [fst snd pdfjsLibPromise].
  - now rewrite Hc.
  - exact Hw.
Qed.

Lemma extractTextFromPDF_settled browser data w :
  pdfjs_promise browser (store (extractTextFromPDF browser data w))
  = pdfjs_promise browser w.
Proof.
  apply (extractTextFromPDF_respects browser
           (fun w' => pdfjs_promise browser w' = pdfjs_promise browser w)
           (fun _ => True));
    auto using loadPdfJs_settles_once.
Qed.

(** [extractTextFromPDF] only returns when pdf.js was loaded. *)
Lemma extractTextFromPDF_returned_loaded browser data w text :
  result (extractTextFromPDF browser data w) = Returned text ->
  pdfjs_promise browser w = Returned WindowPdfjsLib.
Proof.
  pose proof (loadPdfJs_run browser w) as Hload.
  unfold extractTextFromPDF, try_catch, bind, emit, await, throw, result in *.
  destruct (loadPdfJs browser w) as [[r w0] l0]. cbn [fst] in Hload.
  subst r. cbn.
  destruct (pdfjs_promise browser w) as [[]|e]; [reflexivity|].
  cbn. discriminate.
Qed.

(** On a detached buffer [processScannedPDF] gets as far as [getDocument],
    which throws. *)
Lemma processScannedPDF_detached browser label onProgress w :
  pdfjs_promise browser w = Returned WindowPdfjsLib ->
  result (processScannedPDF browser Detached label onProgress w)
  = Thrown ("Failed to process scanned PDF: " ++ detachedBufferError browser).
Proof.
  intros Hlib. pose proof (loadPdfJs_run browser w) as Hload.
  unfold processScannedPDF, try_catch, bind, emit, await, throw, result,
    lib_getDocument in *.
  destruct (loadPdfJs browser w) as [[r w0] l0]. cbn [fst] in Hload.
  subst r. rewrite Hlib. reflexivity.
Qed.

(** C4: for every PDF file, [processScannedPDF] is entered (once) if and
    only if the direct extraction returned a text of fewer than 50
    characters, and a direct text that is kept is returned with the method
    PDF text extraction.  But the fallback is handed the buffer that the
    direct extraction gave to pdf.js, which is detached by then: it always
    throws, the file is returned as a failure, and no result ever
    carries the method OCR (scanned PDF). *)
Theorem pdf_fallback_fails_on_detached_buffer
    (browser : Browser) (file : File) (onProgress : Callback N) (w : World) :
  type file = "application/pdf" ->
  let run := extractTextFromFile browser file onProgress w in
  let fallbacks := calls "processScannedPDF" (events run) in
  (forall text method n s ty,
     result run = Returned (Success text method n s ty) ->
     method = "PDF text extraction")
  /\ match direct_text browser file w with
     | Some text =>
         if (String.length text <? 50)%nat then
           fallbacks = 1
           /\ result run =
                Returned (Failure ("Failed to process scanned PDF: "
                                   ++ detachedBufferError browser)
                            (name file) (size file) (type file))
         else
           fallbacks = 0
           /\ result run =
                Returned (Success text "PDF text extraction"
                            (name file) (size file) (type file))
     | None => fallbacks = 0
     end.
Proof.
  intros Hty. cbv zeta. unfold direct_text.
  destruct (success (validateFile file)) eqn:Hvalid.
  2:{ rewrite extractTextFromFile_invalid by exact Hvalid.
      split; [discriminate | reflexivity]. }
  destruct (arrayBuffer file) as [buf|e] eqn:Hbuf.
  2:{ rewrite (extractTextFromFile_unreadable _ _ _ _ e) by assumption.
      split; [discriminate | reflexivity]. }
  pose proof (extractTextFromPDF_no_fallback browser buf w) as Hdirect.
  pose proof (extractTextFromPDF_trimmed browser buf w) as Htrim.
  pose proof (extractTextFromPDF_settled browser buf w) as Hsettled.
  pose proof (extractTextFromPDF_returned_loaded browser buf w) as Hloaded.
  assert (Hrun :
    exists r w' l,
      extractTextFromFile browser file onProgress w = (Returned r, w', l)
      /\ match result (extractTextFromPDF browser buf w) with
         | Returned text =>
             if (String.length text <? 50)%nat then
               calls "processScannedPDF" l = 1
               /\ r = Failure ("Failed to process scanned PDF: "
                               ++ detachedBufferError browser)
                        (name file) (size file) (type file)
             else
               calls "processScannedPDF" l = 0
               /\ r = Success text "PDF text extraction"
                        (name file) (size file) (type file)
         | Thrown e =>
             calls "processScannedPDF" l = 0
             /\ r = Failure e (name file) (size file) (type file)
         end).
  { unfold extractTextFromFile, try_catch, bind, emit, await.
    cbv zeta. rewrite Hvalid, Hbuf, Hty. cbn [negb].
    change (String.eqb "application/pdf" "text/plain") with false.
    change (String.eqb "application/pdf" "application/pdf") with true.
    cbn iota. unfold transferred.
    destruct (extractTextFromPDF browser buf w) as [[[text|e] w1] l1] eqn:Hd;
      unfold result, events, store in *; cbn [fst snd] in *; rewrite ?Hd.
    - specialize (Htrim text eq_refl).
      destruct (String.length text <? 50)%nat eqn:Hshort.
      + pose proof (notify_no_fallback onProgress 0%N w1) as Hn.
        pose proof (processScannedPDF_one_call browser Detached (name file)
                      onProgress w1) as Hp.
        pose proof (processScannedPDF_detached browser (name file) onProgress
                      w1) as Hthrow.
        rewrite Hsettled in Hthrow. specialize (Hthrow (Hloaded text eq_refl)).
        rewrite ?Hshort, (notify_run onProgress 0%N w1).
        destruct (processScannedPDF browser Detached (name file) onProgress w1)
          as [[scanned w2] l2] eqn:Hscan;
          unfold events, result in *; cbn [fst snd] in *; rewrite ?Hscan.
        subst scanned. unfold ret. do 3 eexists. split; [reflexivity|].
        split; [|reflexivity].
        change (Called "extractTextFromFile" :: ?l)
          with ([Called "extractTextFromFile"] ++ l)%list.
        rewrite !calls_app, Hdirect, Hn, Hp. reflexivity.
      + rewrite ?Hshort. unfold ret at 1.
        assert (Hblank :
                  falsy text || Nat.eqb (String.length (trim text)) 0 = false).
        { apply Nat.ltb_ge in Hshort. unfold trimmed in Htrim.
          rewrite Htrim. unfold falsy.
          destruct (Nat.eqb_spec (String.length text) 0); [lia | reflexivity]. }
        rewrite Hblank. unfold ret. do 3 eexists. split; [reflexivity|].
        split; [|reflexivity].
        change (Called "extractTextFromFile" :: ?l)
          with ([Called "extractTextFromFile"] ++ l)%list.
        rewrite !calls_app, Hdirect. reflexivity.
    - unfold ret. do 3 eexists. split; [reflexivity|]. split; [|reflexivity].
      change (Called "extractTextFromFile" :: ?l)
        with ([Called "extractTextFromFile"] ++ l)%list.
      rewrite !calls_app, Hdirect. reflexivity. }
  destruct Hrun as [r [w' [l [-> Hcases]]]].
  unfold events, result. cbn [fst snd].
  unfold result in Hcases.
  destruct (fst (fst (extractTextFromPDF browser buf w))) as [text|e].
  - destruct (String.length text <? 50)%nat;
      destruct Hcases as [Hcalls ->]; (split; [|now split]);
      intros text' method n s ty Hr; inversion Hr; reflexivity.
  - destruct Hcases as [Hcalls ->]. split; [|exact Hcalls].
    intros text' method n s ty Hr. inversion Hr.
Qed.

Lemma pdf_fallback_fails_on_detached_buffer_witness :
  let run := extractTextFromFile sample_browser pdf_file None fresh in
  calls "processScannedPDF" (events run) = 1
  /\ result run
     = Returned (Failure "Failed to process scanned PDF: Cannot perform Construct on a detached ArrayBuffer"
                   "resume.pdf" 4096 "application/pdf").
Proof.
  pose proof (pdf_fallback_fails_on_detached_buffer sample_browser pdf_file
                None fresh eq_refl) as H.
  cbv zeta in *. destruct H as [_ H].
  change (direct_text sample_browser pdf_file fresh) with (Some "") in H.
  cbn iota in H. change (String.length "" <? 50)%nat with true in H.
  cbn iota in H. exact H.
Defined.

(** *** C9: [isScannedPDF] *)

Lemma scan_loop (pdf : PdfDocument) : forall n start acc w,
  start + n <= List.length pdf ->
  match sum_text_lengths (firstn n (skipn start pdf)) with
  | Some total =>
      result (for_loop n (S start) (scan_body pdf) acc w) = Returned (acc + total)
  | None =>
      exists e, result (for_loop n (S start) (scan_body pdf) acc w) = Thrown e
  end.
Proof.
  induction n as [|n IH]; intros start acc w Hlen.
  - simpl. unfold ret, result. simpl. now rewrite Nat.add_0_r.
  - destruct (nth_error pdf start) as [p|] eqn:Hp.
    2:{ apply nth_error_None in Hp. lia. }
    rewrite (skipn_nth_error _ _ _ Hp).
    cbn [firstn sum_text_lengths for_loop].
    assert (Hnth : nth start pdf (Thrown "Invalid page request") = p)
      by now apply nth_error_nth.
    set (tail := for_loop n (S (S start)) (scan_body pdf)).
    unfold scan_body, getPage, page_text_length, result.
    unfold bind, emit, await, ret.
    replace (S start - 1) with start by lia. rewrite Hnth.
    destruct p as [page|e]; [| exists e; reflexivity].
    destruct (getTextContent page) as [items|e]; [| exists e; reflexivity].
    specialize (IH (S start) (acc + String.length (join " " items)) w).
    fold tail in IH. unfold result in IH.
    destruct (tail (acc + String.length (join " " items)) w) as [[r w2] l2].
    cbv beta iota delta [fst snd] in *.
    destruct (sum_text_lengths (firstn n (skipn (S start) pdf))) as [m|].
    + rewrite IH by lia. f_equal. lia.
    + destruct IH as [e He]; [lia|]. exists e. now rewrite He.
Qed.

Lemma firstn_min_length {A} (l : list A) n :
  firstn (Nat.min (List.length l) n) l = firstn n l.
Proof.
  destruct (le_lt_dec (List.length l) n) as [Hle|Hlt].
  - rewrite Nat.min_l by exact Hle. now rewrite !firstn_all2 by lia.
  - now rewrite Nat.min_r by lia.
Qed.

Lemma scan_pages (pdf : PdfDocument) w :
  match sum_text_lengths (firstn 3 pdf) with
  | Some total =>
      result (for_loop (Nat.min (numPages pdf) 3) 1 (scan_body pdf) 0 w)
      = Returned total
  | None =>
      exists e,
        result (for_loop (Nat.min (numPages pdf) 3) 1 (scan_body pdf) 0 w)
        = Thrown e
  end.
Proof.
  pose proof (scan_loop pdf (Nat.min (numPages pdf) 3) 0 0 w) as H.
  unfold numPages in *. cbn [skipn] in H.
  rewrite firstn_min_length in H. cbn [Nat.add] in H.
  apply H. apply Nat.le_min_l.
Qed.

(** C9: [isScannedPDF] never throws; it answers whether the character
    counts of the text layers of the first three pages (fewer for a
    shorter document) sum to less than 50, and false when loading
    pdf.js, parsing the document or reading one of these pages fails;
    it requests no page beyond the third. *)
Theorem isScannedPDF_samples_first_three_pages
    (browser : Browser) (pdfBuffer : ArrayBuffer) (w : World) :
  result (isScannedPDF browser pdfBuffer w)
  = Returned (looksScanned browser pdfBuffer w)
  /\ Forall within_first_three (events (isScannedPDF browser pdfBuffer w)).
Proof.
  split.
  - unfold isScannedPDF, looksScanned. rewrite bind_emit.
    unfold result at 1. cbv beta iota delta [fst].
    pose proof (loadPdfJs_run browser w) as Hload.
    unfold lib_getDocument, try_catch, bind, await, result in *.
    destruct (loadPdfJs browser w) as [[r w1] l1].
    cbv beta iota delta [fst] in Hload. subst r.
    destruct (pdfjs_promise browser w) as [lib|e]; [|reflexivity].
    destruct (getDocument browser pdfBuffer) as [pdf|e]; [|reflexivity].
    pose proof (scan_pages pdf w1) as Hscan. unfold result in Hscan.
    match goal with
    | |- context [for_loop _ 1 ?body 0 w1] =>
        change body with (scan_body pdf)
    end.
    destruct (for_loop (Nat.min (numPages pdf) 3) 1 (scan_body pdf) 0 w1)
      as [[r w2] l2].
    cbv beta iota delta [fst] in Hscan.
    destruct (sum_text_lengths (firstn 3 pdf)) as [total|].
    + subst r. reflexivity.
    + destruct Hscan as [e ->]. reflexivity.
  - assert (H : respects (fun _ : World => True) within_first_three
                  (isScannedPDF browser pdfBuffer));
      [| exact (proj2 (H w I))].
    unfold isScannedPDF, lib_getDocument.
    apply respects_bind;
      [apply respects_emit; intros i Hi; discriminate Hi | intros _].
    apply respects_try_catch.
    + apply respects_bind; [| intros promise].
      { intros w' _. split; [exact I|]. unfold loadPdfJs, events.
        destruct (pdfjsLibPromise w'); simpl;
          [constructor | constructor; [intros i Hi; discriminate Hi | constructor]]. }
      apply respects_bind; [apply respects_await | intros lib].
      apply respects_bind; [apply respects_await | intros pdf].
      apply respects_bind; [| intros total; apply respects_ret].
      apply respects_for_loop. intros i acc Hi.
      unfold getPage.
      apply respects_bind; [| intros page].
      * apply respects_bind; [| intros _; apply respects_await].
        apply respects_emit. intros j Hj. inversion Hj; subst j.
        pose proof (Nat.le_min_r (numPages pdf) 3). lia.
      * apply respects_bind; [apply respects_await | intros items].
        apply respects_ret.
    + intros e.
      apply respects_bind;
        [apply respects_emit; intros i Hi; discriminate Hi | intros _].
      apply respects_ret.
Qed.

(** *** C10: the memoised pdf.js promise *)

Section RespectsFiles.
Variable browser : Browser.
Variable I : World -> Prop.
Variable P : Event -> Prop.
Hypothesis load_respects : respects I P (loadPdfJs browser).
Hypothesis P_Called : forall fn, P (Called fn).
Hypothesis P_GetPage : forall i, P (GetPage i).
Hypothesis P_Recognize : forall label, P (Recognize label).
Hypothesis P_Warn : forall text, P (Warn text).
Hypothesis P_Notified : forall n, P (Notified n).



End RespectsFiles.







End FileHandlerFacts.

(* ================================================================== *)
(** ** Facts about [callGeminiAPI] *)

Module AppFacts.
Import JsString App AppSpec.
Local Open Scope js_scope.

Section WithEnvironment.
Variable Json : Type.
Variable JSON_parse : string -> Outcome Json.
Variable network : nat -> Outcome Response.
Variable Payload : Type.
Variable key : string.
Variable payload : Payload.

Local Abbreviation apiUrl := (AppSpec.apiUrl key).
Local Abbreviation attempt_outcome :=
  (AppSpec.attempt_outcome Json JSON_parse network Payload key payload).
Local Abbreviation call :=
  (AppSpec.call Json JSON_parse network Payload key payload).

Lemma request_run k :
  request Json JSON_parse network Payload apiUrl payload k
  = (attempt_outcome k, S k, [Fetch apiUrl]).
Proof.
  unfold AppSpec.attempt_outcome, request, fetch, bind, await, throw, result.
  destruct (network k) as [response|e]; [|reflexivity].
  destruct (ok response); [|reflexivity]. simpl.
  destruct (json response) as [[text|]|e]; try reflexivity.
  destruct (falsy text); [reflexivity|].
  destruct (JSON_parse text); reflexivity.
Qed.

Lemma lacks_text_outcome k :
  lacks_text (network k) -> attempt_outcome k = Thrown structural_error.
Proof.
  intros [response [Hnet [Hok Hjson]]].
  unfold AppSpec.attempt_outcome, request, fetch, bind, await, throw, result.
  rewrite Hnet, Hok. simpl.
  destruct Hjson as [-> | ->]; reflexivity.
Qed.

(** One iteration of the loop. *)
Lemma retry_loop_step fuel maxRetries attempt delay k :
  attempt < maxRetries ->
  retry_loop Json JSON_parse network Payload (S fuel) apiUrl payload
    maxRetries attempt delay k
  = match attempt_outcome k with
    | Returned parsed => (Returned (Some parsed), S k, [Fetch apiUrl])
    | Thrown err =>
        if (maxRetries <=? S attempt)%nat then
          (Thrown err, S k, [Fetch apiUrl])
        else
          let next :=
            retry_loop Json JSON_parse network Payload fuel apiUrl payload
              maxRetries (S attempt) (delay * 2)%N (S k) in
          (result next, store next,
           Fetch apiUrl :: warning delay (S attempt) :: Timeout delay
             :: events next)
    end.
Proof.
  intros Hlt. cbn [retry_loop].
  destruct (Nat.ltb_spec attempt maxRetries) as [_|Hge]; [|lia].
  unfold try_catch, bind at 1. rewrite request_run.
  destruct (attempt_outcome k) as [parsed|err]; [reflexivity|].
  destruct (maxRetries <=? S attempt)%nat; [reflexivity|].
  unfold setTimeout, warning, result, store, events.
  unfold bind, emit.
  destruct (retry_loop Json JSON_parse network Payload fuel apiUrl payload
              maxRetries (S attempt) (delay * 2)%N (S k)) as [[r k'] l].
  reflexivity.
Qed.

Lemma attempt_run k :
  bind (request Json JSON_parse network Payload apiUrl payload)
    (fun parsed => ret (Some parsed)) k
  = (match attempt_outcome k with
     | Returned parsed => Returned (Some parsed)
     | Thrown err => Thrown err
     end, S k, [Fetch apiUrl]).
Proof.
  unfold bind. rewrite request_run.
  destruct (attempt_outcome k); reflexivity.
Qed.

(** The fuel given by [callGeminiAPI] is enough: any amount that covers the
    attempts still allowed yields the same run, so the loop never stops for
    lack of fuel. *)
Lemma retry_loop_fuel maxRetries : forall fuel1 fuel2 attempt delay k,
  maxRetries <= attempt + fuel1 ->
  maxRetries <= attempt + fuel2 ->
  retry_loop Json JSON_parse network Payload fuel1 apiUrl payload
    maxRetries attempt delay k
  = retry_loop Json JSON_parse network Payload fuel2 apiUrl payload
      maxRetries attempt delay k.
Proof.
  induction fuel1 as [|fuel1 IH]; intros [|fuel2] attempt delay k H1 H2;
    cbn [retry_loop]; try reflexivity.
  - destruct (Nat.ltb_spec attempt maxRetries); [lia | reflexivity].
  - destruct (Nat.ltb_spec attempt maxRetries); [lia | reflexivity].
  - destruct (Nat.ltb_spec attempt maxRetries) as [Hlt|_]; [|reflexivity].
    unfold try_catch. rewrite !attempt_run.
    destruct (attempt_outcome k) as [parsed|err]; [reflexivity|].
    destruct (Nat.leb_spec maxRetries (S attempt)) as [_|Hgt]; [reflexivity|].
    unfold setTimeout. unfold bind, emit.
    now rewrite (IH fuel2 (S attempt) (delay * 2)%N (S k)) by lia.
Qed.

(** The run of a call with the default [maxRetries], case by case. *)
Lemma call_default_run k :
  falsy key = false ->
  call None k
  = match attempt_outcome k with
    | Returned parsed => (Returned (Some parsed), S k, [Fetch apiUrl])
    | Thrown _ =>
        match attempt_outcome (S k) with
        | Returned parsed =>
            (Returned (Some parsed), S (S k),
             [Fetch apiUrl; warning 1000 1; Timeout 1000; Fetch apiUrl])
        | Thrown _ =>
            (match attempt_outcome (S (S k)) with
             | Returned parsed => Returned (Some parsed)
             | Thrown err => Thrown err
             end,
             S (S (S k)),
             [Fetch apiUrl; warning 1000 1; Timeout 1000;
              Fetch apiUrl; warning 2000 2; Timeout 2000;
              Fetch apiUrl])
        end
    end.
Proof.
  intros Hkey. unfold AppSpec.call, callGeminiAPI. rewrite Hkey. fold (AppSpec.apiUrl key).
  rewrite retry_loop_step by lia.
  destruct (attempt_outcome k) as [j0|e0]; [reflexivity|].
  change (3 <=? 1)%nat with false. cbv iota zeta.
  rewrite retry_loop_step by lia.
  destruct (attempt_outcome (S k)) as [j1|e1]; [reflexivity|].
  change (3 <=? 2)%nat with false. cbv iota zeta.
  rewrite retry_loop_step by lia.
  destruct (attempt_outcome (S (S k))) as [j2|e2]; reflexivity.
Qed.


(** C5, amended: a response that lacks the nested text field makes its
    attempt fail with the structural-response error, and this failure
    is retried like any other: after a first such response the client
    waits 1000 ms and fetches again, and the structural error is thrown
    only when the third attempt fails in this way too. *)
Theorem structural_error_is_retried (k : nat) :
  falsy key = false ->
  lacks_text (network k) ->
  attempt_outcome k = Thrown structural_error
  /\ (exists l,
        events (call None k)
        = Fetch apiUrl :: warning 1000 1 :: Timeout 1000 :: Fetch apiUrl :: l)
  /\ (lacks_text (network (S k)) -> lacks_text (network (S (S k))) ->
      call None k
      = (Thrown structural_error, S (S (S k)),
         [Fetch apiUrl; warning 1000 1; Timeout 1000;
          Fetch apiUrl; warning 2000 2; Timeout 2000;
          Fetch apiUrl])).
Proof.
  intros Hkey H0. pose proof (lacks_text_outcome k H0) as E0.
  split; [exact E0|]. rewrite (call_default_run k Hkey), E0. split.
  - destruct (attempt_outcome (S k)); eexists; reflexivity.
  - intros H1 H2.
    now rewrite (lacks_text_outcome _ H1), (lacks_text_outcome _ H2).
Qed.

End WithEnvironment.

(** *** Sample environments *)


(** C5, counterexample: when every response lacks the text field, the
    client does not fail at once: it makes three attempts and waits 1000
    ms and 2000 ms between them before throwing the structural error. *)
Lemma callGeminiAPI_retries_structural_error :
  lacks_text (malformed_network 0)
  /\ call nat sample_parse malformed_network unit "secret" tt None 0
     = (Thrown structural_error, 3,
        [Fetch sample_url; warning 1000 1; Timeout 1000;
         Fetch sample_url; warning 2000 2; Timeout 2000;
         Fetch sample_url]).
Proof.
  split; [| vm_compute; reflexivity].
  exists empty_response. repeat split. now left.
Qed.

Lemma malformed_lacks_text k : lacks_text (malformed_network k).
Proof. exists empty_response. repeat split. now left. Qed.

Lemma structural_error_is_retried_witness :
  attempt_outcome nat sample_parse malformed_network unit "secret" tt 0
  = Thrown structural_error
  /\ call nat sample_parse malformed_network unit "secret" tt None 0
     = (Thrown structural_error, 3,
        [Fetch sample_url; warning 1000 1; Timeout 1000;
         Fetch sample_url; warning 2000 2; Timeout 2000;
         Fetch sample_url]).
Proof.
  destruct (structural_error_is_retried
              nat sample_parse malformed_network unit "secret" tt 0
              eq_refl (malformed_lacks_text 0)) as [H0 [_ H]].
  split; [exact H0|].
  exact (H (malformed_lacks_text 1) (malformed_lacks_text 2)).
Defined.

End AppFacts.

(* ================================================================== *)
(** ** Further facts about src/utils/fileHandler.js *)

Module FileHandlerMore.
Import JsString JsStringFacts FileHandler FileHandlerSpec FileHandlerFacts.
Import FileHandlerNotions.
Local Open Scope js_scope.

(** *** Validation of a batch *)

Lemma filter_split_length {A} (p : A -> bool) (l : list A) :
  List.length (filter p l) + List.length (filter (fun x => negb (p x)) l)
  = List.length l.
Proof.
  induction l as [|x l IH]; simpl; [reflexivity|].
  destruct (p x); simpl; lia.
Qed.

(** X1: for a batch within the maximum count, [validateMultipleFiles] keeps
    the valid files in selection order, reports one rejection per invalid
    file, in order and prefixed by the file's name, and accepts the batch
    exactly when there is no rejection; no file is lost. *)
Theorem validateMultipleFiles_partitions (files : list File) :
  List.length files <= MAX_FILES ->
  let validation := validateMultipleFiles files in
  validFiles validation = filter (fun f => success (validateFile f)) files
  /\ errors validation
     = map (fun f => name f ++ ": " ++ message (validateFile f))
         (filter (fun f => negb (success (validateFile f))) files)
  /\ List.length (validFiles validation) + List.length (errors validation)
     = List.length files
  /\ (batch_success validation = true <-> errors validation = []).
Proof.
  intros Hlen. cbv zeta.
  rewrite (validateMultipleFiles_within_limit files Hlen). cbn [validFiles errors batch_success].
  split; [reflexivity|]. split; [reflexivity|]. split.
  - rewrite length_map. apply filter_split_length.
  - rewrite Nat.eqb_eq. apply length_zero_iff_nil.
Qed.

Lemma validateMultipleFiles_partitions_witness :
  let files := [text_file "Hello World"; gif_file; pdf_file] in
  let validation := validateMultipleFiles files in
  validFiles validation = [text_file "Hello World"; pdf_file]
  /\ errors validation
     = ["anim.gif: Unsupported file type: image/gif. Supported types: PDF, TXT, DOCX, DOC, PNG, JPG"].
Proof.
  cbv zeta.
  destruct (validateMultipleFiles_partitions
              [text_file "Hello World"; gif_file; pdf_file])
    as [Hv [He _]]; [vm_compute; lia|].
  split; [rewrite Hv | rewrite He]; reflexivity.
Defined.

(** X2: a batch of more than five files is rejected before any file is
    looked at: [validateMultipleFiles] keeps no file and reports the count
    alone, even when every file is valid, and [processMultipleFiles] throws
    that message without extracting anything. *)
Theorem too_many_files_rejected_outright
    (browser : Browser) (files : list File)
    (onProgress : Callback BatchProgress) (w : World) :
  MAX_FILES < List.length files ->
  validateMultipleFiles files
  = {| batch_success := false;
       validFiles := [];
       errors := [ "Maximum 5 files allowed. You selected "
                   ++ of_nat (List.length files) ++ " files." ] |}
  /\ processMultipleFiles browser files onProgress w
     = (Thrown ("File validation failed: Maximum 5 files allowed. You selected "
                ++ of_nat (List.length files) ++ " files."),
        w, [Called "processMultipleFiles"]).
Proof.
  intros Hlen.
  assert (Hv : validateMultipleFiles files
               = {| batch_success := false;
                    validFiles := [];
                    errors := [ "Maximum 5 files allowed. You selected "
                                ++ of_nat (List.length files) ++ " files." ] |}).
  { unfold validateMultipleFiles.
    destruct (Nat.ltb_spec MAX_FILES (List.length files)) as [_|Hle]; [|lia].
    reflexivity. }
  split; [exact Hv|].
  rewrite processMultipleFiles_rejected by now rewrite Hv.
  rewrite Hv. reflexivity.
Qed.

Lemma too_many_files_rejected_outright_witness :
  let files := repeat (text_file "Hello World") 6 in
  processMultipleFiles sample_browser files None fresh
  = (Thrown "File validation failed: Maximum 5 files allowed. You selected 6 files.",
     fresh, [Called "processMultipleFiles"]).
Proof.
  cbv zeta.
  apply (too_many_files_rejected_outright sample_browser
           (repeat (text_file "Hello World") 6) None fresh).
  vm_compute. lia.
Defined.

(** *** The paths of [extractTextFromFile] *)

Lemma trim_empty : trim "" = "".
Proof. reflexivity. Qed.

Lemma falsy_blank s : falsy s || blank s = blank s.
Proof.
  unfold falsy, blank. destruct s as [|c s]; [reflexivity|]. reflexivity.
Qed.

Lemma blank_trim s : blank (trim s) = blank s.
Proof. unfold blank. now rewrite trim_idempotent. Qed.

Lemma not_In_eqb_false (s : string) (l : list string) :
  ~ In s l -> forall k, In k l -> String.eqb s k = false.
Proof.
  intros Hn k Hk. apply String.eqb_neq. intros ->. contradiction.
Qed.

Lemma one_of_false s cases : ~ In s cases -> one_of s cases = false.
Proof.
  intros H. apply not_true_iff_false. now rewrite one_of_In.
Qed.

(** X3: a valid plain-text file is read with the FileReader alone: a
    reader error gives the failure 'Failed to read text file', a content
    that is empty or only white space gives the failure 'No text content
    found in the file', and any other content is returned verbatim as a
    success with the method 'Direct text reading'; the store is untouched
    and no observer is told anything. *)
Theorem extractTextFromFile_plain_text
    (browser : Browser) (file : File) (onProgress : Callback N) (w : World)
    (buf : ArrayBuffer) :
  type file = "text/plain" ->
  (size file <= MAX_FILE_SIZE)%N ->
  arrayBuffer file = Returned buf ->
  extractTextFromFile browser file onProgress w
  = (Returned
       match readAsText file with
       | None => Failure "Failed to read text file" (name file) (size file) "text/plain"
       | Some content =>
           if blank content
           then Failure no_text_found (name file) (size file) "text/plain"
           else Success content "Direct text reading"
                  (name file) (size file) "text/plain"
       end,
     w, [Called "extractTextFromFile"]).
Proof.
  intros Hty Hsize Hbuf.
  assert (Hvalid : success (validateFile file) = true).
  { rewrite validateFile_within_limit by exact Hsize. now rewrite Hty. }
  unfold extractTextFromFile. rewrite bind_emit.
  cbv zeta. rewrite Hvalid, Hbuf, Hty. cbn [negb].
  rewrite bind_await_returned.
  change (String.eqb "text/plain" "text/plain") with true. cbv iota.
  unfold try_catch, bind, await, ret, throw, result, store, events.
  destruct (readAsText file) as [content|]; [|reflexivity].
  fold (blank content). rewrite falsy_blank.
  destruct (blank content); reflexivity.
Qed.

Lemma extractTextFromFile_plain_text_witness :
  extractTextFromFile sample_browser (text_file "   ") None fresh
  = (Returned (Failure no_text_found "resume.txt" 3 "text/plain"),
     fresh, [Called "extractTextFromFile"]).
Proof.
  apply (extractTextFromFile_plain_text sample_browser (text_file "   ")
           None fresh "   " eq_refl); [vm_compute; discriminate | reflexivity].
Defined.

(** X4: a valid Word file (either Word MIME type) goes through mammoth
    alone: a converter error is returned as the failure 'Failed to extract
    text from Word document: ' followed by the converter's message, a blank
    conversion as the failure 'No text content found in the file', and any
    other conversion as a success whose text is the trimmed conversion,
    with the method 'Word document extraction'. *)
Theorem extractTextFromFile_word
    (browser : Browser) (file : File) (onProgress : Callback N) (w : World)
    (buf : ArrayBuffer) :
  In (type file) docx_types ->
  (size file <= MAX_FILE_SIZE)%N ->
  arrayBuffer file = Returned buf ->
  extractTextFromFile browser file onProgress w
  = (Returned
       match extractRawText browser buf with
       | Thrown e =>
           Failure ("Failed to extract text from Word document: " ++ e)
             (name file) (size file) (type file)
       | Returned value =>
           if blank value
           then Failure no_text_found (name file) (size file) (type file)
           else Success (trim value) "Word document extraction"
                  (name file) (size file) (type file)
       end,
     w, [Called "extractTextFromFile"; Called "extractTextFromDocx"]).
Proof.
  intros Hty Hsize Hbuf.
  assert (Hvalid : success (validateFile file) = true).
  { rewrite validateFile_within_limit by exact Hsize.
    destruct Hty as [<-|[<-|[]]]; reflexivity. }
  assert (Hdoc : one_of (type file) docx_types = true) by now apply one_of_In.
  assert (Htxt : String.eqb (type file) "text/plain" = false).
  { destruct Hty as [<-|[<-|[]]]; reflexivity. }
  assert (Hpdf : String.eqb (type file) "application/pdf" = false).
  { destruct Hty as [<-|[<-|[]]]; reflexivity. }
  unfold extractTextFromFile. rewrite bind_emit.
  cbv zeta. rewrite Hvalid, Hbuf. cbn [negb].
  rewrite bind_await_returned, Htxt, Hpdf.
  unfold docx_types in Hdoc. rewrite Hdoc.
  unfold extractTextFromDocx.
  unfold try_catch, bind, await, emit, ret, throw, result, store, events.
  destruct (extractRawText browser buf) as [value|e]; [|reflexivity].
  fold (blank (trim value)). rewrite falsy_blank, blank_trim.
  destruct (blank value); reflexivity.
Qed.

Lemma extractTextFromFile_word_witness :
  extractTextFromFile two_page_browser docx_file None fresh
  = (Returned (Success "Dear Sir" "Word document extraction" "letter.docx" 2048
                 "application/vnd.openxmlformats-officedocument.wordprocessingml.document"),
     fresh, [Called "extractTextFromFile"; Called "extractTextFromDocx"]).
Proof.
  apply (extractTextFromFile_word two_page_browser docx_file None fresh "PK");
    [simpl; auto | vm_compute; discriminate | reflexivity].
Defined.

(** X5: a valid image file (png, jpeg or jpg) goes through OCR alone: the
    observer is first told 0, then what the logger reports while
    recognising text; an OCR error is returned as the failure 'Failed to
    extract text from image: ' followed by its message, a blank reading as
    the failure 'No text content found in the file', and any other reading
    as a success with the trimmed text and the method 'OCR (image)'. *)
Theorem extractTextFromFile_image
    (browser : Browser) (file : File) (onProgress : Callback N) (w : World)
    (buf : ArrayBuffer) :
  In (type file) image_types ->
  (size file <= MAX_FILE_SIZE)%N ->
  arrayBuffer file = Returned buf ->
  extractTextFromFile browser file onProgress w
  = (Returned
       match snd (recognize browser buf) with
       | Thrown e =>
           Failure ("Failed to extract text from image: " ++ e)
             (name file) (size file) (type file)
       | Returned text =>
           if blank text
           then Failure no_text_found (name file) (size file) (type file)
           else Success (trim text) "OCR (image)"
                  (name file) (size file) (type file)
       end,
     w,
     (Called "extractTextFromFile" :: notified onProgress 0%N
      ++ Called "extractTextFromImage" :: Recognize (name file)
      :: logger_events onProgress (fst (recognize browser buf)))%list).
Proof.
  intros Hty Hsize Hbuf.
  assert (Hvalid : success (validateFile file) = true).
  { rewrite validateFile_within_limit by exact Hsize.
    destruct Hty as [<-|[<-|[<-|[]]]]; reflexivity. }
  assert (Himg : one_of (type file) image_types = true) by now apply one_of_In.
  assert (Htxt : String.eqb (type file) "text/plain" = false).
  { destruct Hty as [<-|[<-|[<-|[]]]]; reflexivity. }
  assert (Hpdf : String.eqb (type file) "application/pdf" = false).
  { destruct Hty as [<-|[<-|[<-|[]]]]; reflexivity. }
  assert (Hdoc : one_of (type file) docx_types = false).
  { destruct Hty as [<-|[<-|[<-|[]]]]; reflexivity. }
  unfold extractTextFromFile. rewrite bind_emit.
  cbv zeta. rewrite Hvalid, Hbuf. cbn [negb].
  rewrite bind_await_returned, Htxt, Hpdf.
  unfold docx_types in Hdoc. rewrite Hdoc.
  unfold image_types in Himg. rewrite Himg.
  unfold extractTextFromImage, logger_events, notified, notify.
  unfold try_catch, bind, await, emit, emit_all, ret, throw, result, store, events.
  destruct (recognize browser buf) as [logged settled]. cbn [fst snd].
  destruct onProgress as [f|]; destruct settled as [text|e];
    try (fold (blank (trim text)); rewrite falsy_blank, blank_trim;
         destruct (blank text));
    cbn [fst snd app]; rewrite ?app_nil_r; reflexivity.
Qed.

Lemma extractTextFromFile_image_witness :
  extractTextFromFile sample_browser png_file (Some (fun p => [Percent p])) fresh
  = (Returned (Success "Jane Doe" "OCR (image)" "scan.png" 4096 "image/png"),
     fresh,
     [Called "extractTextFromFile"; Notified (Percent 0);
      Called "extractTextFromImage"; Recognize "scan.png";
      Notified (Percent 40)]).
Proof.
  apply (extractTextFromFile_image sample_browser png_file
           (Some (fun p => [Percent p])) fresh "PNG");
    [simpl; auto | vm_compute; discriminate | reflexivity].
Defined.

(** X6: passing [validateFile] does not mean that the type can be
    extracted: a valid, readable file whose declared type is none of the
    seven keys of SUPPORTED_FILE_TYPES (which [validateFile] accepts when
    the type names a property that the table inherits from Object.prototype,
    such as constructor) reaches the default case of the switch and is
    returned as the failure 'Unsupported file type: ' followed by the
    type. *)
Theorem extractTextFromFile_unsupported_type
    (browser : Browser) (file : File) (onProgress : Callback N) (w : World)
    (buf : ArrayBuffer) :
  success (validateFile file) = true ->
  ~ In (type file) supported_keys_list ->
  arrayBuffer file = Returned buf ->
  extractTextFromFile browser file onProgress w
  = (Returned (Failure ("Unsupported file type: " ++ type file)
                 (name file) (size file) (type file)),
     w, [Called "extractTextFromFile"]).
Proof.
  intros Hvalid Hty Hbuf.
  assert (Hk : forall k, In k supported_keys_list -> String.eqb (type file) k = false)
    by now apply not_In_eqb_false.
  unfold extractTextFromFile. rewrite bind_emit.
  cbv zeta. rewrite Hvalid, Hbuf. cbn [negb].
  rewrite bind_await_returned.
  rewrite (Hk "text/plain"), (Hk "application/pdf") by (simpl; tauto).
  rewrite !one_of_false; [reflexivity | |];
    intros Hin; apply Hty; simpl in *; tauto.
Qed.

Lemma extractTextFromFile_unsupported_type_witness :
  validateFile constructor_file = {| success := true; message := "File is valid" |}
  /\ extractTextFromFile sample_browser constructor_file None fresh
     = (Returned (Failure "Unsupported file type: constructor" "odd.bin" 16
                    "constructor"),
        fresh, [Called "extractTextFromFile"]).
Proof.
  split; [reflexivity|].
  apply (extractTextFromFile_unsupported_type sample_browser constructor_file
           None fresh "0123456789abcdef"); [reflexivity | | reflexivity].
  simpl. intros H. repeat destruct H as [H|H]; try discriminate H. exact H.
Defined.

(** *** Errors of the extractors *)

(** A [try] whose [catch] rethrows with a prefix throws only messages that
    start with the prefix. *)
Lemma try_catch_rethrow {W E A} (prefix : string) (m : Js W E A) (w : W) e :
  result (try_catch m (fun error => throw (prefix ++ error)) w) = Thrown e ->
  starts_with prefix e.
Proof.
  unfold try_catch, throw, result.
  destruct (m w) as [[[a|e'] w1] l1]; simpl; [discriminate|].
  intros H. inversion H. now exists e'.
Qed.

Lemma result_bind_emit {W E B} (ev : E) (k : unit -> Js W E B) (w : W) :
  result (bind (emit ev) k w) = result (k tt w).
Proof. rewrite bind_emit. reflexivity. Qed.

(** X7: whatever goes wrong inside an extractor (loading pdf.js, parsing,
    a page, rendering, OCR, the converter) is rethrown with the
    extractor's own prefix: every message thrown by [extractTextFromPDF],
    [extractTextFromDocx], [extractTextFromImage] and [processScannedPDF]
    starts with that prefix. *)
Theorem extractor_errors_are_prefixed
    (browser : Browser) (buf : ArrayBuffer) (label : string)
    (onProgress : Callback N) (w : World) (e : string) :
  (result (extractTextFromPDF browser buf w) = Thrown e ->
   starts_with "Failed to extract text from PDF: " e)
  /\ (result (extractTextFromDocx browser buf w) = Thrown e ->
      starts_with "Failed to extract text from Word document: " e)
  /\ (result (extractTextFromImage browser buf label onProgress w) = Thrown e ->
      starts_with "Failed to extract text from image: " e)
  /\ (result (processScannedPDF browser buf label onProgress w) = Thrown e ->
      starts_with "Failed to process scanned PDF: " e).
Proof.
  unfold extractTextFromPDF, extractTextFromDocx, extractTextFromImage,
    processScannedPDF.
  rewrite !result_bind_emit.
  repeat split; apply try_catch_rethrow.
Qed.

(** X8: the text of every success of [extractTextFromFile] is non-empty and
    is not blank, and on every path but the plain-text one it is trimmed. *)
Theorem extractTextFromFile_success_is_not_blank
    (browser : Browser) (file : File) (onProgress : Callback N) (w : World)
    (text method n : string) (s : N) (ty : string) :
  result (extractTextFromFile browser file onProgress w)
  = Returned (Success text method n s ty) ->
  text <> "" /\ blank text = false
  /\ (type file <> "text/plain" -> trim text = text).
Proof.
  intros H.
  destruct (extractTextFromFile_success_text browser file onProgress w _ H)
    as [H1 [H2 H3]].
  split; [exact H1|]. split; [|exact H3].
  unfold blank. apply Nat.eqb_neq. now rewrite length_zero_iff_empty.
Qed.

Lemma extractTextFromFile_success_is_not_blank_witness :
  "Jane Doe" <> "" /\ blank "Jane Doe" = false
  /\ (type png_file <> "text/plain" -> trim "Jane Doe" = "Jane Doe").
Proof.
  apply (extractTextFromFile_success_is_not_blank sample_browser png_file None
           fresh "Jane Doe" "OCR (image)" "scan.png" 4096 "image/png").
  vm_compute. reflexivity.
Defined.

(** *** What the PDF extractors return *)

Lemma append_assoc (a b c : string) : (a ++ b) ++ c = a ++ b ++ c.
Proof. induction a as [|x a IH]; simpl; [reflexivity | now rewrite IH]. Qed.

Lemma text_loop (pdf : PdfDocument) : forall n start acc w,
  start + n <= List.length pdf ->
  match all_defined (map page_text (firstn n (skipn start pdf))) with
  | Some texts =>
      result (for_loop n (S start) (text_body pdf) acc w)
      = Returned (acc ++ concat_with_suffix LF texts)
  | None =>
      exists e, result (for_loop n (S start) (text_body pdf) acc w) = Thrown e
  end.
Proof.
  induction n as [|n IH]; intros start acc w Hlen.
  - simpl. unfold ret, result. simpl. f_equal.
    induction acc as [|c acc IHacc]; simpl; [reflexivity | now rewrite <- IHacc].
  - destruct (nth_error pdf start) as [p|] eqn:Hp.
    2:{ apply nth_error_None in Hp. lia. }
    rewrite (skipn_nth_error _ _ _ Hp).
    cbn [firstn map all_defined for_loop].
    assert (Hnth : nth start pdf (Thrown "Invalid page request") = p)
      by now apply nth_error_nth.
    set (tail := for_loop n (S (S start)) (text_body pdf)).
    pose proof (fun acc' => IH (S start) acc' w ltac:(lia)) as IH'.
    fold tail in IH'. unfold result in IH'.
    destruct (all_defined (map page_text (firstn n (skipn (S start) pdf))))
      as [texts|].
    all: unfold text_body, getPage, page_text, result.
    all: unfold bind, emit, await, ret.
    all: replace (S start - 1) with start by lia; rewrite Hnth.
    all: destruct p as [page|e]; [| exists e; reflexivity].
    all: destruct (getTextContent page) as [items|e]; [| exists e; reflexivity].
    all: specialize (IH' (acc ++ join " " items ++ LF)).
    all: destruct (tail (acc ++ join " " items ++ LF) w) as [[r w2] l2].
    all: cbv beta iota delta [fst snd] in *.
    + rewrite IH'. f_equal. cbn [concat_with_suffix].
      now rewrite !append_assoc.
    + destruct IH' as [e He]. exists e. now rewrite He.
Qed.

(** X9: once pdf.js is loaded and the document parsed,
    [extractTextFromPDF] returns, trimmed, the texts of all the pages in
    page order, the items of a page joined by a space and every page
    followed by a line feed; if any page or its text content cannot be
    obtained it throws instead of returning a partial text. *)
Theorem extractTextFromPDF_all_pages_in_order
    (browser : Browser) (buf : ArrayBuffer) (w : World)
    (lib : PdfJsLib) (pdf : PdfDocument) :
  pdfjs_promise browser w = Returned lib ->
  getDocument browser buf = Returned pdf ->
  match all_defined (map page_text pdf) with
  | Some texts =>
      result (extractTextFromPDF browser buf w)
      = Returned (trim (concat_with_suffix LF texts))
  | None =>
      exists e,
        result (extractTextFromPDF browser buf w)
        = Thrown ("Failed to extract text from PDF: " ++ e)
  end.
Proof.
  intros Hlib Hdoc.
  unfold extractTextFromPDF. rewrite bind_emit.
  unfold result at 1 2. cbv beta iota delta [fst].
  pose proof (loadPdfJs_run browser w) as Hload. rewrite Hlib in Hload.
  unfold lib_getDocument, try_catch, bind, await, result in *.
  destruct (loadPdfJs browser w) as [[r w1] l1].
  cbv beta iota delta [fst] in Hload. subst r. rewrite Hdoc.
  pose proof (text_loop pdf (numPages pdf) 0 "" w1) as Hloop.
  unfold numPages in *. cbn [skipn] in Hloop. rewrite firstn_all in Hloop.
  specialize (Hloop (Nat.le_refl _)). unfold result in Hloop.
  match goal with
  | |- context [for_loop _ 1 ?body "" w1] => change body with (text_body pdf)
  end.
  destruct (for_loop (List.length pdf) 1 (text_body pdf) "" w1) as [[r w2] l2].
  cbv beta iota delta [fst] in Hloop.
  destruct (all_defined (map page_text pdf)) as [texts|].
  - subst r. reflexivity.
  - destruct Hloop as [e ->]. exists e. reflexivity.
Qed.

Lemma extractTextFromPDF_all_pages_in_order_witness :
  result (extractTextFromPDF two_page_browser (Attached "%PDF") fresh)
  = Returned ("Jane Doe" ++ LF ++ "Engineer").
Proof.
  exact (extractTextFromPDF_all_pages_in_order two_page_browser "%PDF" fresh
           WindowPdfjsLib _ eq_refl eq_refl).
Defined.

Lemma ocr_loop (browser : Browser) (pdf : PdfDocument) (fileName : string)
    (onProgress : Callback N) : forall n start acc w,
  start + n <= List.length pdf ->
  match all_defined (map (page_ocr browser) (firstn n (skipn start pdf))) with
  | Some texts =>
      result (for_loop n (S start) (ocr_body browser pdf fileName onProgress) acc w)
      = Returned (acc ++ concat_with_suffix (LF ++ LF) texts)
  | None =>
      exists e,
        result (for_loop n (S start) (ocr_body browser pdf fileName onProgress) acc w)
        = Thrown e
  end.
Proof.
  induction n as [|n IH]; intros start acc w Hlen.
  - simpl. unfold ret, result. simpl. f_equal.
    induction acc as [|c acc IHacc]; simpl; [reflexivity | now rewrite <- IHacc].
  - destruct (nth_error pdf start) as [p|] eqn:Hp.
    2:{ apply nth_error_None in Hp. lia. }
    rewrite (skipn_nth_error _ _ _ Hp).
    cbn [firstn map all_defined for_loop].
    assert (Hnth : nth start pdf (Thrown "Invalid page request") = p)
      by now apply nth_error_nth.
    set (tail := for_loop n (S (S start)) (ocr_body browser pdf fileName onProgress)).
    pose proof (fun acc' => IH (S start) acc' w ltac:(lia)) as IH'.
    fold tail in IH'. unfold result in IH'.
    destruct (all_defined (map (page_ocr browser) (firstn n (skipn (S start) pdf))))
      as [texts|].
    all: unfold ocr_body, getPage, extractTextFromImage, notify, page_ocr, result.
    all: unfold try_catch, bind, emit, emit_all, await, ret, throw.
    all: replace (S start - 1) with start by lia; rewrite Hnth.
    all: destruct onProgress as [f|].
    all: destruct p as [page|e]; [| exists e; reflexivity].
    all: destruct (render_png page) as [image|e]; [| exists e; reflexivity].
    all: destruct (recognize browser image) as [logged [text|e]];
      [| eexists; reflexivity].
    all: specialize (IH' (acc ++ trim text ++ LF ++ LF)).
    all: destruct (tail (acc ++ trim text ++ LF ++ LF) w) as [[r w2] l2].
    all: cbv beta iota delta [fst snd] in *.
    1,2: rewrite IH'; f_equal; cbn [concat_with_suffix]; now rewrite !append_assoc.
    all: destruct IH' as [e He]; exists e; now rewrite He.
Qed.

(** X10: once pdf.js is loaded and the document parsed,
    [processScannedPDF] returns, trimmed, what OCR read on every page, in
    page order, each page's trimmed reading followed by two line feeds; if
    any page cannot be obtained, rendered or recognised it throws instead of
    skipping the page. *)
Theorem processScannedPDF_all_pages_or_nothing
    (browser : Browser) (buf : ArrayBuffer) (fileName : string)
    (onProgress : Callback N) (w : World)
    (lib : PdfJsLib) (pdf : PdfDocument) :
  pdfjs_promise browser w = Returned lib ->
  getDocument browser buf = Returned pdf ->
  match all_defined (map (page_ocr browser) pdf) with
  | Some texts =>
      result (processScannedPDF browser buf fileName onProgress w)
      = Returned (trim (concat_with_suffix (LF ++ LF) texts))
  | None =>
      exists e,
        result (processScannedPDF browser buf fileName onProgress w)
        = Thrown ("Failed to process scanned PDF: " ++ e)
  end.
Proof.
  intros Hlib Hdoc.
  unfold processScannedPDF. rewrite bind_emit.
  unfold result at 1 2. cbv beta iota delta [fst].
  pose proof (loadPdfJs_run browser w) as Hload. rewrite Hlib in Hload.
  unfold lib_getDocument, try_catch, bind, await, result in *.
  destruct (loadPdfJs browser w) as [[r w1] l1].
  cbv beta iota delta [fst] in Hload. subst r. rewrite Hdoc. cbv zeta.
  pose proof (ocr_loop browser pdf fileName onProgress (numPages pdf) 0 "" w1)
    as Hloop.
  unfold numPages in Hloop at 1. cbn [skipn] in Hloop.
  rewrite firstn_all in Hloop.
  specialize (Hloop (Nat.le_refl _)). unfold result in Hloop.
  match goal with
  | |- context [for_loop _ 1 ?body "" w1] =>
      change body with (ocr_body browser pdf fileName onProgress)
  end.
  destruct (for_loop (numPages pdf) 1
              (ocr_body browser pdf fileName onProgress) "" w1) as [[r w2] l2].
  cbv beta iota delta [fst] in Hloop.
  destruct (all_defined (map (page_ocr browser) pdf)) as [texts|].
  - subst r. unfold bind, notify, ret, emit_all.
    destruct onProgress; reflexivity.
  - destruct Hloop as [e ->]. exists e. reflexivity.
Qed.

Lemma processScannedPDF_all_pages_or_nothing_witness :
  result (processScannedPDF two_page_browser (Attached "%PDF") "cv.pdf" None fresh)
  = Returned ("scanned png1" ++ LF ++ LF ++ "scanned png2").
Proof.
  exact (processScannedPDF_all_pages_or_nothing two_page_browser "%PDF" "cv.pdf"
           None fresh WindowPdfjsLib _ eq_refl eq_refl).
Defined.

(** *** Files that are not PDFs *)

Lemma respects_bind_await {W E A B} (I : W -> Prop) (P : E -> Prop)
    (o : Outcome A) (k : A -> Js W E B) :
  (forall a, o = Returned a -> respects I P (k a)) ->
  respects I P (bind (await o) k).
Proof.
  intros Hk w Hw. destruct o as [a|e].
  - rewrite bind_await_returned. now apply Hk.
  - split; [exact Hw | constructor].
Qed.

Lemma extractTextFromFile_no_pdfjs browser file onProgress w :
  type file <> application_pdf ->
  respects (unchanged w) no_script (extractTextFromFile browser file onProgress).
Proof.
  intros Hty. unfold extractTextFromFile.
  apply respects_bind; [apply respects_emit; discriminate | intros _].
  cbv zeta. destruct (negb (success (validateFile file)));
    [apply respects_throw|].
  apply respects_bind; [apply respects_await | intros buf].
  apply respects_try_catch; [| intros e; apply respects_ret].
  apply respects_bind.
  2:{ intros [text method].
      destruct (falsy text || Nat.eqb (String.length (trim text)) 0);
        [apply respects_throw | apply respects_ret]. }
  destruct (String.eqb (type file) "text/plain").
  { apply respects_bind; [apply respects_await | intros t; apply respects_ret]. }
  destruct (String.eqb_spec (type file) "application/pdf") as [Heq|_];
    [contradiction|].
  repeat first
    [ apply notify_respects
    | apply extractTextFromDocx_respects
    | apply extractTextFromImage_respects
    | respects_step ];
    intros; discriminate.
Qed.

(** X11: pdf.js is loaded only for PDFs: when no file of the batch
    declares the type application/pdf, [processMultipleFiles] (and so
    [extractTextFromFile] on each file) appends no script and leaves the
    cached promise as it was, whatever happens to the files. *)
Theorem non_pdf_batch_never_loads_pdfjs
    (browser : Browser) (files : list File)
    (onProgress : Callback BatchProgress) (w : World) :
  Forall (fun file => type file <> application_pdf) files ->
  store (processMultipleFiles browser files onProgress w) = w
  /\ ~ In ScriptAppended (events (processMultipleFiles browser files onProgress w)).
Proof.
  intros Hall.
  assert (H : respects (unchanged w) no_script
                (processMultipleFiles browser files onProgress)).
  { unfold processMultipleFiles.
    apply respects_bind; [apply respects_emit; discriminate | intros _].
    cbv zeta.
    destruct (batch_success (validateMultipleFiles files)) eqn:Hok;
      [| apply respects_throw].
    destruct (batch_success_validFiles files Hok) as [-> _]. cbn [negb].
    apply respects_for_loop. intros i acc _.
    apply respects_bind_await. intros file Hfile.
    assert (Hin : In file files).
    { destruct (nth_error files i) as [f|] eqn:Hi; [|discriminate].
      inversion Hfile; subst f. now apply nth_error_In in Hi. }
    rewrite Forall_forall in Hall.
    apply respects_bind;
      [apply notify_respects; intros; discriminate | intros _].
    apply respects_bind; [| intros r; apply respects_ret].
    apply extractTextFromFile_no_pdfjs. now apply Hall. }
  destruct (H w eq_refl) as [Hs He]. split; [exact Hs|].
  intros Hin. rewrite Forall_forall in He. now apply (He _ Hin).
Qed.

Lemma non_pdf_batch_never_loads_pdfjs_witness :
  let files := [text_file "Hello World"; png_file; docx_file] in
  store (processMultipleFiles sample_browser files None fresh) = fresh
  /\ ~ In ScriptAppended
         (events (processMultipleFiles sample_browser files None fresh)).
Proof.
  cbv zeta.
  apply (non_pdf_batch_never_loads_pdfjs sample_browser
           [text_file "Hello World"; png_file; docx_file] None fresh).
  repeat constructor; discriminate.
Defined.

(** *** Progress reports *)

Section RespectsObservers.
Variable browser : Browser.
Variable I : World -> Prop.
Variable P : Event -> Prop.
Variable ok : Notification -> Prop.
Hypothesis load_respects : respects I P (loadPdfJs browser).
Hypothesis P_Called : forall fn, P (Called fn).
Hypothesis P_GetPage : forall i, P (GetPage i).
Hypothesis P_Recognize : forall label, P (Recognize label).
Hypothesis P_ok : forall n, ok n -> P (Notified n).

Lemma notify_observed {A} (onProgress : Callback A) a :
  callback_ok ok onProgress -> respects I P (notify onProgress a).
Proof.
  destruct onProgress as [f|]; simpl; intros Hf.
  - apply respects_emit_all. apply Forall_forall. intros e He.
    apply in_map_iff in He as [n [<- Hn]]. apply P_ok.
    specialize (Hf a). rewrite Forall_forall in Hf. now apply Hf.
  - apply respects_ret.
Qed.

Lemma extractTextFromImage_observed buf label onProgress :
  callback_ok ok onProgress ->
  respects I P (extractTextFromImage browser buf label onProgress).
Proof.
  intros Hf. unfold extractTextFromImage.
  apply respects_bind; [apply respects_emit, P_Called | intros _].
  apply respects_try_catch; [| intros e; apply respects_throw].
  apply respects_bind; [apply respects_emit, P_Recognize | intros _].
  destruct (recognize browser buf) as [logged settled].
  apply respects_bind.
  - apply respects_emit_all. apply Forall_forall. intros e He.
    apply in_flat_map in He as [m [_ He]].
    destruct onProgress as [f|]; [|contradiction].
    destruct (String.eqb (status m) "recognizing text"); [|contradiction].
    apply in_map_iff in He as [n [<- Hn]]. apply P_ok.
    specialize (Hf (percent m)). rewrite Forall_forall in Hf. now apply Hf.
  - intros _. apply respects_bind; [apply respects_await | intros t].
    apply respects_ret.
Qed.

Lemma processScannedPDF_observed buf label onProgress :
  callback_ok ok onProgress ->
  respects I P (processScannedPDF browser buf label onProgress).
Proof.
  intros Hf. unfold processScannedPDF, getPage.
  repeat first
    [ exact load_respects
    | apply lib_getDocument_respects
    | apply notify_observed; exact Hf
    | apply extractTextFromImage_observed; exact Logic.I
    | respects_step ];
    auto.
Qed.

Lemma extractTextFromFile_observed file onProgress :
  callback_ok ok onProgress ->
  respects I P (extractTextFromFile browser file onProgress).
Proof.
  intros Hf. unfold extractTextFromFile.
  repeat first
    [ apply notify_observed; exact Hf
    | apply extractTextFromImage_observed; exact Hf
    | apply processScannedPDF_observed; exact Hf
    | apply extractTextFromPDF_respects
    | apply extractTextFromDocx_respects
    | respects_step ];
    auto.
Qed.

End RespectsObservers.

(** X12: every progress record that [processMultipleFiles] hands to its
    observer says "file i of N" truthfully: [totalFiles] is the number of
    files of the batch, [currentFile] lies between 1 and that number, and
    [fileName] is the name of the file at that position; the observer is
    never handed a bare percentage. *)
Theorem processMultipleFiles_progress_is_well_formed
    (browser : Browser) (files : list File) (w : World) :
  Forall (reports_progress_of files)
    (events (processMultipleFiles browser files recording w)).
Proof.
  assert (H : respects (fun _ => True) (reports_progress_of files)
                (processMultipleFiles browser files recording)).
  2:{ exact (proj2 (H w Logic.I)). }
  assert (Hload : respects (fun _ : World => True) (reports_progress_of files)
                    (loadPdfJs browser)).
  { intros w' _. split; [exact Logic.I|]. unfold loadPdfJs, events.
    destruct (pdfjsLibPromise w'); simpl; repeat constructor. }
  unfold processMultipleFiles.
  apply respects_bind; [apply respects_emit; exact Logic.I | intros _].
  cbv zeta.
  destruct (batch_success (validateMultipleFiles files)) eqn:Hok;
    [| apply respects_throw].
  destruct (batch_success_validFiles files Hok) as [-> _]. cbn [negb].
  apply respects_for_loop. intros i acc Hi.
  apply respects_bind_await. intros file Hfile.
  assert (Hnth : nth_error files i = Some file).
  { destruct (nth_error files i) as [f|]; [|discriminate]. now inversion Hfile. }
  assert (Hp : forall percent,
             progress_of files
               {| currentFile := i + 1; totalFiles := List.length files;
                  progressFileName := name file; progress := percent |}).
  { intros percent. unfold progress_of. cbn.
    split; [reflexivity|]. split; [lia|].
    exists file. split; [|reflexivity].
    now replace (i + 1 - 1) with i by lia. }
  apply respects_bind.
  - apply respects_emit_all. constructor; [apply Hp | constructor].
  - intros _. apply respects_bind; [| intros r; apply respects_ret].
    apply (extractTextFromFile_observed browser _ _ (file_progress_of files));
      try exact Hload; try (intros; exact Logic.I); auto.
    intros percent. constructor; [apply Hp | constructor].
Qed.

End FileHandlerMore.

(* ================================================================== *)
(** ** Further facts about [callGeminiAPI] *)

Module AppMore.
Import JsString App AppSpec AppFacts AppNotions.
Local Open Scope js_scope.

Section WithEnvironment.
Variable Json : Type.
Variable JSON_parse : string -> Outcome Json.
Variable network : nat -> Outcome Response.
Variable Payload : Type.
Variable key : string.
Variable payload : Payload.

Local Abbreviation apiUrl := (AppSpec.apiUrl key).
Local Abbreviation attempt_outcome :=
  (AppSpec.attempt_outcome Json JSON_parse network Payload key payload).
Local Abbreviation loop :=
  (fun fuel maxRetries attempt delay =>
     retry_loop Json JSON_parse network Payload fuel apiUrl payload
       maxRetries attempt delay).

(** X13: an attempt succeeds exactly when the request is answered, the
    answer is ok, its body can be read, the nested text is present and
    non-empty, and the text parses as JSON; the value is then the parsed
    text.  An answer that is not ok fails with 'API Error: ' followed by
    the status and the status text, without its body being looked at. *)
Theorem attempt_succeeds_iff (k : nat) (parsed : Json) :
  (attempt_outcome k = Returned parsed
   <-> exists response text,
         network k = Returned response /\ ok response = true
         /\ json response = Returned (Some text) /\ text <> ""
         /\ JSON_parse text = Returned parsed)
  /\ (forall response,
        network k = Returned response -> ok response = false ->
        attempt_outcome k
        = Thrown ("API Error: " ++ of_N (status response) ++ " "
                  ++ statusText response)).
Proof.
  unfold AppSpec.attempt_outcome, request, fetch, bind, await, throw, result.
  split.
  - destruct (network k) as [response|e]; simpl.
    2:{ split; [discriminate | intros [r [t [H _]]]; discriminate]. }
    destruct (ok response) eqn:Hok; simpl.
    2:{ split; [discriminate|].
        intros [r [t [H [H' _]]]]. inversion H; subst r. congruence. }
    destruct (json response) as [[text|]|e] eqn:Hjson; simpl.
    + destruct (falsy text) eqn:Hf; simpl.
      * split; [discriminate|].
        intros [r [t [H [_ [Ht [Hne _]]]]]]. inversion H; subst r.
        rewrite Hjson in Ht. inversion Ht; subst t.
        apply JsStringFacts.falsy_false_iff in Hne. congruence.
      * destruct (JSON_parse text) as [j|e] eqn:Hp; simpl.
        -- split.
           ++ intros H. inversion H; subst j. exists response, text.
              repeat split; try assumption.
              now apply JsStringFacts.falsy_false_iff.
           ++ intros [r [t [H [_ [Ht [_ Hj]]]]]]. inversion H; subst r.
              rewrite Hjson in Ht. inversion Ht; subst t. congruence.
        -- split; [discriminate|].
           intros [r [t [H [_ [Ht [_ Hj]]]]]]. inversion H; subst r.
           rewrite Hjson in Ht. inversion Ht; subst t. congruence.
    + split; [discriminate|].
      intros [r [t [H [_ [Ht _]]]]]. inversion H; subst r. congruence.
    + split; [discriminate|].
      intros [r [t [H [_ [Ht _]]]]]. inversion H; subst r. congruence.
  - intros response -> Hok. simpl. now rewrite Hok.
Qed.

Lemma backoff_cons n delay :
  1 <= n -> delay :: backoff (n - 1) (delay * 2)%N = backoff n delay.
Proof. destruct n as [|n]; [lia|]. simpl. now rewrite Nat.sub_0_r. Qed.

Lemma retry_loop_spec maxRetries : forall fuel attempt delay k,
  maxRetries <= attempt + fuel ->
  attempt < maxRetries ->
  let run := loop fuel maxRetries attempt delay k in
  let n := fetches (events run) in
  1 <= n <= maxRetries - attempt
  /\ store run = k + n
  /\ timeouts (events run) = backoff (n - 1) delay
  /\ result run = settle (attempt_outcome (k + n - 1))
  /\ (forall i, i < n - 1 -> exists e, attempt_outcome (k + i) = Thrown e)
  /\ (n < maxRetries - attempt -> exists parsed, result run = Returned (Some parsed)).
Proof.
  induction fuel as [|fuel IH]; intros attempt delay k Hfuel Hlt; [lia|].
  cbv zeta. rewrite retry_loop_step by exact Hlt.
  destruct (attempt_outcome k) as [parsed|err] eqn:Hk.
  - unfold result, store, events, fetches. cbn [fst snd filter is_fetch List.length].
    replace (k + 1 - 1) with k by lia. rewrite Hk.
    split; [lia|]. split; [lia|]. split; [reflexivity|]. split; [reflexivity|].
    split; [intros i Hi; lia | intros _; now exists parsed].
  - destruct (Nat.leb_spec maxRetries (S attempt)) as [Hlast|Hmore].
    + unfold result, store, events, fetches.
      cbn [fst snd filter is_fetch List.length].
      replace (k + 1 - 1) with k by lia. rewrite Hk.
      split; [lia|]. split; [lia|]. split; [reflexivity|]. split; [reflexivity|].
      split; [intros i Hi; lia | intros Hn; lia].
    + specialize (IH (S attempt) (delay * 2)%N (S k) ltac:(lia) ltac:(lia)).
      cbv zeta in IH.
      set (next := retry_loop Json JSON_parse network Payload fuel apiUrl payload
                     maxRetries (S attempt) (delay * 2)%N (S k)) in *.
      destruct IH as [[Hn1 Hn2] [Hs [Ht [Hr [Hfail Hearly]]]]].
      set (n := fetches (events next)) in *.
      match goal with
      | |- context [fetches (events ?x)] => set (run := x)
      end.
      assert (Ef : fetches (events run) = S n) by reflexivity.
      assert (Et : timeouts (events run) = delay :: timeouts (events next))
        by reflexivity.
      assert (Es : store run = store next) by reflexivity.
      assert (Er : result run = result next) by reflexivity.
      rewrite Ef, Et, Es, Er.
      split; [lia|]. split; [lia|]. split.
      { rewrite Ht. replace (S n - 1) with n by lia. now apply backoff_cons. }
      split.
      { rewrite Hr. f_equal. f_equal. lia. }
      split.
      { intros [|i] Hi.
        - exists err. now rewrite Nat.add_0_r.
        - destruct (Hfail i ltac:(lia)) as [e He]. exists e.
          now replace (k + S i) with (S k + i) by lia. }
      intros Hn. apply Hearly. lia.
Qed.

(** X14: for any [maxRetries] and a configured key, the client makes at
    most [maxRetries] attempts and at least one unless [maxRetries] is 0,
    in which case it returns [undefined] without any request; it stops at
    the first attempt that succeeds, so every earlier attempt failed and
    the call ends as its last attempt did; between attempts it waits 1000
    ms, 2000 ms, 4000 ms and so on, doubling each time. *)
Theorem callGeminiAPI_retries_with_doubling_delays (maxRetries k : nat) :
  falsy key = false ->
  let run := AppSpec.call Json JSON_parse network Payload key payload
               (Some maxRetries) k in
  let n := fetches (events run) in
  n <= maxRetries
  /\ store run = k + n
  /\ timeouts (events run) = backoff (n - 1) 1000
  /\ (maxRetries = 0 -> run = (Returned None, k, []))
  /\ (0 < maxRetries ->
      1 <= n
      /\ result run = settle (attempt_outcome (k + n - 1))
      /\ (forall i, i < n - 1 -> exists e, attempt_outcome (k + i) = Thrown e)
      /\ (n < maxRetries -> exists parsed, result run = Returned (Some parsed))).
Proof.
  intros Hkey. cbv zeta. unfold AppSpec.call, callGeminiAPI. rewrite Hkey.
  fold apiUrl.
  destruct maxRetries as [|m].
  - cbn. repeat split; try reflexivity; try lia.
  - destruct (retry_loop_spec (S m) (S m) 0 1000%N k ltac:(lia) ltac:(lia))
      as [[H1 H2] [Hs [Ht [Hr [Hfail Hearly]]]]].
    cbv beta in *.
    split; [lia|]. split; [exact Hs|]. split; [exact Ht|].
    split; [discriminate|]. intros _.
    split; [exact H1|]. split; [exact Hr|]. split; [exact Hfail|].
    intros Hn. apply Hearly. lia.
Qed.

End WithEnvironment.

Lemma callGeminiAPI_retries_with_doubling_delays_witness :
  let run := AppSpec.call nat sample_parse unavailable_network unit "secret" tt
               (Some 4) 0 in
  fetches (events run) = 4
  /\ timeouts (events run) = [1000; 2000; 4000]%N
  /\ result run = Thrown "API Error: 503 Service Unavailable".
Proof.
  cbv zeta.
  destruct (callGeminiAPI_retries_with_doubling_delays
              nat sample_parse unavailable_network unit "secret" tt 4 0 eq_refl)
    as [_ [_ [Ht [_ H]]]].
  destruct (H ltac:(lia)) as [_ [Hr _]].
  assert (Hn : fetches (events (AppSpec.call nat sample_parse unavailable_network
                                  unit "secret" tt (Some 4) 0)) = 4)
    by (vm_compute; reflexivity).
  rewrite Hn in Ht, Hr.
  split; [exact Hn|]. split; [exact Ht | exact Hr].
Defined.

End AppMore.

(* ================================================================== *)
(** ** Facts about the handlers of the application component *)

Module HandlersFacts.
Import JsString JsStringFacts FileHandler App AppSpec AppFacts AppNotions.
Import AppHandlers HandlersNotions.
Local Open Scope js_scope.

Section WithEnvironment.
Variable JSON_parse : string -> Outcome Json.
Variable apiKey : option string.
Variable network : nat -> Outcome App.Response.
Variable Payload : Type.
Variable atsPayload : string -> string -> string -> Payload.
Variable internshipPayload : string -> string -> Payload.
Variable interviewPayload : string -> string -> string -> Payload.




End WithEnvironment.

(** X16: [handleAnalyze] never throws.  When the resume, the job
    description or the experience level is empty it only shows the
    missing-inputs message: earlier results stay and [loading] is not
    touched.  Otherwise it always ends with [loading] off and the interview
    questions cleared; when the calls fail, the error is shown over no
    analysis and no internships; when they succeed the analysis is the first
    response and the internships are [qualifiedInternships] of the second, or
    the empty array when that is missing or falsy; and when the second
    response is null or undefined the analysis is set and the error is
    shown as well. *)
Theorem handleAnalyze_settles
    (settled : Outcome (Value * Value)) (k : nat) (s : AppState) :
  let run := handleAnalyze settled (k, s) in
  let s' := snd (store run) in
  result run = Returned tt
  /\ fst (store run) = k
  /\ resume s' = resume s /\ jobDescription s' = jobDescription s
  /\ experienceLevel s' = experienceLevel s
  /\ uploadedFiles s' = uploadedFiles s /\ uploadError s' = uploadError s
  /\ if falsy (resume s) || falsy (jobDescription s) || falsy (experienceLevel s)
     then s' = withError inputs_missing s
     else
       loading s' = false
       /\ interviewQuestions s' = empty_array /\ questionsError s' = ""
       /\ match settled with
          | Thrown _ =>
              error s' = analysis_failed
              /\ analysisResult s' = Some JNull /\ internships s' = empty_array
          | Returned (atsResponse, internshipResponse) =>
              analysisResult s' = atsResponse
              /\ match get internshipResponse "qualifiedInternships" with
                 | Returned qualified =>
                     error s' = "" /\ internships s' = or_empty_array qualified
                 | Thrown _ =>
                     error s' = analysis_failed /\ internships s' = empty_array
                 end
          end.
Proof.
  cbv zeta. unfold handleAnalyze. cbn [snd].
  destruct (falsy (resume s) || falsy (jobDescription s)
            || falsy (experienceLevel s)).
  - unfold setState, result, store. cbn. repeat split.
  - unfold bind, try_catch, setState, emit, await, ret, result, store.
    cbn [fst snd].
    destruct settled as [[atsResponse internshipResponse]|e]; cbn.
    + destruct (get internshipResponse "qualifiedInternships") as [q|e]; cbn;
        repeat split.
    + repeat split.
Qed.

(** X17: [handleFilesProcessed] stores the files, clears the upload error
    and makes the resume the texts of the files joined by a line of three
    dashes between blank lines; when no text is empty, as for successes of
    the pipeline, the resume is empty exactly when there is no file, so
    that uploading at least one success always gives a resume to
    analyse. *)
Theorem handleFilesProcessed_resume (files : list ExtractionResult) (s : AppState) :
  Forall (fun r => text_of r <> "") files ->
  let s' := handleFilesProcessed files s in
  resume s' = join separator (map text_of files)
  /\ uploadedFiles s' = files /\ uploadError s' = ""
  /\ (resume s' = "" <-> files = []).
Proof.
  intros Hall. cbv zeta. unfold handleFilesProcessed. cbn.
  split; [reflexivity|]. split; [reflexivity|]. split; [reflexivity|].
  destruct files as [|r rest]; [split; reflexivity|].
  split; [|discriminate].
  inversion Hall as [|? ? Hr _]; subst.
  unfold join. cbn [map String.concat].
  destruct (text_of r) as [|c t]; [contradiction|].
  destruct (map text_of rest); discriminate.
Qed.

Lemma handleFilesProcessed_resume_witness :
  let files := [Success "Jane Doe" "Direct text reading" "cv.txt" 8 "text/plain";
                Success "Dear Sir" "OCR (image)" "letter.png" 9 "image/png"] in
  resume (handleFilesProcessed files initial)
  = "Jane Doe" ++ separator ++ "Dear Sir".
Proof.
  cbv zeta.
  refine (proj1 (handleFilesProcessed_resume
                   [Success "Jane Doe" "Direct text reading" "cv.txt" 8 "text/plain";
                    Success "Dear Sir" "OCR (image)" "letter.png" 9 "image/png"]
                   initial _)).
  repeat constructor; discriminate.
Defined.

End HandlersFacts.

(* ================================================================== *)
(** ** Facts about the upload component *)

Module UploadFacts.
Import JsString JsStringFacts FileHandler FileHandlerSpec FileHandlerFacts.
Import AppHandlers HandlersNotions Upload UploadNotions.
Local Open Scope js_scope.

Lemma props_pipeline (l : list FileHandler.Event) (rest : list Upload.Event) :
  props (map Pipeline l ++ rest) = props rest.
Proof. induction l as [|e l IH]; simpl; [reflexivity | exact IH]. Qed.

Lemma parent_pipeline (l : list FileHandler.Event) (rest : list Upload.Event) s :
  parent (map Pipeline l ++ rest) s = parent rest s.
Proof. induction l as [|e l IH]; simpl; [reflexivity | exact IH]. Qed.

Lemma props_props_for results : props (props_for results) = props_for results.
Proof.
  unfold props_for.
  destruct (0 <? List.length (failures results))%nat;
    destruct (0 <? List.length (successes results))%nat; reflexivity.
Qed.

Lemma without_index_none {A} (l : list A) : forall start k,
  k < start ->
  map snd (filter (fun '(i, _) => negb (Nat.eqb i k))
             (combine (seq start (List.length l)) l)) = l.
Proof.
  induction l as [|x l IH]; intros start k Hk; [reflexivity|].
  cbn [List.length seq combine filter].
  destruct (Nat.eqb_spec start k) as [Heq|_]; [lia|].
  cbn [negb map snd]. f_equal. apply IH. lia.
Qed.

Lemma without_index_from {A} (l : list A) : forall start index,
  map snd (filter (fun '(i, _) => negb (Nat.eqb i (start + index)))
             (combine (seq start (List.length l)) l))
  = (firstn index l ++ skipn (S index) l)%list.
Proof.
  induction l as [|x l IH]; intros start index.
  - now destruct index.
  - cbn [List.length seq combine filter].
    destruct index as [|index].
    + rewrite Nat.add_0_r, Nat.eqb_refl. cbn [negb firstn skipn app].
      apply without_index_none. lia.
    + destruct (Nat.eqb_spec start (start + S index)) as [Heq|_]; [lia|].
      cbn [negb map snd firstn skipn app]. f_equal.
      replace (start + S index) with (S start + index) by lia. apply IH.
Qed.

(** X22: [removeFile] drops the file at the given position and keeps the
    others in order; a position past the end changes nothing; in every case
    the parent is told the new list once, and so recomputes the resume
    from the files that remain. *)
Theorem removeFile_drops_one_position (index : nat) (w : Store) (s : AppState) :
  let old := Upload.uploadedFiles (snd w) in
  let run := removeFile index w in
  let new := Upload.uploadedFiles (snd (store run)) in
  result run = Returned tt
  /\ new = (firstn index old ++ skipn (S index) old)%list
  /\ events run = [OnFilesProcessed new]
  /\ (index < List.length old -> S (List.length new) = List.length old)
  /\ (List.length old <= index -> new = old)
  /\ resume (parent (events run) s) = join separator (map text_of new).
Proof.
  cbv zeta.
  assert (Hnew : without_index index (Upload.uploadedFiles (snd w))
                 = (firstn index (Upload.uploadedFiles (snd w))
                    ++ skipn (S index) (Upload.uploadedFiles (snd w)))%list)
    by apply (without_index_from _ 0 index).
  unfold removeFile, bind, setState, emit, result, store, events.
  cbn [fst snd Upload.uploadedFiles withUploadedFiles app parent].
  rewrite Hnew.
  set (old := Upload.uploadedFiles (snd w)).
  split; [reflexivity|]. split; [reflexivity|]. split; [reflexivity|].
  split; [|split; [|reflexivity]].
  - intros Hi. rewrite length_app, length_firstn, length_skipn. lia.
  - intros Hi. rewrite firstn_all2, skipn_all2 by lia. apply app_nil_r.
Qed.

Section WithBrowser.
Variable browser : Browser.
Variable disabled : bool.

(** The run of [handleFiles] on a selection that is not empty, from the
    run of the pipeline. *)
Lemma handleFiles_run (files : list File) (w : Store) :
  files <> [] ->
  let run := processMultipleFiles browser files observer (fst w) in
  handleFiles browser files w
  = (Returned tt,
     (store run,
      settled_with
        match result run with
        | Returned results => successes results
        | Thrown _ => []
        end (snd w)),
     (map Pipeline (events run)
      ++ match result run with
         | Returned results => props_for results
         | Thrown e => [OnError e]
         end)%list).
Proof.
  intros Hne. cbv zeta. unfold handleFiles.
  destruct files as [|f files]; [contradiction|]. cbn [List.length Nat.eqb].
  unfold bind, try_catch, pipeline, setState, emit, ret, observer.
  cbn [fst snd].
  destruct (processMultipleFiles browser (f :: files)
              (Some (fun progress => [FileProgress progress])) (fst w))
    as [[r world] l].
  unfold result, store, events, props_for, settled_with, successes, failures,
    failure_report. cbn [fst snd].
  destruct r as [results|e]; cbn [fst snd].
  - destruct (0 <? List.length (filter (fun result => negb (is_success result)) results))%nat;
      destruct (filter is_success results) as [|r0 rs] eqn:Hs;
      cbn; rewrite ?app_nil_r; reflexivity.
  - cbn. rewrite ?app_nil_r. reflexivity.
Qed.

Lemma returns_for_loop {W E A} (Q : A -> Prop) n :
  forall start (body : nat -> A -> Js W E A) acc,
  (forall i a, Q a -> returns Q (body i a)) ->
  Q acc -> returns Q (for_loop n start body acc).
Proof.
  induction n as [|n IH]; intros start body acc Hbody Hacc; simpl.
  - now apply returns_ret.
  - apply returns_bind_strong with (Q1 := Q); [now apply Hbody|].
    intros a Ha. now apply IH.
Qed.

(** Every success returned by the pipeline carries a text. *)
Lemma processMultipleFiles_successes_have_text files onProgress :
  returns (Forall has_text) (processMultipleFiles browser files onProgress).
Proof.
  unfold processMultipleFiles. apply returns_bind. intros _. cbv zeta.
  destruct (negb (batch_success (validateMultipleFiles files)));
    [apply returns_throw|].
  apply returns_for_loop; [|constructor].
  intros i acc Hacc. apply returns_bind. intros file.
  apply returns_bind. intros _.
  apply returns_bind_strong with (Q1 := success_text_ok file);
    [apply extractTextFromFile_success_text|].
  intros r Hr. apply returns_ret. apply Forall_app. split; [exact Hacc|].
  constructor; [|constructor].
  destruct r; simpl in *; [tauto | exact Logic.I].
Qed.

(** X18: [handleFiles] never throws: whatever the pipeline does, including
    throwing for a rejected batch or an unreadable file, the component ends
    up not processing, with no progress shown, and an error of the
    pipeline is handed to [onError] as the last call; an empty selection
    does nothing at all. *)
Theorem handleFiles_always_settles (files : list File) (w : Store) :
  let run := handleFiles browser files w in
  let s' := snd (store run) in
  result run = Returned tt
  /\ (files = [] -> run = (Returned tt, w, []))
  /\ (files <> [] ->
      isProcessing s' = false /\ processingProgress s' = None
      /\ isDragOver s' = isDragOver (snd w)
      /\ forall e,
           result (processMultipleFiles browser files observer (fst w)) = Thrown e ->
           uploadedFiles s' = []
           /\ props (events run) = [OnError e]).
Proof.
  cbv zeta. destruct files as [|f files].
  - unfold handleFiles. cbn. split; [reflexivity|].
    split; [intros _; now destruct w | intros H; now contradiction H].
  - rewrite (handleFiles_run (f :: files) w ltac:(discriminate)).
    unfold result at 1, store, events. cbn [fst snd].
    split; [reflexivity|]. split; [discriminate|]. intros _.
    split; [reflexivity|]. split; [reflexivity|]. split; [reflexivity|].
    intros e ->. split; [reflexivity|]. now rewrite props_pipeline.
Qed.

(** X19: when the batch is rejected by validation (too many files or any
    invalid file), [handleFiles] extracts nothing: it clears the list of
    uploaded files, hands the single message 'File validation failed: ...'
    to [onError] and never calls [onFilesProcessed], so that the parent only
    records the upload error and keeps the resume it had. *)
Theorem handleFiles_rejected_batch (files : list File) (w : Store)
    (s : AppState) :
  batch_success (validateMultipleFiles files) = false ->
  let message :=
    "File validation failed: " ++ join ", " (errors (validateMultipleFiles files)) in
  handleFiles browser files w
  = (Returned tt, (fst w, settled_with [] (snd w)),
     [Pipeline (Called "processMultipleFiles"); OnError message])
  /\ parent (events (handleFiles browser files w)) s = withUploadError message s
  /\ resume (parent (events (handleFiles browser files w)) s) = resume s.
Proof.
  intros Hrej. cbv zeta.
  assert (Hne : files <> []) by (intros ->; discriminate Hrej).
  assert (Hrun : handleFiles browser files w
                 = (Returned tt, (fst w, settled_with [] (snd w)),
                    [Pipeline (Called "processMultipleFiles");
                     OnError ("File validation failed: "
                              ++ join ", " (errors (validateMultipleFiles files)))])).
  { rewrite (handleFiles_run files w Hne). cbv zeta.
    now rewrite (processMultipleFiles_rejected browser files observer (fst w) Hrej). }
  rewrite Hrun. split; [reflexivity|]. split; reflexivity.
Qed.

(** X20: when the batch passes validation and every buffer is read,
    [handleFiles] leaves as uploaded files exactly the successes, in the
    order of the selection; it calls [onError] exactly when some file
    failed, once, with a message that lists every failed file with its
    error, and then [onFilesProcessed] exactly when some file succeeded,
    once, with the successes; every file is accounted for as a success or
    a failure. *)
Theorem handleFiles_accepted_batch (files : list File) (w : Store) :
  files <> [] ->
  batch_success (validateMultipleFiles files) = true ->
  Forall readable files ->
  exists results,
    result (processMultipleFiles browser files observer (fst w)) = Returned results
    /\ Forall2 describes files results
    /\ uploadedFiles (snd (store (handleFiles browser files w))) = successes results
    /\ props (events (handleFiles browser files w)) = props_for results
    /\ List.length (successes results) + List.length (failures results)
       = List.length files.
Proof.
  intros Hne Hok Hread.
  destruct (processMultipleFiles_one_result_per_file browser files observer
              (fst w) Hok Hread) as [results [Hres Hdesc]].
  exists results. split; [exact Hres|]. split; [exact Hdesc|].
  rewrite (handleFiles_run files w Hne). cbv zeta. rewrite Hres.
  unfold store, events. cbn [fst snd].
  split; [reflexivity|]. split; [rewrite props_pipeline; apply props_props_for|].
  unfold successes, failures.
  rewrite FileHandlerMore.filter_split_length.
  symmetry. now apply Forall2_length in Hdesc.
Qed.

Lemma join_not_empty sep (texts : list string) t :
  t <> "" -> join sep (t :: texts) <> "".
Proof.
  intros Ht. unfold join. cbn [String.concat].
  destruct t as [|c t]; [contradiction|].
  destruct texts; discriminate.
Qed.

(** X21: what the parent holds after [handleFiles] returned results: if at
    least one file succeeded, the resume is the texts of the successes
    joined by the separator and is not empty, and the upload error is
    empty even when other files failed, because [handleFilesProcessed]
    clears the error that [onError] had just set; if no file succeeded, the
    resume is the one the parent had and the upload error is the report of
    the failures. *)
Theorem handleFiles_parent (files : list File) (w : Store) (s : AppState)
    (results : list ExtractionResult) :
  files <> [] ->
  result (processMultipleFiles browser files observer (fst w)) = Returned results ->
  let s' := parent (events (handleFiles browser files w)) s in
  match successes results with
  | [] =>
      resume s' = resume s
      /\ (results <> [] -> uploadError s' = failure_report results)
  | _ :: _ =>
      resume s' = join separator (map text_of (successes results))
      /\ resume s' <> ""
      /\ AppHandlers.uploadedFiles s' = successes results
      /\ uploadError s' = ""
  end.
Proof.
  intros Hne Hres. cbv zeta.
  pose proof (processMultipleFiles_successes_have_text files observer (fst w)
                results Hres) as Htext.
  rewrite (handleFiles_run files w Hne). cbv zeta. rewrite Hres.
  unfold events. cbn [snd]. rewrite parent_pipeline.
  unfold props_for.
  assert (Hsplit : List.length (successes results) + List.length (failures results)
                   = List.length results)
    by apply FileHandlerMore.filter_split_length.
  destruct (successes results) as [|r rs] eqn:Hs.
  - cbn [List.length Nat.ltb Nat.leb app] in *.
    destruct (failures results) as [|x xs] eqn:Hf.
    + cbn. split; [reflexivity|]. intros Hr. destruct results; [congruence|].
      discriminate Hsplit.
    + cbn. split; reflexivity.
  - assert (Hr : has_text r).
    { assert (Hin : In r (successes results)) by (rewrite Hs; now left).
      unfold successes in Hin. apply filter_In in Hin as [Hin _].
      rewrite Forall_forall in Htext. now apply Htext. }
    assert (Hsucc : is_success r = true).
    { assert (Hin : In r (successes results)) by (rewrite Hs; now left).
      unfold successes in Hin. now apply filter_In in Hin as [_ Hin]. }
    assert (Hne' : text_of r <> "").
    { destruct r; [exact Hr | discriminate Hsucc]. }
    change (0 <? List.length (r :: rs))%nat with true. cbv iota.
    assert (Hparent : forall s0,
              let s' := handleFilesProcessed (r :: rs) s0 in
              resume s' = join separator (map text_of (r :: rs))
              /\ resume s' <> ""
              /\ AppHandlers.uploadedFiles s' = r :: rs
              /\ uploadError s' = "").
    { intros s0. cbv zeta. split; [reflexivity|]. split; [|split; reflexivity].
      change (resume (handleFilesProcessed (r :: rs) s0))
        with (join separator (text_of r :: map text_of rs)).
      now apply join_not_empty. }
    destruct (0 <? List.length (failures results))%nat.
    + exact (Hparent (handleUploadError (failure_report results) s)).
    + exact (Hparent s).
Qed.

End WithBrowser.

Lemma handleFiles_always_settles_witness :
  let run := handleFiles sample_browser
               [text_file "Hello World"; vanished_file] (fresh, idle) in
  snd (store run) = idle
  /\ props (events run) = [OnError "The requested file could not be read"].
Proof.
  cbv zeta.
  destruct (handleFiles_always_settles sample_browser
              [text_file "Hello World"; vanished_file] (fresh, idle))
    as [_ [_ H]].
  destruct (H ltac:(discriminate)) as [H1 [H2 [H3 H4]]].
  destruct (H4 "The requested file could not be read" eq_refl) as [H5 H6].
  split; [|exact H6].
  destruct (snd (store (handleFiles sample_browser
                          [text_file "Hello World"; vanished_file] (fresh, idle)))).
  cbn in *. now subst.
Defined.

Lemma handleFiles_rejected_batch_witness :
  handleFiles sample_browser [text_file "Hello World"; gif_file] (fresh, idle)
  = (Returned tt, (fresh, idle),
     [Pipeline (Called "processMultipleFiles");
      OnError "File validation failed: anim.gif: Unsupported file type: image/gif. Supported types: PDF, TXT, DOCX, DOC, PNG, JPG"]).
Proof.
  exact (proj1 (handleFiles_rejected_batch sample_browser
                  [text_file "Hello World"; gif_file] (fresh, idle) initial
                  eq_refl)).
Defined.

Lemma handleFiles_accepted_batch_witness :
  exists results,
    result (processMultipleFiles sample_browser
              [text_file "Hello World"; text_file "  "] observer fresh)
    = Returned results
    /\ props (events (handleFiles sample_browser
                        [text_file "Hello World"; text_file "  "] (fresh, idle)))
       = props_for results.
Proof.
  destruct (handleFiles_accepted_batch sample_browser
              [text_file "Hello World"; text_file "  "] (fresh, idle))
    as [results [H1 [_ [_ [H2 _]]]]].
  - discriminate.
  - reflexivity.
  - repeat constructor; apply readable_text_file.
  - exists results. now split.
Defined.

Lemma handleFiles_parent_witness :
  let s' := parent (events (handleFiles sample_browser
                              [text_file "Hello World"; text_file "  "]
                              (fresh, idle))) initial in
  resume s' = "Hello World" /\ uploadError s' = "".
Proof.
  cbv zeta.
  pose proof (handleFiles_parent sample_browser
                [text_file "Hello World"; text_file "  "] (fresh, idle) initial
                [Success "Hello World" "Direct text reading" "resume.txt" 11 "text/plain";
                 Failure "No text content found in the file" "resume.txt" 2 "text/plain"]
                ltac:(discriminate) eq_refl) as H.
  cbv zeta in H. cbn [successes filter is_success] in H.
  destruct H as [H1 [_ [_ H4]]]. split; [rewrite H1; reflexivity | exact H4].
Defined.

End UploadFacts.
